(** * DataVisualizerPro: loader, analyzer and chart builder

    A shallow embedding of [utils/file_handler.py], [utils/data_analyzer.py]
    and [utils/chart_generator.py].

    Conventions.
    - A Python call either returns or raises: [outcome].  The third
      constructor [Unmodelled] marks the few inputs on which the behaviour of
      pandas is not described by this development (they are named where they
      occur); the theorems about results are stated for inputs that do not
      reach it, or, for the block of the page that catches every exception,
      for whatever the libraries do there.
    - pandas and plotly are libraries, not code of the repository.  Their
      operations are given the meaning their documentation gives them, in
      exact rational arithmetic ([Q]) in place of int64 and binary floating
      point; the statistics that need square roots are either parameters of
      a section or, for the correlation matrix, written over the real
      numbers.
    - Exact arithmetic is the arithmetic of pandas as long as no sum wraps
      or rounds and the order of sorted groups does not depend on how ties
      are broken.  The theorems that state computed sums, quartiles or the
      groups kept carry that as a hypothesis ([exact_sums],
      [exact_quartiles], [no_ties]).
    - plotly accepts a figure height of 10 or more; plotly express leaves a
      height of 0 out of the figure ([px_height]).
    - [Spec] holds the notions the specification names (quantiles, outliers,
      Pearson's coefficient), written from its words; the code is compared
      with them. *)

From Stdlib Require Import List String Ascii Bool Arith ZArith QArith Qround Qabs.
From Stdlib Require Import Reals Lia Psatz Permutation Sorted.
Import ListNotations.

Local Open Scope string_scope.
Local Open Scope list_scope.

Set Warnings "-register-all".

(** ** Outcomes of Python calls *)

Inductive exn : Type :=
| KeyError (key : string)
| ValueError (msg : string)
| TypeError (msg : string)
| Exception (msg : string).

Inductive outcome (A : Type) : Type :=
| Ok (a : A)
| Raise (e : exn)
| Unmodelled (why : string).

Arguments Ok {A} a.
Arguments Raise {A} e.
Arguments Unmodelled {A} why.

Definition bind {A B : Type} (m : outcome A) (k : A -> outcome B) : outcome B :=
  match m with
  | Ok a => k a
  | Raise e => Raise e
  | Unmodelled w => Unmodelled w
  end.

Notation "x <- m ;; k" := (bind m (fun x => k))
  (at level 61, m at next level, right associativity).

(** ** Values *)

(** A parsed JSON document ([json.load]). *)
Inductive json : Type :=
| JNull
| JBool (b : bool)
| JNum (q : Q)
| JStr (s : string)
| JArr (items : list json)
| JObj (members : list (string * json)).

(** One cell of a frame.  [CNull] is None/NaN; [CObj] is a Python list or
    dict sitting in an object column (not hashable). *)
Inductive cell : Type :=
| CNull
| CNum (q : Q)
| CStr (s : string)
| CBool (b : bool)
| CObj (j : json).

Inductive numeric_dtype : Type := int64 | float64.

(** A column with its dtype: numeric (int64/float64, NaN = [None]), bool, or
    object. *)
Inductive Series : Type :=
| NumSeries (dt : numeric_dtype) (values : list (option Q))
| BoolSeries (values : list bool)
| ObjSeries (values : list cell).

(** A frame: the length of its index and its labelled columns, in order. *)
Record DataFrame : Type := mkDataFrame {
  index_len : nat;
  columns : list (string * Series)
}.

Definition num_cell (v : option Q) : cell :=
  match v with Some q => CNum q | None => CNull end.

Definition cells (s : Series) : list cell :=
  match s with
  | NumSeries _ vs => map num_cell vs
  | BoolSeries vs => map CBool vs
  | ObjSeries vs => vs
  end.

Definition series_len (s : Series) : nat := List.length (cells s).

Fixpoint lookup {A : Type} (k : string) (d : list (string * A)) : option A :=
  match d with
  | [] => None
  | (k', v) :: d' => if String.eqb k k' then Some v else lookup k d'
  end.

(** [df[col]] *)
Definition getitem (df : DataFrame) (col : string) : outcome Series :=
  match lookup col (columns df) with
  | Some s => Ok s
  | None => Raise (KeyError col)
  end.

(** *** Keys: equality and order of hashable cells

    Python compares and hashes [True] as [1] and [False] as [0]; strings are
    ordered by code point, and pandas sorts numbers before strings. *)
Inductive key : Type := KNum (q : Q) | KStr (s : string).

Definition cell_key (c : cell) : option key :=
  match c with
  | CNum q => Some (KNum q)
  | CBool b => Some (KNum (if b then 1 else 0))
  | CStr s => Some (KStr s)
  | CNull | CObj _ => None
  end.

Definition key_eqb (a b : key) : bool :=
  match a, b with
  | KNum p, KNum q => Qeq_bool p q
  | KStr s, KStr t => String.eqb s t
  | _, _ => false
  end.

Definition key_leb (a b : key) : bool :=
  match a, b with
  | KNum p, KNum q => Qle_bool p q
  | KNum _, KStr _ => true
  | KStr _, KNum _ => false
  | KStr s, KStr t => String.leb s t
  end.

Definition cell_eqb (a b : cell) : bool :=
  match cell_key a, cell_key b with
  | Some x, Some y => key_eqb x y
  | _, _ => false
  end.

Definition cell_leb (a b : cell) : bool :=
  match cell_key a, cell_key b with
  | Some x, Some y => key_leb x y
  | _, _ => true
  end.

Definition is_null (c : cell) : bool :=
  match c with CNull => true | _ => false end.

Definition hashable (c : cell) : bool :=
  match c with CObj _ => false | _ => true end.

Definition Qlt_bool (a b : Q) : bool := negb (Qle_bool b a).

(** Sum of a column of numbers, left to right from 0. *)
Definition sumQ (l : list Q) : Q := fold_left Qplus l 0%Q.

(** The non-NaN values of a numeric column ([skipna]). *)
Fixpoint dropna (l : list (option Q)) : list Q :=
  match l with
  | [] => []
  | Some q :: l' => q :: dropna l'
  | None :: l' => dropna l'
  end.

(** * pandas operations used by the three files *)

Module Pandas.

(** *** [nunique], [groupby(...).sum()], [sort_values] *)

Definition seen (k : cell) (ks : list cell) : bool := existsb (cell_eqb k) ks.

(** The distinct non-null values, in order of first appearance. *)
Fixpoint unique_from (acc xs : list cell) : list cell :=
  match xs with
  | [] => acc
  | x :: xs' =>
      if is_null x || seen x acc then unique_from acc xs'
      else unique_from (acc ++ [x]) xs'
  end.

Definition unique (xs : list cell) : list cell := unique_from [] xs.

Definition check_hashable (xs : list cell) : outcome unit :=
  if forallb hashable xs then Ok tt
  else Raise (TypeError "unhashable type").

(** [s.nunique()]: the number of distinct non-null values. *)
Definition nunique (s : Series) : outcome nat :=
  _ <- check_hashable (cells s) ;;
  Ok (List.length (unique (cells s))).

Fixpoint insert_key (k : cell) (l : list cell) : list cell :=
  match l with
  | [] => [k]
  | h :: t => if cell_leb k h then k :: h :: t else h :: insert_key k t
  end.

Definition sort_keys (l : list cell) : list cell := fold_right insert_key [] l.

(** The y values of the rows whose x value is [k]. *)
Fixpoint group_values (k : cell) (xs : list cell) (ys : list (option Q))
  : list (option Q) :=
  match xs, ys with
  | x :: xs', y :: ys' =>
      if cell_eqb x k then y :: group_values k xs' ys'
      else group_values k xs' ys'
  | _, _ => []
  end.

(** The values a column contributes to a sum; strings are not summed here. *)
Definition summands (s : Series) : outcome (list (option Q)) :=
  match s with
  | NumSeries _ vs => Ok vs
  | BoolSeries vs => Ok (map (fun b : bool => Some (if b then 1 else 0)%Q) vs)
  | ObjSeries _ => Unmodelled "sum of an object column"
  end.

(** One row per distinct non-null x value, sorted by x, holding the sum of
    the non-NaN y values of that group.  The sum is the exact one: it is the
    sum pandas computes when no addition wraps (int64) or rounds (float64),
    see [exact_sums] below. *)
Definition group_sums (xs : list cell) (vs : list (option Q))
  : list (cell * Q) :=
  map (fun k => (k, sumQ (dropna (group_values k xs vs))))
      (sort_keys (unique xs)).

(** [df.groupby(x_column)[y_column].sum().reset_index()].  [reset_index]
    cannot insert a column that is already there, so x and y must differ. *)
Definition groupby_sum (df : DataFrame) (x_column y_column : string)
  : outcome (list (cell * Q)) :=
  xs <- getitem df x_column ;;
  _ <- check_hashable (cells xs) ;;
  ys <- getitem df y_column ;;
  vs <- summands ys ;;
  if String.eqb x_column y_column
  then Raise (ValueError
                ("cannot insert " ++ x_column ++ ", already exists")%string)
  else Ok (group_sums (cells xs) vs).

(** [sort_values(by=y_column, ascending=False)].  pandas leaves the order of
    rows with equal values open; here they keep their order, so the result
    is the one of pandas when no two values are equal, see [no_ties]
    below. *)
Fixpoint insert_desc (g : cell * Q) (l : list (cell * Q)) : list (cell * Q) :=
  match l with
  | [] => [g]
  | h :: t =>
      if Qlt_bool (snd g) (snd h) then h :: insert_desc g t else g :: h :: t
  end.

Definition sort_values_desc (l : list (cell * Q)) : list (cell * Q) :=
  fold_right insert_desc [] l.

(** *** [pd.DataFrame(records)] and [pd.json_normalize]

    A Python dict with string keys is a list of pairs whose keys are
    pairwise different, in insertion order. *)

Definition record : Type := list (string * json).

(** [d[k] = v] *)
Fixpoint dict_set {A : Type} (d : list (string * A)) (k : string) (v : A)
  : list (string * A) :=
  match d with
  | [] => [(k, v)]
  | (k', v') :: d' =>
      if String.eqb k k' then (k, v) :: d' else (k', v') :: dict_set d' k v
  end.

(** [{**a, **b}] *)
Definition dict_update {A : Type} (a b : list (string * A))
  : list (string * A) :=
  fold_left (fun d kv => dict_set d (fst kv) (snd kv)) b a.

Definition is_dict (j : json) : bool :=
  match j with JObj _ => true | _ => false end.

Definition is_list (j : json) : bool :=
  match j with JArr _ => true | _ => false end.

(** The key of a nested member: the path so far, a dot, the member's key. *)
Definition join_key (key_string k : string) : string :=
  if String.eqb key_string "" then k else (key_string ++ "." ++ k)%string.

(** [_normalise_json]: flatten nested objects into dotted keys. *)
Fixpoint normalise_json (data : json) (key_string : string)
    (normalized_dict : record) : record :=
  match data with
  | JObj members =>
      (fix each (ms : list (string * json)) (acc : record) : record :=
         match ms with
         | [] => acc
         | (k, v) :: ms' =>
             each ms' (normalise_json v (join_key key_string k) acc)
         end) members normalized_dict
  | _ => dict_set normalized_dict key_string data
  end.

(** [_normalise_json_ordered]: the members that are not objects first, then
    the flattened nested ones. *)
Definition normalise_json_ordered (data : record) : record :=
  let top_dict := filter (fun kv => negb (is_dict (snd kv))) data in
  let nested_dict :=
    normalise_json (JObj (filter (fun kv => is_dict (snd kv)) data)) "" [] in
  dict_update top_dict nested_dict.

(** [_simple_json_normalize] on one element of the list: an object is
    flattened, anything else that is not a list gives the empty dict. *)
Definition simple_json_normalize (ds : json) : record :=
  match ds with
  | JObj members => normalise_json_ordered members
  | _ => []
  end.

Definition json_cell (j : json) : cell :=
  match j with
  | JNull => CNull
  | JBool b => CBool b
  | JNum q => CNum q
  | JStr s => CStr s
  | JArr _ | JObj _ => CObj j
  end.

(** The keys of the records in order of first appearance. *)
Definition union_keys (records : list record) : list string :=
  fold_left
    (fun keys r =>
       fold_left
         (fun keys kv =>
            if existsb (String.eqb (fst kv)) keys then keys
            else keys ++ [fst kv])
         r keys)
    records [].

(** dtype inference of a column built from Python objects: numbers, with
    NaN for what is missing, make a numeric column; booleans a bool column;
    anything else an object column.  (A JSON number is read as an integer
    when it has no fractional part.) *)
Definition is_integral (q : Q) : bool := Pos.eqb (Qden (Qred q)) 1.

Definition numeric_value (c : cell) : option (option Q) :=
  match c with
  | CNum q => Some (Some q)
  | CNull => Some None
  | _ => None
  end.

Fixpoint all_numeric (l : list cell) : option (list (option Q)) :=
  match l with
  | [] => Some []
  | c :: l' =>
      match numeric_value c, all_numeric l' with
      | Some v, Some vs => Some (v :: vs)
      | _, _ => None
      end
  end.

Fixpoint all_bool (l : list cell) : option (list bool) :=
  match l with
  | [] => Some []
  | CBool b :: l' =>
      match all_bool l' with Some bs => Some (b :: bs) | None => None end
  | _ :: _ => None
  end.

Definition infer_series (l : list cell) : Series :=
  match l with
  | [] => ObjSeries []
  | _ =>
      match all_numeric l with
      | Some vs =>
          match dropna vs with
          | [] => ObjSeries l
          | qs =>
              if forallb is_integral qs
                 && Nat.eqb (List.length qs) (List.length vs)
              then NumSeries int64 vs else NumSeries float64 vs
          end
      | None =>
          match all_bool l with
          | Some bs => BoolSeries bs
          | None => ObjSeries l
          end
      end
  end.

(** [pd.DataFrame(records)] for a list of dicts: one row per dict, one
    column per key, NaN where a dict lacks the key. *)
Definition DataFrame_records (records : list record) : DataFrame :=
  mkDataFrame (List.length records)
    (map (fun k =>
            (k, infer_series
                  (map (fun r : record =>
                          match lookup k r with
                          | Some j => json_cell j
                          | None => CNull
                          end) records)))
         (union_keys records)).

(** [pd.json_normalize(data)] for a list.  A list that holds lists is not
    described here. *)
Definition json_normalize (data : list json) : outcome DataFrame :=
  match data with
  | [] => Ok (mkDataFrame 0 [])
  | _ =>
      if existsb is_list data then Unmodelled "json_normalize of nested lists"
      else Ok (DataFrame_records (map simple_json_normalize data))
  end.

(** *** [quantile], [isnull], [value_counts] *)

Fixpoint insert_asc (v : Q) (l : list Q) : list Q :=
  match l with
  | [] => [v]
  | h :: t => if Qle_bool v h then v :: h :: t else h :: insert_asc v t
  end.

Definition sort_asc (l : list Q) : list Q := fold_right insert_asc [] l.

(** A float that may be NaN, in exact rational arithmetic. *)
Definition floatQ : Type := option Q.

(** [s.quantile(q)], linear interpolation between the two nearest order
    statistics of the non-NaN values; NaN when there is none. *)
Definition quantile_values (vs : list (option Q)) (q : Q) : floatQ :=
  match sort_asc (dropna vs) with
  | [] => None
  | v0 :: rest =>
      let sorted := v0 :: rest in
      let pos := (q * inject_Z (Z.of_nat (List.length sorted - 1)))%Q in
      let lo := Z.to_nat (Qfloor pos) in
      let frac := (pos - inject_Z (Qfloor pos))%Q in
      let a := nth lo sorted v0 in
      let b := nth (S lo) sorted a in
      Some (a + (b - a) * frac)%Q
  end.

Definition quantile (s : Series) (q : Q) : outcome floatQ :=
  match s with
  | NumSeries _ vs => Ok (quantile_values vs q)
  | _ => Unmodelled "quantile of a column that is not numeric"
  end.

(** Arithmetic and comparison with NaN: NaN spreads, and compares false. *)
Definition float_sub (a b : floatQ) : floatQ :=
  match a, b with Some x, Some y => Some (x - y)%Q | _, _ => None end.

Definition float_add (a b : floatQ) : floatQ :=
  match a, b with Some x, Some y => Some (x + y)%Q | _, _ => None end.

Definition float_scale (k : Q) (a : floatQ) : floatQ :=
  match a with Some x => Some (k * x)%Q | None => None end.

Definition float_lt (a b : floatQ) : bool :=
  match a, b with Some x, Some y => Qlt_bool x y | _, _ => false end.

(** [len(df[(s < lower) | (s > upper)])]: the rows where the mask holds.
    The comparisons are exact; pandas compares in float64, which gives the
    same mask on the columns of [exact_quartiles] below. *)
Definition count_outside (vs : list (option Q)) (lower upper : floatQ) : nat :=
  List.length (filter (fun v => float_lt v lower || float_lt upper v) vs).

(** [s.isnull().sum()] *)
Definition null_count (s : Series) : nat :=
  List.length (filter is_null (cells s)).

Definition count_of (k : cell) (xs : list cell) : nat :=
  List.length (filter (fun x => cell_eqb x k) xs).

Fixpoint insert_count (g : cell * nat) (l : list (cell * nat))
  : list (cell * nat) :=
  match l with
  | [] => [g]
  | h :: t =>
      if Nat.ltb (snd g) (snd h) then h :: insert_count g t else g :: h :: t
  end.

(** [s.value_counts()]: the distinct non-null values with their number of
    occurrences, most frequent first (equal counts in order of first
    appearance). *)
Definition value_counts (s : Series) : outcome (list (cell * nat)) :=
  _ <- check_hashable (cells s) ;;
  Ok (fold_right insert_count []
        (map (fun k => (k, count_of k (cells s))) (unique (cells s)))).

Definition is_numeric (s : Series) : bool :=
  match s with NumSeries _ _ => true | _ => false end.

(** [str(dtype)] *)
Definition dtype_str (s : Series) : string :=
  match s with
  | NumSeries int64 _ => "int64"
  | NumSeries float64 _ => "float64"
  | BoolSeries _ => "bool"
  | ObjSeries _ => "object"
  end.

(** [df.select_dtypes(include=['number']).columns.tolist()] *)
Definition select_number_columns (df : DataFrame) : list string :=
  map fst (filter (fun c => is_numeric (snd c)) (columns df)).

(** *** [corr] and [round], over the real numbers *)

(** A float that may be NaN, as a real number. *)
Definition floatR : Type := option R.

Definition sumR (l : list R) : R := fold_right Rplus 0%R l.

(** The rows on which both columns have a value. *)
Fixpoint complete_pairs (xs ys : list (option Q)) : list (R * R) :=
  match xs, ys with
  | x :: xs', y :: ys' =>
      match x, y with
      | Some a, Some b => (Q2R a, Q2R b) :: complete_pairs xs' ys'
      | _, _ => complete_pairs xs' ys'
      end
  | _, _ => []
  end.

Definition meanR (l : list R) : R := (sumR l / INR (List.length l))%R.

(** Sum of the products of the deviations from the means. *)
Definition co_deviation (ps : list (R * R)) : R :=
  let mx := meanR (map fst ps) in
  let my := meanR (map snd ps) in
  sumR (map (fun p => (fst p - mx) * (snd p - my))%R ps).

(** Pearson's coefficient of two columns over their complete pairs; NaN
    when a column does not vary there (or there is no pair). *)
Definition pearson (xs ys : list (option Q)) : floatR :=
  let ps := complete_pairs xs ys in
  let sxy := co_deviation ps in
  let sxx := co_deviation (map (fun p => (fst p, fst p)) ps) in
  let syy := co_deviation (map (fun p => (snd p, snd p)) ps) in
  let divisor := sqrt (sxx * syy) in
  if Req_dec_T divisor 0 then None else Some (sxy / divisor)%R.

(** Nearest integer, halves to the even one. *)
Definition rint (x : R) : Z :=
  let n := Int_part x in
  let d := (x - IZR n)%R in
  if Rlt_dec d (1 / 2) then n
  else if Rlt_dec (1 / 2) d then (n + 1)%Z
  else if Z.even n then n else (n + 1)%Z.

(** [round(x, 2)]; NaN stays NaN. *)
Definition round2 (x : floatR) : floatR :=
  match x with
  | Some r => Some (IZR (rint (r * 100)) / 100)%R
  | None => None
  end.

(** A correlation matrix: the labels, and the rows of coefficients. *)
Record Matrix : Type := mkMatrix {
  labels : list string;
  rows : list (list floatR)
}.


(** [frame.corr()] of a list of numeric columns. *)
Definition corr (cols : list (string * list (option Q))) : Matrix :=
  mkMatrix (map fst cols)
    (map (fun a => map (fun b => pearson (snd a) (snd b)) cols) cols).

(** [matrix.round(2)] *)
Definition round_matrix (m : Matrix) : Matrix :=
  mkMatrix (labels m) (map (map round2) (rows m)).

(** *** Properties the statements use *)

(** Pairwise different keys. *)
Definition distinct (l : list cell) : Prop :=
  ForallOrdPairs (fun a b => cell_eqb a b = false) l.

(** Descending by value: no row has a smaller value than a later row. *)
Definition descending (l : list (cell * Q)) : Prop :=
  StronglySorted (fun a b => (snd b <= snd a)%Q) l.

(** A value strictly below the lower or strictly above the upper fence;
    nothing is outside a fence that is NaN. *)
Definition strictly_outside (lower upper : floatQ) (v : Q) : bool :=
  float_lt (Some v) lower || float_lt upper (Some v).



(** A loop that assigns [f c] under the key [c] when there is one. *)
Definition assign_each {V : Type} (f : string -> option V)
    (cols : list string) (acc : list (string * V)) : list (string * V) :=
  fold_left
    (fun d c => match f c with Some v => dict_set d c v | None => d end)
    cols acc.

(** *** Where the arithmetic of the model is the arithmetic of pandas

    The model adds, compares and sorts rationals exactly.  pandas adds int64
    values modulo 2^64 and float64 values with rounding, compares an int64
    column with a float64 bound after converting the column, and leaves the
    order of rows with equal values open when it sorts.  On the columns
    described here both give the same numbers and the same order; the
    statements about sums, quartiles and the order of groups are made for
    them. *)

(** A whole number. *)
Definition whole (q : Q) : bool := Qeq_bool (inject_Z (Qfloor q)) q.

(** Whole numbers whose absolute values add up to at most 2^53: every sum
    of some of them, in any order, is a whole number that int64 and float64
    both hold, so no sum wraps or rounds. *)
Definition exact_sums (vs : list (option Q)) : bool :=
  forallb whole (dropna vs)
  && Qle_bool (sumQ (map Qabs (dropna vs))) (inject_Z (2 ^ 53)).


(** No two groups have the same sum: their descending order is one. *)
Fixpoint no_ties (groups : list (cell * Q)) : bool :=
  match groups with
  | [] => true
  | g :: groups' =>
      forallb (fun h => negb (Qeq_bool (snd g) (snd h))) groups'
      && no_ties groups'
  end.

(** The container of the spec: labels pairwise different, columns as long
    as the index, cells that are numbers, text, booleans or null. *)
Definition well_formed (df : DataFrame) : Prop :=
  NoDup (map fst (columns df))
  /\ Forall (fun c => series_len (snd c) = index_len df) (columns df)
  /\ Forall (fun c => forallb hashable (cells (snd c)) = true) (columns df).

End Pandas.

(** * Chart generator ([utils/chart_generator.py]) *)

Module ChartGenerator.
Import Pandas.

Definition available_chart_types : list string :=
  [ "bar"; "line"; "scatter"; "pie"; "area"; "histogram"; "box"; "violin" ].

(** *** plotly express figures *)

Inductive px_kind : Type :=
| px_bar | px_line | px_scatter | px_pie | px_area
| px_histogram | px_box | px_violin.

(** What the figure draws: the rows of the frame it was given. *)
Inductive chart_data : Type :=
| FrameXY (xs ys : list cell)
| FrameX (xs : list cell)
| Slices (groups : list (cell * Q)).

(** A figure.  The [layout_*] fields are the layout properties that
    [generate_chart] sets; a plotly express constructor leaves the title
    position and the axis titles recorded here unset and installs the default
    template, "plotly". *)
Record Figure : Type := mkFigure {
  fig_kind : px_kind;
  fig_data : chart_data;
  fig_title : string;
  fig_height : option Z;
  fig_color : option string;
  fig_markers : bool;
  fig_hole : option Q;
  fig_box : bool;
  layout_title_x : option Q;
  layout_xaxis_title : option string;
  layout_yaxis_title : option string;
  layout_template : string;
  layout_xaxis_tickangle : option Z
}.

Definition new_figure (kind : px_kind) (data : chart_data) (title : string)
    (height : option Z) (color : option string) (markers : bool)
    (hole : option Q) (box : bool) : Figure :=
  mkFigure kind data title height color markers hole box
           None None None "plotly" None.

(** The [height] argument of a plotly express call: a height of 0 is left
    out of the figure, and plotly accepts no height below 10 (the text of its
    message is abridged here). *)
Definition px_height (height : Z) : outcome (option Z) :=
  if Z.eqb height 0 then Ok None
  else if Z.ltb height 10 then
    Raise (ValueError
             "Invalid value received for the 'height' property of layout")
  else Ok (Some height).

(** The figure is made once the columns have been found. *)
Definition px_figure (kind : px_kind) (data : chart_data) (title : string)
    (height : Z) (color : option string) (markers : bool) (hole : option Q)
    (box : bool) : outcome Figure :=
  h <- px_height height ;;
  Ok (new_figure kind data title h color markers hole box).

(** A column named in a plotly express call must be in the frame. *)
Definition px_column (df : DataFrame) (col : string) : outcome (list cell) :=
  match lookup col (columns df) with
  | Some s => Ok (cells s)
  | None => Raise (ValueError "not the name of a column")
  end.

Definition px_color (df : DataFrame) (color : option string) : outcome unit :=
  match color with
  | None => Ok tt
  | Some c => _ <- px_column df c ;; Ok tt
  end.

(** [px.bar], [px.line], ... over the columns x and y of [df]. *)
Definition px_xy (kind : px_kind) (df : DataFrame) (x y title : string)
    (height : Z) (color : option string) (markers box : bool)
  : outcome Figure :=
  xs <- px_column df x ;;
  ys <- px_column df y ;;
  _ <- px_color df color ;;
  px_figure kind (FrameXY xs ys) title height color markers None box.

Definition px_hist (df : DataFrame) (x title : string) (height : Z)
    (color : option string) : outcome Figure :=
  xs <- px_column df x ;;
  _ <- px_color df color ;;
  px_figure px_histogram (FrameX xs) title height color false None false.

(** [px.pie(data, names=x, values=y, ...)] over an aggregated frame. *)
Definition px_pie_fig (data : list (cell * Q)) (title : string) (height : Z)
    (hole : option Q) : outcome Figure :=
  px_figure px_pie (Slices data) title height None false hole false.

(** [fig.update_layout(title_x=0.5, xaxis_title=..., yaxis_title=...,
    template=...)]; a [None] axis title leaves the property as it is. *)
Definition update_layout (fig : Figure) (xaxis_title : string)
    (yaxis_title : option string) (template : string) : Figure :=
  mkFigure (fig_kind fig) (fig_data fig) (fig_title fig) (fig_height fig)
           (fig_color fig) (fig_markers fig) (fig_hole fig) (fig_box fig)
           (Some (1 # 2)%Q) (Some xaxis_title)
           (match yaxis_title with
            | Some t => Some t
            | None => layout_yaxis_title fig
            end)
           template (layout_xaxis_tickangle fig).

Definition set_tickangle (fig : Figure) (angle : Z) : Figure :=
  mkFigure (fig_kind fig) (fig_data fig) (fig_title fig) (fig_height fig)
           (fig_color fig) (fig_markers fig) (fig_hole fig) (fig_box fig)
           (layout_title_x fig) (layout_xaxis_title fig)
           (layout_yaxis_title fig) (layout_template fig) (Some angle).

Definition is_pie_or_donut (chart_type : string) : bool :=
  String.eqb chart_type "pie" || String.eqb chart_type "donut".

Definition top_n : nat := 9.

(** The figure built by the chain of [if]/[elif] on [chart_type]. *)
Definition create_figure (df : DataFrame) (chart_type x_column y_column
    title : string) (use_color : bool) (height : Z) : outcome Figure :=
  let by_x := if use_color then Some x_column else None in
  if String.eqb chart_type "bar" then
    px_xy px_bar df x_column y_column title height by_x false false
  else if String.eqb chart_type "line" then
    px_xy px_line df x_column y_column title height None true false
  else if String.eqb chart_type "scatter" then
    px_xy px_scatter df x_column y_column title height by_x false false
  else if String.eqb chart_type "pie" then
    pie_data <- groupby_sum df x_column y_column ;;
    px_pie_fig pie_data title height None
  else if String.eqb chart_type "donut" then
    pie_data <- groupby_sum df x_column y_column ;;
    px_pie_fig pie_data title height (Some (2 # 5)%Q)
  else if String.eqb chart_type "area" then
    px_xy px_area df x_column y_column title height None false false
  else if String.eqb chart_type "histogram" then
    px_hist df x_column title height
            (if use_color then Some y_column else None)
  else if String.eqb chart_type "box" then
    px_xy px_box df x_column y_column title height by_x false false
  else if String.eqb chart_type "violin" then
    px_xy px_violin df x_column y_column title height None false true
  else Raise (ValueError ("Unsupported chart type: " ++ chart_type)%string).

(** The block under "Limit pie chart segments and add Other category".  The
    remainder is the exact sum of the groups after the ninth of the stable
    order: what the code computes for sums that neither wrap nor round
    ([exact_sums]) and are pairwise different ([no_ties]). *)
Definition limit_segments (df : DataFrame) (chart_type x_column y_column
    title : string) (height : Z) (fig : Figure) : outcome Figure :=
  pie_data <- groupby_sum df x_column y_column ;;
  let sorted_data := sort_values_desc pie_data in
  let top_data := firstn top_n sorted_data in
  let other_value := sumQ (map snd (skipn top_n sorted_data)) in
  if Qlt_bool 0 other_value then
    let final_data := top_data ++ [(CStr "Other", other_value)] in
    px_pie_fig final_data title height
      (Some (if String.eqb chart_type "donut" then (2 # 5)%Q else 0%Q))
  else Ok fig.

Definition generate_chart (df : DataFrame) (chart_type x_column
    y_column : string) (title : option string) (use_color : bool)
    (height : Z) (show_grid : bool) : outcome Figure :=
  let title :=
    match title with
    | None => (y_column ++ " by " ++ x_column)%string
    | Some t => t
    end in
  fig <- create_figure df chart_type x_column y_column title use_color height ;;
  let fig :=
    update_layout fig x_column
      (if is_pie_or_donut chart_type then None else Some y_column)
      (if show_grid then "plotly" else "plotly_white") in
  if String.eqb chart_type "bar" || is_pie_or_donut chart_type then
    xs <- getitem df x_column ;;
    unique_categories <- nunique xs ;;
    if Nat.ltb 10 unique_categories then
      if String.eqb chart_type "bar" then Ok (set_tickangle fig (-45))
      else limit_segments df chart_type x_column y_column title height fig
    else Ok fig
  else Ok fig.

(** The rows of the aggregated frame drawn by a pie or donut figure. *)
Definition slices (fig : Figure) : list (cell * Q) :=
  match fig_data fig with
  | Slices groups => groups
  | _ => []
  end.

(** *** The figures of a pie or donut request *)

Definition default_title (title : option string) (x_column y_column : string)
  : string :=
  match title with
  | None => (y_column ++ " by " ++ x_column)%string
  | Some t => t
  end.

Definition template_of (show_grid : bool) : string :=
  if show_grid then "plotly" else "plotly_white".

(** A pie figure as [px.pie] makes it, at a height it accepts. *)
Definition pie_figure (data : list (cell * Q)) (title : string) (height : Z)
    (hole : option Q) : Figure :=
  new_figure px_pie (Slices data) title (Some height) None false hole false.

(** The figure before the block on many categories. *)
Definition plain_pie (pie_data : list (cell * Q)) (chart_type x_column
    title : string) (height : Z) (show_grid : bool) : Figure :=
  update_layout
    (pie_figure pie_data title height
       (if String.eqb chart_type "donut" then Some (2 # 5)%Q else None))
    x_column None (template_of show_grid).

(** The total of the groups after the ninth. *)
Definition other_value (pie_data : list (cell * Q)) : Q :=
  sumQ (map snd (skipn top_n (sort_values_desc pie_data))).

(** The figure that block builds, with the height plotly express gave
    it. *)
Definition collapsed_pie_at (pie_data : list (cell * Q)) (chart_type
    title : string) (h : option Z) : Figure :=
  new_figure px_pie
    (Slices (firstn top_n (sort_values_desc pie_data)
             ++ [(CStr "Other", other_value pie_data)]))
    title h None false
    (Some (if String.eqb chart_type "donut" then (2 # 5)%Q else 0%Q)) false.

Definition collapsed_pie (pie_data : list (cell * Q)) (chart_type
    title : string) (height : Z) : Figure :=
  collapsed_pie_at pie_data chart_type title (Some height).

(** The layout [generate_chart] sets on every figure. *)
Definition normalized (chart_type x_column y_column : string)
    (show_grid : bool) (fig : Figure) : Prop :=
  layout_title_x fig = Some (1 # 2)%Q
  /\ layout_xaxis_title fig = Some x_column
  /\ layout_yaxis_title fig
     = (if is_pie_or_donut chart_type then None else Some y_column)
  /\ layout_template fig = template_of show_grid.

End ChartGenerator.

(** * Loader ([utils/file_handler.py]) *)

Module FileHandler.
Import Pandas.

Inductive encoding : Type := utf_8 | latin1.

(** The uploaded file: its name, its bytes and the position of its stream,
    which every read moves. *)
Record UploadedFile : Type := mkUploadedFile {
  name : string;
  getvalue : list Byte.byte;
  tell : nat
}.

(** What [pd.read_csv] and [json.load] do with the stream. *)
Inductive csv_result : Type :=
| CsvFrame (df : DataFrame)
| CsvUnicodeDecodeError (msg : string)
| CsvError (e : exn).

Inductive json_result : Type :=
| JsonValue (json_data : json)
| JsonError (e : exn).

(** [str(e)] *)
Definition exn_str (e : exn) : string :=
  match e with
  | KeyError k => ("'" ++ k ++ "'")%string
  | ValueError m | TypeError m | Exception m => m
  end.

(** [s.split('.')[-1]]: what follows the last dot, or all of [s]. *)
Fixpoint last_segment_from (acc s : string) : string :=
  match s with
  | EmptyString => acc
  | String c s' =>
      if Ascii.eqb c "."%char then last_segment_from EmptyString s'
      else last_segment_from (acc ++ String c EmptyString)%string s'
  end.

Definition last_segment (s : string) : string :=
  last_segment_from EmptyString s.

(** [s.lower()] on the letters A to Z.  Other characters are left as they
    are; none of them lower-cases to a letter of "csv" or "json", so the
    comparisons below come out as in Python. *)
Definition lower_char (c : ascii) : ascii :=
  let n := nat_of_ascii c in
  if Nat.leb 65 n && Nat.leb n 90 then ascii_of_nat (n + 32) else c.

Fixpoint lower (s : string) : string :=
  match s with
  | EmptyString => EmptyString
  | String c s' => String (lower_char c) (lower s')
  end.

Definition file_type_of (uploaded_file : UploadedFile) : string :=
  lower (last_segment (name uploaded_file)).

Definition unsupported_json_structure : exn :=
  Exception
    "Unsupported JSON structure. Please provide a JSON array of objects.".

Definition unsupported_file_type (file_type : string) : exn :=
  Exception ("Unsupported file type: " ++ file_type
             ++ ". Please upload a CSV or JSON file.")%string.

(** The branches on the shape of the parsed document. *)
Definition frame_of_json (json_data : json) : outcome DataFrame :=
  match json_data with
  | JArr items => json_normalize items
  | JObj members =>
      match lookup "data" members with
      | Some (JArr items) => json_normalize items
      | _ => Ok (DataFrame_records [members])
      end
  | _ => Raise unsupported_json_structure
  end.

(** [try: ... except Exception as e: raise Exception(prefix + str(e))] *)
Definition reraise {A : Type} (prefix : string) (m : outcome A) : outcome A :=
  match m with
  | Raise e => Raise (Exception (prefix ++ exn_str e)%string)
  | other => other
  end.

Section Load.

Variable read_csv : UploadedFile -> encoding -> csv_result * UploadedFile.
Variable json_load : UploadedFile -> json_result * UploadedFile.

Definition load_csv (uploaded_file : UploadedFile)
  : outcome DataFrame * UploadedFile :=
  match read_csv uploaded_file utf_8 with
  | (CsvFrame df, f1) => (Ok df, f1)
  | (CsvUnicodeDecodeError _, f1) =>
      match read_csv f1 latin1 with
      | (CsvFrame df, f2) => (Ok df, f2)
      | (CsvUnicodeDecodeError msg, f2) =>
          (Raise (Exception ("Failed to parse CSV file: " ++ msg)%string), f2)
      | (CsvError e, f2) =>
          (Raise (Exception ("Failed to parse CSV file: " ++ exn_str e)%string),
           f2)
      end
  | (CsvError e, f1) =>
      (Raise (Exception ("Error loading CSV file: " ++ exn_str e)%string), f1)
  end.

Definition load_json (uploaded_file : UploadedFile)
  : outcome DataFrame * UploadedFile :=
  match json_load uploaded_file with
  | (JsonValue json_data, f1) =>
      (reraise "Error loading JSON file: " (frame_of_json json_data), f1)
  | (JsonError e, f1) =>
      (Raise (Exception ("Error loading JSON file: " ++ exn_str e)%string), f1)
  end.

(** [load_file]: the frame or the exception, and the file as it is left. *)
Definition load_file (uploaded_file : UploadedFile)
  : outcome DataFrame * UploadedFile :=
  let file_type := file_type_of uploaded_file in
  if String.eqb file_type "csv" then load_csv uploaded_file
  else if String.eqb file_type "json" then load_json uploaded_file
  else (Raise (unsupported_file_type file_type), uploaded_file).

End Load.

(** The two kinds of failure of the loader, told apart by the message the
    exception carries. *)
Inductive load_error : Type := UnsupportedFormat | ParseError.

Definition error_kind (e : exn) : option load_error :=
  match e with
  | Exception msg =>
      if String.prefix "Unsupported file type: " msg then Some UnsupportedFormat
      else if String.prefix "Error loading CSV file: " msg
              || String.prefix "Failed to parse CSV file: " msg
              || String.prefix "Error loading JSON file: " msg
      then Some ParseError
      else None
  | _ => None
  end.

(** The frame [df] has one row per element of [items] and the dot-flattened
    keys of the elements as column labels, in order of first appearance. *)
Definition rows_of_records (items : list json) (df : DataFrame) : Prop :=
  df = DataFrame_records (map simple_json_normalize items)
  /\ index_len df = List.length items
  /\ map fst (columns df) = union_keys (map simple_json_normalize items)
  /\ Forall (fun c => series_len (snd c) = List.length items) (columns df).

(** A [json.load] that reads the whole stream and finds the document [j]. *)
Definition json_load_finds (j : json) (f : UploadedFile)
  : json_result * UploadedFile :=
  (JsonValue j, mkUploadedFile (name f) (getvalue f) (List.length (getvalue f))).

(** A [pd.read_csv] that fails to decode whatever the encoding. *)
Definition read_csv_undecodable (f : UploadedFile) (enc : encoding)
  : csv_result * UploadedFile :=
  (CsvUnicodeDecodeError "invalid start byte",
   mkUploadedFile (name f) (getvalue f) (S (tell f))).

End FileHandler.

(** * Analyzer ([utils/data_analyzer.py]) *)

Module DataAnalyzer.
Import Pandas.

(** A [for] loop that updates a dict and may raise. *)
Fixpoint for_each {A S : Type} (items : list A) (body : A -> S -> outcome S)
    (s : S) : outcome S :=
  match items with
  | [] => Ok s
  | a :: items' => s' <- body a s ;; for_each items' body s'
  end.

Record CategorySummary : Type := mkCategorySummary {
  unique_values : nat;
  top_values : list (cell * nat)
}.

Record Distribution : Type := mkDistribution {
  skewness : floatR;
  kurtosis : floatR;
  is_normal : bool
}.

(** [abs(x) < bound]; false for NaN. *)
Definition abs_lt (x : floatR) (bound : R) : bool :=
  match x with
  | Some r => if Rlt_dec (Rabs r) bound then true else false
  | None => false
  end.

Section Analyze.

(** The statistics of pandas that the analysis only passes on. *)
Variable Describe : Type.
Variable describe : list (string * Series) -> Describe.
Variable skew : Series -> floatR.
Variable kurt : Series -> floatR.

(** The dict [results]; a key that was never assigned is [None]. *)
Record AnalysisResults : Type := mkAnalysisResults {
  row_count : nat;
  column_count : nat;
  column_types : list (string * string);
  numeric_summary : option Describe;
  correlation : option Matrix;
  potential_outliers : option (list (string * nat));
  categorical_summary : option (list (string * CategorySummary));
  missing_values : option (list (string * nat));
  distribution : option (list (string * Distribution))
}.

(** [df[numeric_cols]] *)
Definition select_columns (df : DataFrame) (cols : list string)
  : outcome (list (string * Series)) :=
  for_each cols
    (fun col acc => s <- getitem df col ;; Ok (acc ++ [(col, s)])) [].

Definition numeric_values (s : Series) : list (option Q) :=
  match s with
  | NumSeries _ vs => vs
  | BoolSeries vs => map (fun b : bool => Some (if b then 1 else 0)%Q) vs
  | ObjSeries _ => []
  end.

(** The number of rows of a column outside the IQR fences. *)
Definition outlier_count (s : Series) : outcome nat :=
  q1 <- quantile s (1 # 4) ;;
  q3 <- quantile s (3 # 4) ;;
  let iqr := float_sub q3 q1 in
  let lower_bound := float_sub q1 (float_scale (3 # 2) iqr) in
  let upper_bound := float_add q3 (float_scale (3 # 2) iqr) in
  Ok (count_outside (numeric_values s) lower_bound upper_bound).

Definition find_outliers (df : DataFrame) (numeric_cols : list string)
  : outcome (list (string * nat)) :=
  for_each numeric_cols
    (fun col outliers =>
       s <- getitem df col ;;
       n <- outlier_count s ;;
       if Nat.ltb 0 n then Ok (dict_set outliers col n) else Ok outliers)
    [].

Definition summarize_categories (df : DataFrame) (cat_cols : list string)
  : outcome (list (string * CategorySummary)) :=
  for_each cat_cols
    (fun col cat_summaries =>
       s <- getitem df col ;;
       counts <- value_counts s ;;
       n <- nunique s ;;
       Ok (dict_set cat_summaries col
             (mkCategorySummary n (firstn 10 counts))))
    [].

Definition describe_distribution (df : DataFrame) (numeric_cols : list string)
  : outcome (list (string * Distribution)) :=
  for_each numeric_cols
    (fun col distribution =>
       s <- getitem df col ;;
       let skewness := skew s in
       let kurtosis := kurt s in
       Ok (dict_set distribution col
             (mkDistribution (round2 skewness) (round2 kurtosis)
                (abs_lt skewness (1 / 2) && abs_lt kurtosis (1 / 2)))))
    [].

Definition nonempty {A : Type} (l : list A) : bool :=
  match l with [] => false | _ => true end.

Definition analyze_data (df : DataFrame) : outcome AnalysisResults :=
  let row_count := index_len df in
  let column_count := List.length (columns df) in
  let column_types := map (fun c => (fst c, dtype_str (snd c))) (columns df) in
  let numeric_cols := select_number_columns df in
  numeric <-
    (if nonempty numeric_cols then
       frame <- select_columns df numeric_cols ;;
       let numeric_summary := describe frame in
       let correlation :=
         if Nat.ltb 1 (List.length numeric_cols)
         then Some (round_matrix
                      (corr (map (fun c => (fst c, numeric_values (snd c)))
                                 frame)))
         else None in
       outliers <- find_outliers df numeric_cols ;;
       Ok (Some numeric_summary, correlation,
           if nonempty outliers then Some outliers else None)
     else Ok (None, None, None)) ;;
  let cat_cols :=
    filter (fun col => negb (existsb (String.eqb col) numeric_cols))
           (map fst (columns df)) in
  categorical <-
    (if nonempty cat_cols then
       cat_summaries <- summarize_categories df cat_cols ;;
       Ok (Some cat_summaries)
     else Ok None) ;;
  let missing_vals := map (fun c => (fst c, null_count (snd c))) (columns df) in
  let missing :=
    if Nat.ltb 0 (fold_right Nat.add 0%nat (map snd missing_vals))
    then Some (filter (fun kv => Nat.ltb 0 (snd kv)) missing_vals)
    else None in
  distribution <-
    (if nonempty numeric_cols then
       d <- describe_distribution df numeric_cols ;;
       Ok (Some d)
     else Ok None) ;;
  Ok (mkAnalysisResults row_count column_count column_types
        (fst (fst numeric)) (snd (fst numeric)) (snd numeric)
        categorical missing distribution).

End Analyze.

(** *** The result on a well-formed frame *)

(** The fences of a numeric column and the number of its rows outside. *)
Definition lower_fence (vs : list (option Q)) : floatQ :=
  let q1 := quantile_values vs (1 # 4) in
  let q3 := quantile_values vs (3 # 4) in
  float_sub q1 (float_scale (3 # 2) (float_sub q3 q1)).

Definition upper_fence (vs : list (option Q)) : floatQ :=
  let q1 := quantile_values vs (1 # 4) in
  let q3 := quantile_values vs (3 # 4) in
  float_add q3 (float_scale (3 # 2) (float_sub q3 q1)).

Definition outliers_in (vs : list (option Q)) : nat :=
  count_outside vs (lower_fence vs) (upper_fence vs).

Section AnalysisOf.

Variable Describe : Type.
Variable describe : list (string * Series) -> Describe.
Variable skew : Series -> floatR.
Variable kurt : Series -> floatR.
Variable df : DataFrame.

(** What each loop assigns under a column label. *)
Definition outlier_entry (col : string) : option nat :=
  match lookup col (columns df) with
  | Some (NumSeries _ vs) =>
      if Nat.ltb 0 (outliers_in vs) then Some (outliers_in vs) else None
  | _ => None
  end.

Definition distribution_entry (col : string) : option Distribution :=
  match lookup col (columns df) with
  | Some s =>
      Some (mkDistribution (round2 (skew s)) (round2 (kurt s))
              (abs_lt (skew s) (1 / 2) && abs_lt (kurt s) (1 / 2)))
  | None => None
  end.

Definition category_entry (col : string) : option CategorySummary :=
  match lookup col (columns df) with
  | Some s =>
      Some (mkCategorySummary (List.length (unique (cells s)))
              (firstn 10
                 (fold_right insert_count []
                    (map (fun k => (k, count_of k (cells s)))
                         (unique (cells s))))))
  | None => None
  end.

(** The dict [results] that [analyze_data] returns on a well-formed frame. *)
Definition analysis_of : AnalysisResults Describe :=
  let numeric_cols := select_number_columns df in
  let numeric_frame := filter (fun c => is_numeric (snd c)) (columns df) in
  let cat_cols :=
    filter (fun col => negb (existsb (String.eqb col) numeric_cols))
           (map fst (columns df)) in
  let outliers := assign_each outlier_entry numeric_cols [] in
  let missing_vals := map (fun c => (fst c, null_count (snd c))) (columns df) in
  mkAnalysisResults Describe
    (index_len df)
    (List.length (columns df))
    (map (fun c => (fst c, dtype_str (snd c))) (columns df))
    (if nonempty numeric_cols then Some (describe numeric_frame) else None)
    (if nonempty numeric_cols && Nat.ltb 1 (List.length numeric_cols)
     then Some (round_matrix
                  (corr (map (fun c => (fst c, numeric_values (snd c)))
                             numeric_frame)))
     else None)
    (if nonempty numeric_cols && nonempty outliers then Some outliers
     else None)
    (if nonempty cat_cols
     then Some (assign_each category_entry cat_cols []) else None)
    (if Nat.ltb 0 (fold_right Nat.add 0%nat (map snd missing_vals))
     then Some (filter (fun kv => Nat.ltb 0 (snd kv)) missing_vals)
     else None)
    (if nonempty numeric_cols
     then Some (assign_each distribution_entry numeric_cols []) else None).

End AnalysisOf.

End DataAnalyzer.

(** * Frames and documents used as examples *)

Module Examples.

(** name,sales / A,10 / B,20 / A,5 *)
Definition sales_df : DataFrame :=
  mkDataFrame 3
    [ ("name", ObjSeries [CStr "A"; CStr "B"; CStr "A"]);
      ("sales", NumSeries int64 [Some 10%Q; Some 20%Q; Some 5%Q]) ].

Definition eleven_keys : Series :=
  ObjSeries [CStr "a"; CStr "b"; CStr "c"; CStr "d"; CStr "e"; CStr "f";
             CStr "g"; CStr "h"; CStr "i"; CStr "j"; CStr "k"].

Definition eleven_values (v10 v11 : Q) : list (option Q) :=
  [Some 20%Q; Some 19%Q; Some 18%Q; Some 17%Q; Some 16%Q; Some 15%Q;
   Some 14%Q; Some 13%Q; Some 12%Q; Some v10; Some v11].

(** Eleven categories "a" to "k"; the first nine carry 20 down to 12, the
    last two the given values. *)
Definition eleven_df (v10 v11 : Q) : DataFrame :=
  mkDataFrame 11
    [ ("k", eleven_keys); ("v", NumSeries int64 (eleven_values v10 v11)) ].

(** {"data":[{"x":1,"y":2},{"x":2,"y":4}]} *)
Definition xy_document : json :=
  JObj [ ("data", JArr [ JObj [("x", JNum 1); ("y", JNum 2)];
                         JObj [("x", JNum 2); ("y", JNum 4)] ]) ].

Definition xy_df : DataFrame :=
  mkDataFrame 2 [ ("x", NumSeries int64 [Some 1%Q; Some 2%Q]);
                  ("y", NumSeries int64 [Some 2%Q; Some 4%Q]) ].

Definition names_df : DataFrame :=
  mkDataFrame 2 [ ("name", ObjSeries [CStr "A"; CStr "B"]) ].

Definition header_only_df : DataFrame :=
  mkDataFrame 0 [ ("name", ObjSeries []); ("sales", ObjSeries []) ].

(** One value far from the others; and a column whose quartiles agree. *)
Definition spread_df : DataFrame :=
  mkDataFrame 5
    [ ("v", NumSeries int64
              [Some 1%Q; Some 2%Q; Some 3%Q; Some 4%Q; Some 100%Q]) ].



End Examples.

(** * Further notions used in statements about the three files *)

Module Notions.
Import Pandas ChartGenerator FileHandler DataAnalyzer.

(** The chart types [generate_chart] has a branch for. *)
Definition supported_chart_types : list string :=
  available_chart_types ++ ["donut"].

(** A figure with another hole. *)
Definition set_hole (fig : Figure) (hole : option Q) : Figure :=
  mkFigure (fig_kind fig) (fig_data fig) (fig_title fig) (fig_height fig)
           (fig_color fig) (fig_markers fig) hole (fig_box fig)
           (layout_title_x fig) (layout_xaxis_title fig)
           (layout_yaxis_title fig) (layout_template fig)
           (layout_xaxis_tickangle fig).

(** The column a figure of the given type is coloured by. *)
Definition color_column (chart_type x_column y_column : string)
    (use_color : bool) : option string :=
  if negb use_color then None
  else if String.eqb chart_type "bar" || String.eqb chart_type "scatter"
          || String.eqb chart_type "box" then Some x_column
  else if String.eqb chart_type "histogram" then Some y_column
  else None.

(** The y values of the rows that have an x value. *)
Fixpoint values_with_x (xs : list cell) (vs : list (option Q))
  : list (option Q) :=
  match xs, vs with
  | x :: xs', v :: vs' =>
      if is_null x then values_with_x xs' vs' else v :: values_with_x xs' vs'
  | _, _ => []
  end.

(** NaN counts as 0 in a sum. *)
Definition nan_to_zero (v : option Q) : Q :=
  match v with Some q => q | None => 0%Q end.

(** A text without a dot. *)
Fixpoint no_dot (s : string) : bool :=
  match s with
  | EmptyString => true
  | String c s' => negb (Ascii.eqb c "."%char) && no_dot s'
  end.

(** No value of the record is an object. *)
Definition no_object (r : record) : Prop :=
  Forall (fun kv => is_dict (snd kv) = false) r.

(** Most frequent first: no entry has a smaller count than a later one. *)
Definition by_count_desc (l : list (cell * nat)) : Prop :=
  StronglySorted (fun a b => (snd b <= snd a)%nat) l.

(** The key [col] of a dict field of the results is assigned. *)
Definition has_entry {V : Type} (field : option (list (string * V)))
    (col : string) : Prop :=
  exists d e, field = Some d /\ lookup col d = Some e.

End Notions.

(** * More frames used as examples *)

Module MoreExamples.

(** A frame with missing cells. *)
Definition gaps_df : DataFrame :=
  mkDataFrame 3
    [ ("name", ObjSeries [CStr "A"; CNull; CStr "B"]);
      ("sales", NumSeries float64 [Some 1%Q; None; None]) ].

(** A frame with a column of lists, as [{"tags": ["a"]}] loads. *)
Definition tags_df : DataFrame :=
  mkDataFrame 1 [ ("tags", ObjSeries [CObj (JArr [JStr "a"])]) ].







End MoreExamples.

(** * The two pages ([app.py], [app_postgres.py])

    Both are Streamlit scripts: a widget is modelled by the value the user
    gave it, a block under [if st.button(...)] by a function of the session
    state that returns the new state and the message shown.  The database
    functions of [app_postgres.py] are not modelled. *)

Module App.
Import Pandas ChartGenerator FileHandler DataAnalyzer.

(** ** [app.py]: from the widgets to the chart *)

(** The values of the widgets of lines 86-138. *)
Record Widgets : Type := mkWidgets {
  w_chart_type : string;
  w_x_axis : string;
  w_y_axis : string;
  w_chart_title : string;
  w_use_color : bool;
  w_chart_height : Z;
  w_show_grid : bool;
  w_donut : bool
}.

(** [y_options]: the numeric columns if there are any, else all columns. *)
Definition y_options (df : DataFrame) : list string :=
  let numeric_cols := select_number_columns df in
  if nonempty numeric_cols then numeric_cols else map fst (columns df).

(** A selectbox returns one of its options, the slider a height from 300
    to 800. *)
Definition offered (df : DataFrame) (w : Widgets) : Prop :=
  In (w_chart_type w) available_chart_types
  /\ In (w_x_axis w) (map fst (columns df))
  /\ In (w_y_axis w) (y_options df)
  /\ (300 <= w_chart_height w <= 800)%Z.

(** The box "Show Grid Lines" exists for bar and line charts only. *)
Definition show_grid_of (w : Widgets) : bool :=
  if String.eqb (w_chart_type w) "bar" || String.eqb (w_chart_type w) "line"
  then w_show_grid w
  else false.

(** The box "Make it a Donut Chart" exists for pie charts only. *)
Definition chart_type_of (w : Widgets) : string :=
  if String.eqb (w_chart_type w) "pie" then
    if w_donut w then "donut" else "pie"
  else w_chart_type w.

(** The call of [generate_chart] of lines 144-153. *)
Definition page_chart (df : DataFrame) (w : Widgets) : outcome Figure :=
  generate_chart df (chart_type_of w) (w_x_axis w) (w_y_axis w)
    (Some (w_chart_title w)) (w_use_color w) (w_chart_height w)
    (show_grid_of w).

(** ** [app_postgres.py]: the blocks that use the three modules *)

(** [s.capitalize()] of a string of ASCII characters, which the chart types
    are. *)
Definition upper_char (c : ascii) : ascii :=
  let n := nat_of_ascii c in
  if Nat.leb 97 n && Nat.leb n 122 then ascii_of_nat (n - 32) else c.

Definition capitalize (s : string) : string :=
  match s with
  | EmptyString => EmptyString
  | String c s' => String (upper_char c) (lower s')
  end.

(** An element of [st.session_state.charts]. *)
Record Chart : Type := mkChart {
  type : string;
  figure : Figure;
  title : string;
  x : string;
  y : string;
  use_color : bool;
  height : Z;
  show_grid : bool
}.

(** What the page shows after a block has run. *)
Inductive message : Type :=
| success_loaded (rows columns : nat)
| success_created (created_charts : nat)
| error (text : string)
| warning (text : string).

Section Page.

Variable read_csv : UploadedFile -> encoding -> csv_result * UploadedFile.
Variable json_load : UploadedFile -> json_result * UploadedFile.
Variable Describe : Type.
Variable describe : list (string * Series) -> Describe.
Variable skew : Series -> floatR.
Variable kurt : Series -> floatR.

(** The values of the dict [analyze_data] returns. *)
Inductive value : Type :=
| VInt (n : nat)
| VColumnTypes (d : list (string * string))
| VFrame (d : Describe)
| VMatrix (m : Matrix)
| VCounts (d : list (string * nat))
| VCategories (d : list (string * CategorySummary))
| VDistribution (d : list (string * Distribution)).

Definition item {A : Type} (key : string) (wrap : A -> value)
    (field : option A) : list (string * value) :=
  match field with
  | Some v => [(key, wrap v)]
  | None => []
  end.

(** The dict itself: the keys assigned, in the order of assignment. *)
Definition items (r : AnalysisResults Describe) : list (string * value) :=
  [ ("row_count", VInt (row_count Describe r));
    ("column_count", VInt (column_count Describe r));
    ("column_types", VColumnTypes (column_types Describe r)) ]
  ++ item "numeric_summary" VFrame (numeric_summary Describe r)
  ++ item "correlation" VMatrix (correlation Describe r)
  ++ item "potential_outliers" VCounts (potential_outliers Describe r)
  ++ item "categorical_summary" VCategories (categorical_summary Describe r)
  ++ item "missing_values" VCounts (missing_values Describe r)
  ++ item "distribution" VDistribution (distribution Describe r).

Definition keys (r : AnalysisResults Describe) : list string :=
  map fst (items r).

(** [key in results] *)
Definition contains (r : AnalysisResults Describe) (key : string) : bool :=
  existsb (String.eqb key) (keys r).

(** [results[key]] *)
Definition results_getitem (r : AnalysisResults Describe) (key : string)
  : outcome value :=
  match lookup key (items r) with
  | Some v => Ok v
  | None => Raise (KeyError key)
  end.

(** [len(v)] *)
Definition len (v : value) : outcome nat :=
  match v with
  | VInt _ => Raise (TypeError "object of type 'int' has no len()")
  | VColumnTypes d => Ok (List.length d)
  | VFrame _ => Unmodelled "the rows of describe()"
  | VMatrix m => Ok (List.length (rows m))
  | VCounts d => Ok (List.length d)
  | VCategories d => Ok (List.length d)
  | VDistribution d => Ok (List.length d)
  end.

(** The part of [st.session_state] the blocks below use, for data that was
    uploaded (a session loaded from the database holds lists and dicts
    decoded from JSON instead). *)
Record State : Type := mkState {
  data : option DataFrame;
  analysis : option (AnalysisResults Describe);
  charts : list Chart
}.

(** [try: ... except Exception as e: st.error(f"Error: {str(e)}")] around a
    step: the state is the one the steps before have left. *)
Definition or_error {A : Type} (st : State) (m : outcome A)
    (k : A -> outcome (State * message)) : outcome (State * message) :=
  match m with
  | Ok a => k a
  | Raise e => Ok (st, error ("Error: " ++ exn_str e)%string)
  | Unmodelled why => Unmodelled why
  end.

(** Lines 405-417: the file of the uploader is loaded and analyzed. *)
Definition upload (st : State) (uploaded_file : UploadedFile)
  : outcome (State * message) :=
  or_error st (fst (load_file read_csv json_load uploaded_file)) (fun df =>
  let st := mkState (Some df) (analysis st) (charts st) in
  or_error st (analyze_data Describe describe skew kurt df) (fun results =>
  let st := mkState (data st) (Some results) (charts st) in
  let rows := index_len df in
  or_error st (v <- results_getitem results "columns" ;; len v) (fun n =>
  Ok (st, success_loaded rows n)))).

(** Lines 504-540, the button "Generate Recommended Charts". *)
Definition generate_recommended_charts (st : State)
  : outcome (State * message) :=
  let available :=
    match analysis st with
    | Some results => nonempty (items results)
                      && contains results "recommendations"
    | None => false
    end in
  if available then Unmodelled "the loop over the recommendations"
  else Ok (st, warning
             "No chart recommendations available. Please upload data first.").

(** The body of the loops of lines 563-588: a chart that cannot be built is
    skipped. *)
Definition create_chart (df : DataFrame) (chart_type x_col y_col : string)
    (s : list Chart * nat) : outcome (list Chart * nat) :=
  let title :=
    (capitalize chart_type ++ " of " ++ y_col ++ " by " ++ x_col)%string in
  match generate_chart df chart_type x_col y_col (Some title) true 400 true
  with
  | Ok chart =>
      Ok (fst s ++ [mkChart chart_type chart title x_col y_col true 400 true],
          S (snd s))
  | Raise _ => Ok s
  | Unmodelled why => Unmodelled why
  end.

(** Lines 557-590, the button "Create Multiple Charts", on uploaded data
    ([pd.DataFrame(df)] of a frame is the frame). *)
Definition create_multiple_charts (df : DataFrame)
    (selected_types x_columns y_columns : list string) (charts : list Chart)
  : outcome (list Chart * message) :=
  if negb (nonempty x_columns) || negb (nonempty y_columns)
     || negb (nonempty selected_types)
  then Ok (charts,
           warning
             "Please select at least one X column, Y column, and chart type")
  else
    s <- for_each selected_types
           (fun chart_type =>
              for_each x_columns
                (fun x_col =>
                   for_each y_columns
                     (fun y_col => create_chart df chart_type x_col y_col)))
           (charts, 0%nat) ;;
    Ok (fst s, success_created (snd s)).

End Page.

(** The requests the three loops make, in order. *)
Definition combinations (selected_types x_columns y_columns : list string)
  : list (string * string * string) :=
  flat_map (fun chart_type =>
    flat_map (fun x_col =>
      map (fun y_col => (chart_type, x_col, y_col)) y_columns) x_columns)
    selected_types.

(** The chart the loop appends for a request that builds. *)
Definition chart_of (df : DataFrame) (request : string * string * string)
  : list Chart :=
  let '(chart_type, x_col, y_col) := request in
  let title :=
    (capitalize chart_type ++ " of " ++ y_col ++ " by " ++ x_col)%string in
  match generate_chart df chart_type x_col y_col (Some title) true 400 true
  with
  | Ok chart => [mkChart chart_type chart title x_col y_col true 400 true]
  | _ => []
  end.

(** ** "Create Multiple Charts" on every selection

    The multiselects offer every column, so the loops also make calls the
    model of [generate_chart] does not follow to their end ([Unmodelled]: a
    pie of a text column, say).  Such a call of pandas and plotly still
    returns a figure or raises an exception, and [except Exception] catches
    whatever it raises.  [beyond] stands for the result of these calls: the
    figure returned, or [None] when the call raises. *)

Section EverySelection.

Variable beyond : DataFrame -> string -> string -> string -> option Figure.

(** The title of line 567. *)
Definition chart_title (chart_type x_col y_col : string) : string :=
  (capitalize chart_type ++ " of " ++ y_col ++ " by " ++ x_col)%string.

(** The call of lines 568-574 under [try ... except Exception: pass]: the
    figure, or nothing when the call raises. *)
Definition try_generate_chart (df : DataFrame)
    (chart_type x_col y_col : string) : option Figure :=
  match generate_chart df chart_type x_col y_col
          (Some (chart_title chart_type x_col y_col)) true 400 true with
  | Ok chart => Some chart
  | Raise _ => None
  | Unmodelled _ => beyond df chart_type x_col y_col
  end.

(** The body of the loops of lines 563-588. *)
Definition try_create_chart (df : DataFrame) (chart_type x_col y_col : string)
    (s : list Chart * nat) : list Chart * nat :=
  match try_generate_chart df chart_type x_col y_col with
  | Some chart =>
      (fst s ++ [mkChart chart_type chart
                   (chart_title chart_type x_col y_col) x_col y_col
                   true 400 true],
       S (snd s))
  | None => s
  end.

(** Lines 557-590, the button "Create Multiple Charts": the charts of the
    session afterwards and the message shown. *)
Definition create_multiple_charts_block (df : DataFrame)
    (selected_types x_columns y_columns : list string) (charts : list Chart)
  : list Chart * message :=
  if negb (nonempty x_columns) || negb (nonempty y_columns)
     || negb (nonempty selected_types)
  then (charts,
        warning
          "Please select at least one X column, Y column, and chart type")
  else
    let s :=
      fold_left
        (fun s chart_type =>
           fold_left
             (fun s x_col =>
                fold_left
                  (fun s y_col => try_create_chart df chart_type x_col y_col s)
                  y_columns s)
             x_columns s)
        selected_types (charts, 0%nat) in
    (fst s, success_created (snd s)).

(** Whether the call for a request returns a figure. *)
Definition builds (df : DataFrame) (request : string * string * string)
  : bool :=
  let '(chart_type, x_col, y_col) := request in
  match try_generate_chart df chart_type x_col y_col with
  | Some _ => true
  | None => false
  end.

(** The chart the loop appends for a request. *)
Definition chart_for (df : DataFrame) (request : string * string * string)
  : list Chart :=
  let '(chart_type, x_col, y_col) := request in
  match try_generate_chart df chart_type x_col y_col with
  | Some chart =>
      [mkChart chart_type chart (chart_title chart_type x_col y_col)
         x_col y_col true 400 true]
  | None => []
  end.

End EverySelection.

End App.

(** * The statistics in the words of the spec

    Quartiles, the outlier rule and Pearson's coefficient written from their
    usual definitions, without the operations of the embedding above: the
    theorems on the analyzer compare what the code computes with them. *)

Module Spec.

Definition lt (a b : Q) : bool := if Qlt_le_dec a b then true else false.


Definition count (p : Q -> bool) (values : list Q) : nat :=
  List.length (filter p values).



(** Strictly outside the interval [[lower, upper]]. *)
Definition outside (lower upper v : Q) : bool := lt v lower || lt upper v.

(** The values outside [[Q1 - 1.5 IQR, Q3 + 1.5 IQR]]. *)
Definition outliers (values : list Q) (q1 q3 : Q) : nat :=
  let iqr := (q3 - q1)%Q in
  count (outside (q1 - (3 # 2) * iqr)%Q (q3 + (3 # 2) * iqr)%Q) values.










End Spec.

(** * Proofs *)

Import Pandas ChartGenerator FileHandler DataAnalyzer Examples.

(** ** Comparisons and keys *)

Lemma Qlt_bool_iff (a b : Q) : Qlt_bool a b = true <-> (a < b)%Q.
Proof.
  unfold Qlt_bool. rewrite negb_true_iff.
  split; intro H.
  - apply Qnot_le_lt. intro Hle. apply Qle_bool_iff in Hle. congruence.
  - destruct (Qle_bool b a) eqn:E; [|reflexivity].
    apply Qle_bool_iff in E. exfalso. exact (Qlt_not_le _ _ H E).
Qed.

Lemma Qlt_bool_false_iff (a b : Q) : Qlt_bool a b = false <-> ~ (a < b)%Q.
Proof.
  rewrite <- Qlt_bool_iff. destruct (Qlt_bool a b); split; congruence.
Qed.

Lemma key_eqb_refl (k : key) : key_eqb k k = true.
Proof.
  destruct k as [q|s]; simpl.
  - apply Qeq_bool_iff. reflexivity.
  - apply String.eqb_refl.
Qed.

Lemma key_eqb_sym (a b : key) : key_eqb a b = key_eqb b a.
Proof.
  destruct a as [p|s], b as [q|t]; simpl; try reflexivity.
  - destruct (Qeq_bool p q) eqn:E1, (Qeq_bool q p) eqn:E2; try reflexivity.
    + apply Qeq_bool_iff in E1. symmetry in E1. apply Qeq_bool_iff in E1. congruence.
    + apply Qeq_bool_iff in E2. symmetry in E2. apply Qeq_bool_iff in E2. congruence.
  - apply String.eqb_sym.
Qed.

Lemma cell_eqb_sym (a b : cell) : cell_eqb a b = cell_eqb b a.
Proof.
  unfold cell_eqb. destruct (cell_key a), (cell_key b); try reflexivity.
  apply key_eqb_sym.
Qed.

Lemma cell_eqb_refl (c : cell) :
  is_null c = false -> hashable c = true -> cell_eqb c c = true.
Proof.
  unfold cell_eqb.
  destruct c; intros Hn Hh; try discriminate; cbn [cell_key];
    apply key_eqb_refl.
Qed.

(** *** Sorting *)

Lemma insert_key_perm (k : cell) (l : list cell) :
  Permutation (insert_key k l) (k :: l).
Proof.
  induction l as [|h t IH]; simpl.
  - apply Permutation_refl.
  - destruct (cell_leb k h).
    + apply Permutation_refl.
    + eapply perm_trans; [apply perm_skip, IH | apply perm_swap].
Qed.

Lemma sort_keys_perm (l : list cell) : Permutation (sort_keys l) l.
Proof.
  induction l as [|h t IH]; simpl.
  - apply perm_nil.
  - eapply perm_trans; [apply insert_key_perm | apply perm_skip, IH].
Qed.

Lemma insert_desc_perm (g : cell * Q) (l : list (cell * Q)) :
  Permutation (insert_desc g l) (g :: l).
Proof.
  induction l as [|h t IH]; simpl.
  - apply Permutation_refl.
  - destruct (Qlt_bool (snd g) (snd h)).
    + eapply perm_trans; [apply perm_skip, IH | apply perm_swap].
    + apply Permutation_refl.
Qed.

Lemma sort_values_desc_perm (l : list (cell * Q)) :
  Permutation (sort_values_desc l) l.
Proof.
  induction l as [|h t IH]; simpl.
  - apply perm_nil.
  - eapply perm_trans; [apply insert_desc_perm | apply perm_skip, IH].
Qed.


Lemma insert_desc_sorted (g : cell * Q) (l : list (cell * Q)) :
  descending l -> descending (insert_desc g l).
Proof.
  unfold descending. induction l as [|h t IH]; simpl; intro Hs.
  - constructor; constructor.
  - inversion Hs as [|? ? Ht Hh]; subst.
    destruct (Qlt_bool (snd g) (snd h)) eqn:E.
    + apply Qlt_bool_iff in E.
      constructor; [apply IH, Ht|].
      apply (Permutation_Forall (Permutation_sym (insert_desc_perm g t))).
      constructor; [apply Qlt_le_weak, E | exact Hh].
    + apply Qlt_bool_false_iff in E. apply Qnot_lt_le in E.
      constructor; [exact Hs|].
      constructor; [exact E|].
      eapply Forall_impl; [|exact Hh].
      intros a Ha. simpl in Ha. eapply Qle_trans; eassumption.
Qed.

Lemma sort_values_desc_sorted (l : list (cell * Q)) :
  descending (sort_values_desc l).
Proof.
  induction l as [|h t IH]; simpl.
  - constructor.
  - apply insert_desc_sorted, IH.
Qed.

(** *** Distinct values *)


Lemma seen_false (x : cell) (l : list cell) :
  seen x l = false -> Forall (fun a => cell_eqb a x = false) l.
Proof.
  unfold seen. induction l as [|h t IH]; simpl; intro H.
  - constructor.
  - apply orb_false_iff in H. destruct H as [H1 H2].
    constructor; [rewrite cell_eqb_sym; exact H1 | apply IH, H2].
Qed.

Lemma distinct_snoc (l : list cell) (x : cell) :
  distinct l -> Forall (fun a => cell_eqb a x = false) l ->
  distinct (l ++ [x]).
Proof.
  unfold distinct. induction l as [|h t IH]; simpl; intros Hd Hx.
  - constructor; constructor.
  - inversion Hd as [|? ? Hh Ht]; subst.
    inversion Hx as [|? ? Hhx Htx]; subst.
    constructor; [|apply IH; assumption].
    apply Forall_app. split; [exact Hh | constructor; [exact Hhx | constructor]].
Qed.

Lemma unique_from_distinct (xs acc : list cell) :
  distinct acc -> distinct (unique_from acc xs).
Proof.
  revert acc. induction xs as [|x xs IH]; simpl; intros acc Hd.
  - exact Hd.
  - destruct (is_null x || seen x acc) eqn:E.
    + apply IH, Hd.
    + apply orb_false_iff in E. destruct E as [_ E].
      apply IH, distinct_snoc; [exact Hd | apply seen_false, E].
Qed.

Lemma unique_distinct (xs : list cell) : distinct (unique xs).
Proof. apply unique_from_distinct. constructor. Qed.

Lemma unique_from_extends (xs acc : list cell) :
  exists l, unique_from acc xs = acc ++ l.
Proof.
  revert acc. induction xs as [|x xs IH]; simpl; intro acc.
  - exists []. symmetry. apply app_nil_r.
  - destruct (is_null x || seen x acc).
    + apply IH.
    + destruct (IH (acc ++ [x])) as [l Hl].
      exists (x :: l). rewrite Hl, <- app_assoc. reflexivity.
Qed.

Lemma seen_app (x : cell) (l1 l2 : list cell) :
  seen x (l1 ++ l2) = seen x l1 || seen x l2.
Proof. unfold seen. apply existsb_app. Qed.

Lemma unique_from_seen (xs acc : list cell) (c : cell) :
  seen c acc = true -> seen c (unique_from acc xs) = true.
Proof.
  intro H. destruct (unique_from_extends xs acc) as [l ->].
  rewrite seen_app, H. reflexivity.
Qed.

(** Every non-null hashable value of the column is one of the distinct
    values. *)
Lemma unique_from_complete (xs acc : list cell) (c : cell) :
  In c xs -> is_null c = false -> hashable c = true ->
  seen c (unique_from acc xs) = true.
Proof.
  revert acc. induction xs as [|x xs IH]; simpl; intros acc Hin Hn Hh.
  - contradiction.
  - destruct Hin as [-> | Hin].
    + rewrite Hn. simpl. destruct (seen c acc) eqn:E.
      * apply unique_from_seen, E.
      * apply unique_from_seen. rewrite seen_app. simpl.
        rewrite (cell_eqb_refl c Hn Hh). apply orb_true_iff. right. reflexivity.
    + destruct (is_null x || seen x acc); apply IH; assumption.
Qed.

Lemma unique_complete (xs : list cell) (c : cell) :
  In c xs -> is_null c = false -> hashable c = true ->
  seen c (unique xs) = true.
Proof. apply unique_from_complete. Qed.

(** Every distinct value is a non-null value of the column. *)
Lemma unique_from_sound (xs acc : list cell) (k : cell) :
  In k (unique_from acc xs) ->
  In k acc \/ (In k xs /\ is_null k = false).
Proof.
  revert acc. induction xs as [|x xs IH]; simpl; intros acc Hin.
  - left. exact Hin.
  - destruct (is_null x || seen x acc) eqn:E.
    + destruct (IH _ Hin) as [H | [H1 H2]]; [left; exact H | right; auto].
    + apply orb_false_iff in E. destruct E as [En _].
      destruct (IH _ Hin) as [H | [H1 H2]]; [|right; auto].
      apply in_app_or in H. destruct H as [H | [<- | []]];
        [left; exact H | right; auto].
Qed.

Lemma unique_sound (xs : list cell) (k : cell) :
  In k (unique xs) -> In k xs /\ is_null k = false.
Proof.
  intro H. destruct (unique_from_sound xs [] k H) as [[] | H']. exact H'.
Qed.

(** *** Pie and donut requests *)

Lemma is_pie_or_donut_inv (chart_type : string) :
  is_pie_or_donut chart_type = true ->
  chart_type = "pie" \/ chart_type = "donut".
Proof.
  unfold is_pie_or_donut. intro H. apply orb_true_iff in H.
  destruct H as [H | H]; apply String.eqb_eq in H; auto.
Qed.

Lemma px_height_ok (height : Z) :
  (10 <= height)%Z -> px_height height = Ok (Some height).
Proof.
  intro H. unfold px_height.
  destruct (Z.eqb_spec height 0) as [E | _]; [lia|].
  destruct (Z.ltb_spec height 10) as [E | _]; [lia | reflexivity].
Qed.

Lemma px_figure_ok kind data title height color markers hole box :
  (10 <= height)%Z ->
  px_figure kind data title height color markers hole box
  = Ok (new_figure kind data title (Some height) color markers hole box).
Proof.
  intro H. unfold px_figure. rewrite (px_height_ok _ H). reflexivity.
Qed.

Lemma px_pie_fig_ok data title height hole :
  (10 <= height)%Z ->
  px_pie_fig data title height hole = Ok (pie_figure data title height hole).
Proof. intro H. apply px_figure_ok, H. Qed.

Section PieRequests.

Variables (df : DataFrame) (chart_type x_column y_column : string).
Variables (title : option string) (use_color : bool) (height : Z).
Variable show_grid : bool.
Variables (xs ys : Series) (vs : list (option Q)).

Hypothesis Hpie : is_pie_or_donut chart_type = true.
Hypothesis Hx : lookup x_column (columns df) = Some xs.
Hypothesis Hhash : forallb hashable (cells xs) = true.
Hypothesis Hy : lookup y_column (columns df) = Some ys.
Hypothesis Hnum : summands ys = Ok vs.
Hypothesis Hxy : x_column <> y_column.
Hypothesis Hheight : (10 <= height)%Z.

Let pie_data := group_sums (cells xs) vs.
Let the_title := default_title title x_column y_column.

Lemma groupby_sum_ok : groupby_sum df x_column y_column = Ok pie_data.
Proof.
  unfold groupby_sum, getitem, check_hashable.
  rewrite Hx. cbn [bind]. rewrite Hhash. cbn [bind].
  rewrite Hy. cbn [bind]. rewrite Hnum. cbn [bind].
  apply String.eqb_neq in Hxy. rewrite Hxy. reflexivity.
Qed.

Lemma nunique_ok : nunique xs = Ok (List.length (unique (cells xs))).
Proof. unfold nunique, check_hashable. rewrite Hhash. reflexivity. Qed.

Lemma not_bar : String.eqb chart_type "bar" = false.
Proof.
  destruct (is_pie_or_donut_inv _ Hpie) as [-> | ->]; reflexivity.
Qed.

Lemma create_figure_pie :
  create_figure df chart_type x_column y_column the_title use_color height
  = Ok (pie_figure pie_data the_title height
          (if String.eqb chart_type "donut" then Some (2 # 5)%Q else None)).
Proof.
  unfold create_figure.
  destruct (is_pie_or_donut_inv _ Hpie) as [-> | ->];
    cbn [String.eqb Ascii.eqb Bool.eqb];
    rewrite groupby_sum_ok; cbn [bind]; apply px_pie_fig_ok, Hheight.
Qed.

Lemma limit_segments_pie (fig : Figure) :
  limit_segments df chart_type x_column y_column the_title height fig
  = Ok (if Qlt_bool 0 (other_value pie_data)
        then collapsed_pie pie_data chart_type the_title height else fig).
Proof.
  unfold limit_segments. rewrite groupby_sum_ok. cbn [bind].
  fold (other_value pie_data).
  destruct (Qlt_bool 0 (other_value pie_data)); [|reflexivity].
  apply px_pie_fig_ok, Hheight.
Qed.

Lemma generate_chart_pie :
  generate_chart df chart_type x_column y_column title use_color height
                 show_grid
  = Ok (let plain :=
          plain_pie pie_data chart_type x_column the_title height show_grid in
        if Nat.ltb 10 (List.length (unique (cells xs)))
        then if Qlt_bool 0 (other_value pie_data)
             then collapsed_pie pie_data chart_type the_title height
             else plain
        else plain).
Proof.
  unfold generate_chart.
  fold (default_title title x_column y_column). fold the_title.
  fold (template_of show_grid). cbv zeta.
  rewrite create_figure_pie. cbn [bind].
  rewrite Hpie, not_bar. cbn [orb].
  unfold getitem. rewrite Hx. cbn [bind].
  rewrite nunique_ok. cbn [bind].
  cbv zeta.
  destruct (Nat.ltb 10 (List.length (unique (cells xs)))).
  - rewrite limit_segments_pie. reflexivity.
  - reflexivity.
Qed.

End PieRequests.

Lemma seen_perm (c : cell) (l1 l2 : list cell) :
  Permutation l1 l2 -> seen c l1 = true -> seen c l2 = true.
Proof.
  unfold seen. intros Hp H. apply existsb_exists in H.
  destruct H as (a & Ha & Hc). apply existsb_exists. exists a.
  split; [eapply Permutation_in; eassumption | exact Hc].
Qed.

Lemma group_sums_keys (xs : list cell) (vs : list (option Q)) :
  map fst (group_sums xs vs) = sort_keys (unique xs).
Proof.
  unfold group_sums. rewrite map_map. simpl. apply map_id.
Qed.

Lemma group_sums_value (xs : list cell) (vs : list (option Q)) k v :
  In (k, v) (group_sums xs vs) -> v = sumQ (dropna (group_values k xs vs)).
Proof.
  unfold group_sums. intro H. apply in_map_iff in H.
  destruct H as (k' & E & _). inversion E; subst. reflexivity.
Qed.

Lemma group_sums_length (xs : list cell) (vs : list (option Q)) :
  List.length (group_sums xs vs) = List.length (unique xs).
Proof.
  unfold group_sums. rewrite length_map.
  apply Permutation_length, sort_keys_perm.
Qed.

(** C9 at a request the page of [app.py] can send: a pie of the column
    sales by itself over the dataset (A,10), (B,20), (A,5).  The column has
    three distinct values, so the claim asks for three slices; the frame of
    sums cannot be given a column sales beside its index of the same name,
    and the request raises instead.  A bar chart of the same two columns is
    drawn. *)
Theorem pie_of_a_column_by_itself :
  In "sales" (map fst (columns sales_df))
  /\ In "sales" (select_number_columns sales_df)
  /\ (exists s, getitem sales_df "sales" = Ok s /\ nunique s = Ok 3%nat)
  /\ generate_chart sales_df "pie" "sales" "sales" None true 400 true
     = Raise (ValueError "cannot insert sales, already exists")
  /\ exists fig,
       generate_chart sales_df "bar" "sales" "sales" None true 400 true
       = Ok fig.
Proof.
  split; [simpl; auto|]. split; [simpl; auto|].
  split; [eexists; split; reflexivity|].
  split; [reflexivity|].
  eexists. vm_compute. reflexivity.
Qed.

Lemma sorted_data_length (xs : list cell) (vs : list (option Q)) :
  List.length (sort_values_desc (group_sums xs vs)) = List.length (unique xs).
Proof.
  rewrite (Permutation_length (sort_values_desc_perm _)).
  apply group_sums_length.
Qed.

(** C1 at eleven categories of which the last two sum to zero: a, ..., i
    with the values 20, ..., 12, then j and k with 0.  The groups after the
    ninth add up to 0, "Other" is left out, and the figure returned is the one
    made before the block on many categories: it shows all eleven groups, not
    the top nine. *)
Theorem zero_remainder_keeps_all_groups :
  exists fig,
    generate_chart (eleven_df 0 0) "pie" "k" "v" None true 400 true = Ok fig
    /\ nunique eleven_keys = Ok 11%nat
    /\ other_value (group_sums (cells eleven_keys) (eleven_values 0 0)) = 0%Q
    /\ slices fig =
         [ (CStr "a", 20%Q); (CStr "b", 19%Q); (CStr "c", 18%Q);
           (CStr "d", 17%Q); (CStr "e", 16%Q); (CStr "f", 15%Q);
           (CStr "g", 14%Q); (CStr "h", 13%Q); (CStr "i", 12%Q);
           (CStr "j", 0%Q); (CStr "k", 0%Q) ]
    /\ List.length (slices fig) = 11%nat
    /\ List.length (slices fig) <> 9%nat.
Proof.
  eexists. split; [vm_compute; reflexivity|].
  repeat split; try reflexivity. discriminate.
Qed.

(** *** The layout of the figure returned *)

Lemma px_figure_inv kind data title height color markers hole box fig :
  px_figure kind data title height color markers hole box = Ok fig ->
  exists h,
    px_height height = Ok h
    /\ fig = new_figure kind data title h color markers hole box.
Proof.
  unfold px_figure. destruct (px_height height) as [h | e | w];
    cbn [bind]; intro H; try discriminate H.
  injection H as <-. exists h. split; reflexivity.
Qed.

Lemma px_height_inv (height : Z) (h : option Z) :
  px_height height = Ok h ->
  (height = 0%Z /\ h = None) \/ ((10 <= height)%Z /\ h = Some height).
Proof.
  unfold px_height.
  destruct (Z.eqb_spec height 0) as [E | _];
    [intro H; injection H as <-; left; auto|].
  destruct (Z.ltb_spec height 10) as [_ | E]; [discriminate|].
  intro H; injection H as <-. right. auto.
Qed.

Lemma px_xy_fresh kind df x y title height color markers box fig :
  px_xy kind df x y title height color markers box = Ok fig ->
  layout_yaxis_title fig = None.
Proof.
  unfold px_xy, px_color, px_column.
  destruct (lookup x (columns df)); [|discriminate].
  destruct (lookup y (columns df)); [|discriminate].
  cbn [bind].
  destruct color as [c|]; [destruct (lookup c (columns df))|];
    cbn [bind]; intro H; try discriminate H;
    apply px_figure_inv in H; destruct H as (h & _ & ->); reflexivity.
Qed.

Lemma px_hist_fresh df x title height color fig :
  px_hist df x title height color = Ok fig -> layout_yaxis_title fig = None.
Proof.
  unfold px_hist, px_color, px_column.
  destruct (lookup x (columns df)); [|discriminate].
  cbn [bind].
  destruct color as [c|]; [destruct (lookup c (columns df))|];
    cbn [bind]; intro H; try discriminate H;
    apply px_figure_inv in H; destruct H as (h & _ & ->); reflexivity.
Qed.

Lemma create_figure_fresh df chart_type x y title use_color height fig :
  create_figure df chart_type x y title use_color height = Ok fig ->
  layout_yaxis_title fig = None.
Proof.
  unfold create_figure.
  repeat match goal with
         | |- context [if String.eqb chart_type ?s then _ else _] =>
             destruct (String.eqb chart_type s)
         end;
    try (apply px_xy_fresh); try (apply px_hist_fresh); try discriminate;
    destruct (groupby_sum df x y); cbn [bind]; intro H; try discriminate H;
    apply px_figure_inv in H; destruct H as (h & _ & ->); reflexivity.
Qed.

(** Every figure returned carries the layout set by [update_layout], except
    the one [px.pie] builds anew when the categories of a pie or donut are
    folded into "Other". *)
Lemma layout_kept_unless_rebuilt
    (df : DataFrame) (chart_type x_column y_column : string)
    (title : option string) (use_color : bool) (height : Z)
    (show_grid : bool) (fig : Figure) :
  generate_chart df chart_type x_column y_column title use_color height
                 show_grid = Ok fig ->
  normalized chart_type x_column y_column show_grid fig
  \/ (is_pie_or_donut chart_type = true
      /\ exists pie_data,
           groupby_sum df x_column y_column = Ok pie_data
           /\ (0 < other_value pie_data)%Q
           /\ exists h,
                px_height height = Ok h
                /\ fig = collapsed_pie_at pie_data chart_type
                           (default_title title x_column y_column) h).
Proof.
  unfold generate_chart.
  fold (default_title title x_column y_column). fold (template_of show_grid).
  cbv zeta.
  destruct (create_figure df chart_type x_column y_column
              (default_title title x_column y_column) use_color height)
    as [fig0 | e | w] eqn:Ecf; cbn [bind]; try discriminate.
  pose proof (create_figure_fresh _ _ _ _ _ _ _ _ Ecf) as Hy.
  assert (Hnorm : normalized chart_type x_column y_column show_grid
            (update_layout fig0 x_column
               (if is_pie_or_donut chart_type then None else Some y_column)
               (template_of show_grid))).
  { unfold normalized, update_layout. cbn.
    repeat split. destruct (is_pie_or_donut chart_type); [exact Hy | reflexivity]. }
  destruct (String.eqb chart_type "bar") eqn:Ebar; cbn [orb].
  - destruct (getitem df x_column) as [xs | |]; cbn [bind]; try discriminate.
    destruct (nunique xs) as [n | |]; cbn [bind]; try discriminate.
    assert (Hp : is_pie_or_donut chart_type = false).
    { apply String.eqb_eq in Ebar. subst. reflexivity. }
    destruct (Nat.ltb 10 n); intro H; injection H as <-; left;
      [|exact Hnorm].
    destruct Hnorm as (H1 & H2 & H3 & H4).
    unfold normalized, set_tickangle. cbn. auto.
  - destruct (is_pie_or_donut chart_type) eqn:Ep.
    + destruct (getitem df x_column) as [xs | |]; cbn [bind]; try discriminate.
      destruct (nunique xs) as [n | |]; cbn [bind]; try discriminate.
      destruct (Nat.ltb 10 n); [|intro H; injection H as <-; left; exact Hnorm].
      unfold limit_segments.
      destruct (groupby_sum df x_column y_column) as [pie_data | |];
        cbn [bind]; try discriminate.
      fold (other_value pie_data).
      destruct (Qlt_bool 0 (other_value pie_data)) eqn:Eo;
        intro H; [right | injection H as <-; left; exact Hnorm].
      split; [reflexivity|]. exists pie_data.
      split; [reflexivity|]. split; [apply Qlt_bool_iff, Eo|].
      apply px_figure_inv in H. exact H.
    + intro H; injection H as <-. left. exact Hnorm.
Qed.

(** C2 at a request where the category block rebuilds the figure: a donut
    over eleven categories with a positive remainder and the grid switched
    off.  The figure returned is the one [px.pie] made last; the layout set
    before it is gone: the title is not centred, the x axis has no title and
    the template is the default one, not "plotly_white". *)
Theorem layout_lost_on_collapse :
  exists fig,
    generate_chart (eleven_df 2 1) "donut" "k" "v" None true 400 false = Ok fig
    /\ List.length (slices fig) = 10%nat
    /\ layout_title_x fig = None
    /\ layout_xaxis_title fig = None
    /\ layout_template fig = "plotly"
    /\ layout_template fig <> "plotly_white".
Proof.
  eexists. split; [vm_compute; reflexivity|].
  repeat split; try reflexivity. discriminate.
Qed.

(** C10. The advertised chart types are exactly these eight; "donut" is not
    among them, yet [generate_chart] builds a donut figure. *)
Theorem donut_not_advertised :
  available_chart_types
    = [ "bar"; "line"; "scatter"; "pie"; "area"; "histogram"; "box";
        "violin" ]
  /\ ~ In "donut" available_chart_types
  /\ exists fig,
       generate_chart sales_df "donut" "name" "sales" None true 400 true
         = Ok fig
       /\ fig_kind fig = px_pie
       /\ fig_hole fig = Some (2 # 5)%Q
       /\ slices fig = [ (CStr "A", 15%Q); (CStr "B", 20%Q) ].
Proof.
  split; [reflexivity|]. split.
  - simpl. intros H.
    repeat (destruct H as [H | H]; [discriminate H|]). exact H.
  - eexists. split; [vm_compute; reflexivity|]. repeat split; reflexivity.
Qed.

(** ** Loader *)

Lemma prefix_app (p s : string) : String.prefix p (p ++ s)%string = true.
Proof.
  induction p as [|c p IH]; simpl.
  - destruct s; reflexivity.
  - rewrite IH. destruct (ascii_dec c c) as [_ | N]; [reflexivity | congruence].
Qed.

Lemma unsupported_file_type_kind (file_type : string) :
  error_kind (unsupported_file_type file_type) = Some UnsupportedFormat.
Proof.
  unfold error_kind, unsupported_file_type. rewrite prefix_app. reflexivity.
Qed.

Lemma csv_load_kind (m : string) :
  error_kind (Exception ("Error loading CSV file: " ++ m)%string)
  = Some ParseError.
Proof.
  unfold error_kind.
  rewrite (prefix_app "Error loading CSV file: " m). reflexivity.
Qed.

Lemma csv_parse_kind (m : string) :
  error_kind (Exception ("Failed to parse CSV file: " ++ m)%string)
  = Some ParseError.
Proof.
  unfold error_kind.
  rewrite (prefix_app "Failed to parse CSV file: " m).
  rewrite orb_true_r. reflexivity.
Qed.

Lemma json_load_kind (m : string) :
  error_kind (Exception ("Error loading JSON file: " ++ m)%string)
  = Some ParseError.
Proof.
  unfold error_kind.
  rewrite (prefix_app "Error loading JSON file: " m).
  rewrite !orb_true_r. reflexivity.
Qed.

Section LoadFacts.

Variable read_csv : UploadedFile -> encoding -> csv_result * UploadedFile.
Variable json_load : UploadedFile -> json_result * UploadedFile.

Let load := load_file read_csv json_load.

Lemma load_csv_raises (f : UploadedFile) (e : exn) :
  fst (load_csv read_csv f) = Raise e -> error_kind e = Some ParseError.
Proof.
  unfold load_csv.
  destruct (read_csv f utf_8) as [[d | m | e1] f1]; simpl.
  - discriminate.
  - destruct (read_csv f1 latin1) as [[d | m2 | e2] f2]; simpl;
      intro H; inversion H; subst; apply csv_parse_kind.
  - intro H; inversion H; subst. apply csv_load_kind.
Qed.

Lemma reraise_raises {A : Type} (p : string) (m : outcome A) (e : exn) :
  reraise p m = Raise e -> exists e0, m = Raise e0 /\ e = Exception (p ++ exn_str e0)%string.
Proof.
  destruct m; simpl; intro H; inversion H; subst. eexists; split; reflexivity.
Qed.

Lemma load_json_raises (f : UploadedFile) (e : exn) :
  fst (load_json json_load f) = Raise e -> error_kind e = Some ParseError.
Proof.
  unfold load_json.
  destruct (json_load f) as [[j | e1] f1]; simpl.
  - intro H. apply reraise_raises in H. destruct H as (e0 & _ & ->).
    apply json_load_kind.
  - intro H; inversion H; subst. apply json_load_kind.
Qed.

(** C3. A file whose type (the lower-cased text after the last dot of its
    name) is neither csv nor json is refused with the unsupported-type
    exception and left untouched; a csv or json file never fails that way:
    every exception raised for it is a parse error.  A csv file is read as
    UTF-8 first; the Latin-1 read happens exactly when the first read fails
    to decode, on the stream as the first read left it, and a failure of
    that second read ends the load. *)
Theorem load_file_errors (f : UploadedFile) :
  let file_type := file_type_of f in
  (file_type <> "csv" -> file_type <> "json" ->
     load f = (Raise (unsupported_file_type file_type), f)
     /\ error_kind (unsupported_file_type file_type) = Some UnsupportedFormat)
  /\ (file_type = "csv" \/ file_type = "json" ->
      forall e, fst (load f) = Raise e ->
                error_kind e = Some ParseError
                /\ error_kind e <> Some UnsupportedFormat)
  /\ (file_type = "csv" ->
      (forall df f1, read_csv f utf_8 = (CsvFrame df, f1) ->
                     load f = (Ok df, f1))
      /\ (forall e f1, read_csv f utf_8 = (CsvError e, f1) ->
            load f = (Raise (Exception ("Error loading CSV file: "
                                        ++ exn_str e)%string), f1))
      /\ (forall m f1, read_csv f utf_8 = (CsvUnicodeDecodeError m, f1) ->
            (forall df f2, read_csv f1 latin1 = (CsvFrame df, f2) ->
                           load f = (Ok df, f2))
            /\ (forall r f2, read_csv f1 latin1 = (r, f2) ->
                  (forall df, r <> CsvFrame df) ->
                  exists msg,
                    load f = (Raise (Exception ("Failed to parse CSV file: "
                                                ++ msg)%string), f2)))).
Proof.
  intro file_type. unfold load, load_file. fold file_type.
  split; [|split].
  - intros Hc Hj.
    apply String.eqb_neq in Hc. apply String.eqb_neq in Hj.
    rewrite Hc, Hj. split; [reflexivity | apply unsupported_file_type_kind].
  - intros Hft e He.
    assert (Hk : error_kind e = Some ParseError).
    { destruct Hft as [Hft | Hft]; rewrite Hft in He; simpl in He.
      - eapply load_csv_raises; eassumption.
      - eapply load_json_raises; eassumption. }
    split; [exact Hk | rewrite Hk; discriminate].
  - intro Hft. rewrite Hft. simpl. unfold load_csv.
    split; [|split].
    + intros df f1 H. rewrite H. reflexivity.
    + intros e f1 H. rewrite H. reflexivity.
    + intros m f1 H. rewrite H. split.
      * intros df f2 H2. rewrite H2. reflexivity.
      * intros r f2 H2 Hr. rewrite H2.
        destruct r as [df | m2 | e2].
        -- exfalso. apply (Hr df). reflexivity.
        -- eexists. reflexivity.
        -- eexists. reflexivity.
Qed.

End LoadFacts.

(** A file named "report.TXT" is refused; "data.CSV" that decodes under
    neither encoding fails with a parse error after two reads. *)
Lemma load_file_errors_witness :
  load_file read_csv_undecodable (json_load_finds JNull)
            (mkUploadedFile "report.TXT" [] 0)
    = (Raise (unsupported_file_type "txt"), mkUploadedFile "report.TXT" [] 0)
  /\ exists msg,
       load_file read_csv_undecodable (json_load_finds JNull)
                 (mkUploadedFile "data.CSV" [] 0)
       = (Raise (Exception ("Failed to parse CSV file: " ++ msg)%string),
          mkUploadedFile "data.CSV" [] 2).
Proof.
  split.
  - apply (proj1 (load_file_errors read_csv_undecodable (json_load_finds JNull)
                    (mkUploadedFile "report.TXT" [] 0))); vm_compute; discriminate.
  - destruct (proj2 (proj2 (load_file_errors read_csv_undecodable
                     (json_load_finds JNull) (mkUploadedFile "data.CSV" [] 0)))
               eq_refl) as (_ & _ & H).
    destruct (H "invalid start byte" (mkUploadedFile "data.CSV" [] 1) eq_refl)
      as [_ H2].
    apply (H2 (CsvUnicodeDecodeError "invalid start byte")
              (mkUploadedFile "data.CSV" [] 2) eq_refl).
    intros df. discriminate.
Defined.

(** *** Frames built from records *)

Lemma all_numeric_cells (l : list cell) (vs : list (option Q)) :
  all_numeric l = Some vs -> map num_cell vs = l.
Proof.
  revert vs. induction l as [|c l IH]; simpl; intros vs H.
  - inversion H. reflexivity.
  - destruct (numeric_value c) as [v|] eqn:Ec; [|discriminate].
    destruct (all_numeric l) as [vs'|]; [|discriminate].
    inversion H; subst. simpl. rewrite (IH vs' eq_refl).
    destruct c; simpl in Ec; inversion Ec; reflexivity.
Qed.

Lemma all_bool_cells (l : list cell) (bs : list bool) :
  all_bool l = Some bs -> map CBool bs = l.
Proof.
  revert bs. induction l as [|c l IH]; simpl; intros bs H.
  - inversion H. reflexivity.
  - destruct c; try discriminate.
    destruct (all_bool l) as [bs'|]; [|discriminate].
    inversion H; subst. simpl. rewrite (IH bs' eq_refl). reflexivity.
Qed.

(** Inference only chooses the dtype: the cells stay what they were. *)
Lemma cells_infer_series (l : list cell) : cells (infer_series l) = l.
Proof.
  unfold infer_series. destruct l as [|c l]; [reflexivity|].
  destruct (all_numeric (c :: l)) as [vs|] eqn:En.
  - destruct (dropna vs) as [|q qs]; [reflexivity|].
    destruct (forallb is_integral (q :: qs)
              && Nat.eqb (List.length (q :: qs)) (List.length vs));
      simpl; apply all_numeric_cells, En.
  - destruct (all_bool (c :: l)) as [bs|] eqn:Eb; [|reflexivity].
    simpl. apply all_bool_cells, Eb.
Qed.

(** Every column of a frame built from records is as long as the list of
    records, and its labels are the keys in order of first appearance. *)
Lemma DataFrame_records_shape (records : list record) :
  index_len (DataFrame_records records) = List.length records
  /\ map fst (columns (DataFrame_records records)) = union_keys records
  /\ Forall (fun c => series_len (snd c) = List.length records)
            (columns (DataFrame_records records)).
Proof.
  unfold DataFrame_records. simpl. split; [reflexivity|]. split.
  - rewrite map_map. simpl. apply map_id.
  - apply Forall_forall. intros [k s] H. apply in_map_iff in H.
    destruct H as (k' & E & _). inversion E; subst. simpl.
    unfold series_len. rewrite cells_infer_series. apply length_map.
Qed.

(** A record without nested objects is its own flattening. *)
Lemma dict_update_nil {A : Type} (a : list (string * A)) : dict_update a [] = a.
Proof. reflexivity. Qed.

Lemma filter_all {A : Type} (p : A -> bool) (l : list A) :
  forallb p l = true -> filter p l = l.
Proof.
  induction l as [|a l IH]; simpl; intro H; [reflexivity|].
  apply andb_true_iff in H. destruct H as [Ha Hl].
  rewrite Ha, (IH Hl). reflexivity.
Qed.

Lemma filter_none {A : Type} (p : A -> bool) (l : list A) :
  forallb (fun a => negb (p a)) l = true -> filter p l = [].
Proof.
  induction l as [|a l IH]; simpl; intro H; [reflexivity|].
  apply andb_true_iff in H. destruct H as [Ha Hl].
  apply negb_true_iff in Ha. rewrite Ha. apply IH, Hl.
Qed.

Lemma normalise_flat_record (members : record) :
  forallb (fun kv => negb (is_dict (snd kv))) members = true ->
  normalise_json_ordered members = members.
Proof.
  intro H. unfold normalise_json_ordered.
  rewrite (filter_all _ _ H), (filter_none (fun kv => is_dict (snd kv)) _ H).
  reflexivity.
Qed.

Lemma json_normalize_objects (items : list json) :
  forallb is_dict items = true ->
  json_normalize items
  = Ok (DataFrame_records (map simple_json_normalize items)).
Proof.
  intro H. unfold json_normalize. destruct items as [|i items]; [reflexivity|].
  assert (E : existsb is_list (i :: items) = false).
  { apply not_true_is_false. intro Hex. apply existsb_exists in Hex.
    destruct Hex as (j & Hj & Hl). rewrite forallb_forall in H.
    specialize (H j Hj). destruct j; discriminate. }
  rewrite E. reflexivity.
Qed.

Lemma rows_of_records_intro (items : list json) :
  rows_of_records items (DataFrame_records (map simple_json_normalize items)).
Proof.
  destruct (DataFrame_records_shape (map simple_json_normalize items))
    as (H1 & H2 & H3).
  rewrite length_map in H1, H3. repeat split; assumption.
Qed.

(** C4, as the code has it.  For a json file whose document is [j]:
    a root array of objects gives one row per element, with the
    dot-flattened keys as column labels; a root object whose member "data" is
    an array of objects gives the same over that array; any other root
    object gives a frame of one row; a root that is neither an array nor an
    object fails with a parse error.  The loader itself never looks at the
    elements of an array: whatever the array holds goes to
    [pd.json_normalize], and every exception is turned into a parse
    error. *)
Theorem json_root_shapes
    (read_csv : UploadedFile -> encoding -> csv_result * UploadedFile)
    (json_load : UploadedFile -> json_result * UploadedFile)
    (f f1 : UploadedFile) (j : json) :
  file_type_of f = "json" ->
  json_load f = (JsonValue j, f1) ->
  let load := load_file read_csv json_load in
  (forall items, j = JArr items ->
     load f = (reraise "Error loading JSON file: " (json_normalize items), f1)
     /\ (forallb is_dict items = true ->
         exists df, load f = (Ok df, f1) /\ rows_of_records items df))
  /\ (forall members items,
        j = JObj members -> lookup "data" members = Some (JArr items) ->
        load f = (reraise "Error loading JSON file: " (json_normalize items),
                  f1)
        /\ (forallb is_dict items = true ->
            exists df, load f = (Ok df, f1) /\ rows_of_records items df))
  /\ (forall members,
        j = JObj members ->
        (forall items, lookup "data" members <> Some (JArr items)) ->
        load f = (Ok (DataFrame_records [members]), f1)
        /\ index_len (DataFrame_records [members]) = 1%nat
        /\ map fst (columns (DataFrame_records [members]))
           = union_keys [members])
  /\ (is_list j = false -> is_dict j = false ->
      load f = (Raise (Exception
                  ("Error loading JSON file: "
                   ++ "Unsupported JSON structure. Please provide a JSON array of objects.")%string),
                f1))
  /\ (forall e, fst (load f) = Raise e -> error_kind e = Some ParseError).
Proof.
  intros Hft Hj load.
  assert (Hload : load f = (reraise "Error loading JSON file: "
                              (frame_of_json j), f1)).
  { unfold load, load_file. rewrite Hft. simpl. unfold load_json.
    rewrite Hj. reflexivity. }
  split; [|split; [|split; [|split]]].
  - intros items ->. split.
    + rewrite Hload. reflexivity.
    + intro Hobj. rewrite Hload. cbn [frame_of_json].
      rewrite (json_normalize_objects _ Hobj). cbn [reraise].
      eexists. split; [reflexivity | apply rows_of_records_intro].
  - intros members items -> Hdata. split.
    + rewrite Hload. cbn [frame_of_json]. rewrite Hdata. reflexivity.
    + intro Hobj. rewrite Hload. cbn [frame_of_json].
      rewrite Hdata, (json_normalize_objects _ Hobj). cbn [reraise].
      eexists. split; [reflexivity | apply rows_of_records_intro].
  - intros members -> Hno.
    split; [|split; [reflexivity | apply DataFrame_records_shape]].
    rewrite Hload. cbn [frame_of_json].
    destruct (lookup "data" members) as [[]|] eqn:E; try reflexivity.
    exfalso. eapply Hno. reflexivity.
  - intros Hl Hd. rewrite Hload. destruct j; try discriminate; reflexivity.
  - intros e He. rewrite Hload in He. simpl in He.
    apply reraise_raises in He. destruct He as (e0 & _ & ->).
    apply json_load_kind.
Qed.

(** The document {"data":[{"x":1,"y":2},{"x":2,"y":4}]}: two rows, columns
    x and y. *)
Lemma json_root_shapes_witness :
  exists df,
    load_file read_csv_undecodable (json_load_finds xy_document)
              (mkUploadedFile "xy.json" [] 0)
      = (Ok df, mkUploadedFile "xy.json" [] 0)
    /\ index_len df = 2%nat
    /\ map fst (columns df) = ["x"; "y"].
Proof.
  destruct (json_root_shapes read_csv_undecodable (json_load_finds xy_document)
              (mkUploadedFile "xy.json" [] 0) (mkUploadedFile "xy.json" [] 0)
              xy_document eq_refl eq_refl) as (_ & H & _).
  destruct (H _ _ eq_refl eq_refl) as [_ H'].
  destruct (H' eq_refl) as (df & Hdf & _ & Hlen & Hcols & _).
  exists df. split; [exact Hdf|]. split; [exact Hlen | exact Hcols].
Defined.

(** C4 fails as stated: an array of non-objects is not refused.  The
    document [1, "a"] loads as a frame of two rows without columns. *)
Lemma json_array_of_scalars_loads :
  fst (load_file read_csv_undecodable
         (json_load_finds (JArr [JNum 1; JStr "a"]))
         (mkUploadedFile "rows.json" [] 0))
    = Ok (mkDataFrame 2 [])
  /\ forall e,
       fst (load_file read_csv_undecodable
              (json_load_finds (JArr [JNum 1; JStr "a"]))
              (mkUploadedFile "rows.json" [] 0))
       <> Raise e.
Proof.
  split; [reflexivity | intros e H; discriminate H].
Qed.

(** ** Analyzer *)

(** *** Dicts and loops *)

Lemma lookup_dict_set_same {A : Type} (d : list (string * A)) k v :
  lookup k (dict_set d k v) = Some v.
Proof.
  induction d as [|[k' v'] d IH]; simpl.
  - rewrite String.eqb_refl. reflexivity.
  - destruct (String.eqb k k') eqn:E; simpl.
    + rewrite String.eqb_refl. reflexivity.
    + rewrite E. exact IH.
Qed.

Lemma lookup_dict_set_other {A : Type} (d : list (string * A)) k k' v :
  k <> k' -> lookup k (dict_set d k' v) = lookup k d.
Proof.
  intro Hne. induction d as [|[k0 v0] d IH]; simpl.
  - apply String.eqb_neq in Hne. rewrite Hne. reflexivity.
  - destruct (String.eqb k' k0) eqn:E; simpl.
    + apply String.eqb_eq in E. subst k0.
      apply String.eqb_neq in Hne. rewrite Hne. reflexivity.
    + destruct (String.eqb k k0); [reflexivity | exact IH].
Qed.

Lemma lookup_assign_each {V : Type} (f : string -> option V) cols acc k :
  lookup k (assign_each f cols acc)
  = if existsb (String.eqb k) cols
    then match f k with Some v => Some v | None => lookup k acc end
    else lookup k acc.
Proof.
  unfold assign_each. revert acc.
  induction cols as [|c cols IH]; intro acc; simpl; [reflexivity|].
  rewrite IH. destruct (String.eqb k c) eqn:E; simpl.
  - apply String.eqb_eq in E. subst c.
    destruct (f k) as [v|] eqn:Ef.
    + rewrite lookup_dict_set_same. destruct (existsb _ cols); reflexivity.
    + destruct (existsb _ cols); reflexivity.
  - apply String.eqb_neq in E.
    destruct (f c) as [v|]; [rewrite (lookup_dict_set_other _ _ _ _ E)|];
      reflexivity.
Qed.

Lemma for_each_pure {A S : Type} (items : list A)
    (body : A -> S -> outcome S) (step : S -> A -> S) (s : S) :
  (forall a s', In a items -> body a s' = Ok (step s' a)) ->
  for_each items body s = Ok (fold_left step items s).
Proof.
  revert s. induction items as [|a items IH]; intros s H; simpl.
  - reflexivity.
  - rewrite (H a s (or_introl eq_refl)). simpl.
    apply IH. intros a' s' Hin. apply H. right. exact Hin.
Qed.

Lemma lookup_in_nodup {A : Type} (d : list (string * A)) k v :
  NoDup (map fst d) -> In (k, v) d -> lookup k d = Some v.
Proof.
  induction d as [|[k' v'] d IH]; simpl; intros Hnd Hin; [contradiction|].
  inversion Hnd as [|? ? Hnotin Hnd']; subst.
  destruct Hin as [E | Hin].
  - inversion E; subst. rewrite String.eqb_refl. reflexivity.
  - destruct (String.eqb k k') eqn:E.
    + apply String.eqb_eq in E. subst k'. exfalso. apply Hnotin.
      apply in_map_iff. exists (k, v). split; [reflexivity | exact Hin].
    + apply IH; assumption.
Qed.

Lemma existsb_eqb_in (k : string) (l : list string) :
  existsb (String.eqb k) l = true <-> In k l.
Proof.
  rewrite existsb_exists. split.
  - intros (x & Hx & E). apply String.eqb_eq in E. subst. exact Hx.
  - intro H. exists k. split; [exact H | apply String.eqb_refl].
Qed.

Section AnalyzeFacts.

Variable Describe : Type.
Variable describe : list (string * Series) -> Describe.
Variable skew : Series -> floatR.
Variable kurt : Series -> floatR.
Variable df : DataFrame.

Hypothesis Hwf : well_formed df.

Let numeric_cols := select_number_columns df.
Let numeric_frame := filter (fun c => is_numeric (snd c)) (columns df).
Let cat_cols :=
  filter (fun col => negb (existsb (String.eqb col) numeric_cols))
         (map fst (columns df)).

Lemma getitem_column (col : string) (s : Series) :
  In (col, s) (columns df) -> getitem df col = Ok s.
Proof.
  intro H. unfold getitem.
  rewrite (lookup_in_nodup _ _ _ (proj1 Hwf) H). reflexivity.
Qed.

Lemma numeric_col_inv (col : string) :
  In col numeric_cols ->
  exists dt vs, In (col, NumSeries dt vs) (columns df).
Proof.
  unfold numeric_cols, select_number_columns. intro H.
  apply in_map_iff in H. destruct H as ([k s] & E & Hin). simpl in E. subst k.
  apply filter_In in Hin. destruct Hin as [Hin Hn].
  destruct s; simpl in Hn; try discriminate. eauto.
Qed.

Lemma numeric_col_intro (col : string) dt vs :
  In (col, NumSeries dt vs) (columns df) -> In col numeric_cols.
Proof.
  intro H. unfold numeric_cols, select_number_columns.
  apply in_map_iff. exists (col, NumSeries dt vs). split; [reflexivity|].
  apply filter_In. split; [exact H | reflexivity].
Qed.

Lemma select_columns_sub (l acc : list (string * Series)) :
  incl l (columns df) ->
  for_each (map fst l)
    (fun col acc => s <- getitem df col ;; Ok (acc ++ [(col, s)])) acc
  = Ok (acc ++ l).
Proof.
  revert acc. induction l as [|[k s] l IH]; intros acc Hincl; simpl.
  - rewrite app_nil_r. reflexivity.
  - rewrite (getitem_column k s (Hincl _ (or_introl eq_refl))). simpl.
    rewrite IH.
    + rewrite <- app_assoc. reflexivity.
    + intros x Hx. apply Hincl. right. exact Hx.
Qed.

Lemma select_columns_numeric :
  select_columns df numeric_cols = Ok numeric_frame.
Proof.
  unfold select_columns, numeric_cols, select_number_columns.
  apply (select_columns_sub numeric_frame []).
  intros x Hx. apply filter_In in Hx. apply Hx.
Qed.

Lemma find_outliers_ok :
  find_outliers df numeric_cols
  = Ok (assign_each (outlier_entry df) numeric_cols []).
Proof.
  unfold find_outliers, assign_each. apply for_each_pure.
  intros col d Hin. destruct (numeric_col_inv col Hin) as (dt & vs & Hc).
  rewrite (getitem_column _ _ Hc). unfold outlier_entry.
  rewrite (lookup_in_nodup _ _ _ (proj1 Hwf) Hc). simpl.
  fold (lower_fence vs). fold (upper_fence vs). fold (outliers_in vs).
  destruct (Nat.ltb 0 (outliers_in vs)); reflexivity.
Qed.

Lemma describe_distribution_ok :
  describe_distribution skew kurt df numeric_cols
  = Ok (assign_each (distribution_entry skew kurt df) numeric_cols []).
Proof.
  unfold describe_distribution, assign_each. apply for_each_pure.
  intros col d Hin. destruct (numeric_col_inv col Hin) as (dt & vs & Hc).
  rewrite (getitem_column _ _ Hc). unfold distribution_entry.
  rewrite (lookup_in_nodup _ _ _ (proj1 Hwf) Hc). reflexivity.
Qed.

Lemma summarize_categories_ok :
  summarize_categories df cat_cols
  = Ok (assign_each (category_entry df) cat_cols []).
Proof.
  unfold summarize_categories, assign_each. apply for_each_pure.
  intros col d Hin. unfold cat_cols in Hin. apply filter_In in Hin.
  destruct Hin as [Hin _]. apply in_map_iff in Hin.
  destruct Hin as ([k s] & E & Hc). simpl in E. subst k.
  rewrite (getitem_column _ _ Hc). cbn [bind]. unfold category_entry.
  rewrite (lookup_in_nodup _ _ _ (proj1 Hwf) Hc).
  destruct Hwf as (_ & _ & Hh). rewrite Forall_forall in Hh.
  specialize (Hh _ Hc). simpl in Hh.
  unfold value_counts, nunique, check_hashable. rewrite Hh. reflexivity.
Qed.

Lemma analyze_data_ok :
  analyze_data Describe describe skew kurt df
  = Ok (analysis_of Describe describe skew kurt df).
Proof.
  unfold analyze_data, analysis_of.
  fold numeric_cols. fold cat_cols.
  destruct (nonempty numeric_cols) eqn:En.
  - rewrite select_columns_numeric. cbn [bind].
    rewrite find_outliers_ok. cbn [bind].
    destruct (nonempty cat_cols) eqn:Ec.
    + rewrite summarize_categories_ok. cbn [bind].
      rewrite describe_distribution_ok. cbn [bind fst snd andb].
      reflexivity.
    + cbn [bind]. rewrite describe_distribution_ok. cbn [bind fst snd andb].
      reflexivity.
  - cbn [bind]. destruct (nonempty cat_cols) eqn:Ec.
    + rewrite summarize_categories_ok. reflexivity.
    + reflexivity.
Qed.

End AnalyzeFacts.

(** C5. On a well-formed frame [analyze_data] returns (it does not raise).
    Without numeric columns the keys numeric_summary, correlation,
    potential_outliers and distribution are never assigned; the row count is
    the length of the index, so 0 for a frame without rows. *)
Theorem analyze_never_fails
    (Describe : Type) (describe : list (string * Series) -> Describe)
    (skew kurt : Series -> floatR) (df : DataFrame) :
  well_formed df ->
  exists r,
    analyze_data Describe describe skew kurt df = Ok r
    /\ row_count Describe r = index_len df
    /\ column_count Describe r = List.length (columns df)
    /\ (select_number_columns df = [] ->
        numeric_summary Describe r = None
        /\ correlation Describe r = None
        /\ potential_outliers Describe r = None
        /\ distribution Describe r = None)
    /\ (index_len df = 0%nat -> row_count Describe r = 0%nat).
Proof.
  intro Hwf. eexists. split; [apply analyze_data_ok, Hwf|].
  split; [reflexivity|]. split; [reflexivity|]. split.
  - intro Hn. unfold analysis_of. cbn [numeric_summary correlation
      potential_outliers distribution]. rewrite Hn. simpl. auto.
  - intro H. exact H.
Qed.

Lemma names_df_well_formed : well_formed names_df.
Proof.
  split; [|split].
  - simpl. constructor; [intros [] | constructor].
  - repeat constructor.
  - repeat constructor.
Defined.

Lemma header_only_df_well_formed : well_formed header_only_df.
Proof.
  split; [|split].
  - simpl. constructor.
    + simpl. intros [H | []]. discriminate H.
    + constructor; [intros [] | constructor].
  - repeat constructor.
  - repeat constructor.
Defined.

(** A frame with one text column, and a frame with a header and no rows. *)
Lemma analyze_never_fails_witness :
  (exists r,
     analyze_data unit (fun _ => tt) (fun _ => None) (fun _ => None) names_df
       = Ok r
     /\ numeric_summary unit r = None /\ correlation unit r = None
     /\ potential_outliers unit r = None /\ distribution unit r = None)
  /\ (exists r,
        analyze_data unit (fun _ => tt) (fun _ => None) (fun _ => None)
                     header_only_df = Ok r
        /\ row_count unit r = 0%nat).
Proof.
  split.
  - destruct (analyze_never_fails unit (fun _ => tt) (fun _ => None)
                (fun _ => None) names_df names_df_well_formed)
      as (r & Hr & _ & _ & Hnum & _).
    exists r. split; [exact Hr | exact (Hnum eq_refl)].
  - destruct (analyze_never_fails unit (fun _ => tt) (fun _ => None)
                (fun _ => None) header_only_df header_only_df_well_formed)
      as (r & Hr & _ & _ & _ & Hrows).
    exists r. split; [exact Hr | exact (Hrows eq_refl)].
Defined.

Lemma count_outside_dropna (vs : list (option Q)) (lower upper : floatQ) :
  count_outside vs lower upper
  = List.length (filter (strictly_outside lower upper) (dropna vs)).
Proof.
  unfold count_outside. induction vs as [|[v|] vs IH]; cbn [filter dropna].
  - reflexivity.
  - unfold strictly_outside at 1.
    destruct (float_lt (Some v) lower || float_lt upper (Some v));
      cbn [List.length]; rewrite IH; reflexivity.
  - replace (float_lt upper None) with false by (destruct upper; reflexivity).
    exact IH.
Qed.

Lemma strictly_outside_iff (l h v : Q) :
  strictly_outside (Some l) (Some h) v = true <-> (v < l \/ h < v)%Q.
Proof.
  unfold strictly_outside, float_lt. rewrite orb_true_iff, !Qlt_bool_iff.
  reflexivity.
Qed.

Lemma Qeq_bool_false_iff (a b : Q) : Qeq_bool a b = false <-> ~ (a == b)%Q.
Proof.
  rewrite <- Qeq_bool_iff. destruct (Qeq_bool a b); split; congruence.
Qed.

(** With equal quartiles both fences sit on them: outside means different. *)
Lemma strictly_outside_degenerate (a b v : Q) :
  (b - a == 0)%Q ->
  strictly_outside (Some (a - (3 # 2) * (b - a))%Q)
                   (Some (b + (3 # 2) * (b - a))%Q) v
  = negb (Qeq_bool v a).
Proof.
  intro H. destruct (Qeq_bool v a) eqn:E; simpl.
  - apply Qeq_bool_iff in E. apply not_true_is_false. intro Ho.
    apply strictly_outside_iff in Ho. destruct Ho; lra.
  - apply Qeq_bool_false_iff in E. apply strictly_outside_iff.
    destruct (Qlt_le_dec v a) as [Hlt | Hle]; [left; lra | right].
    destruct (Qlt_le_dec a v) as [Hlt' | Hle']; [lra|].
    exfalso. apply E. lra.
Qed.


(** *** Ranks and quartiles *)
















Lemma quantile_values_none (vs : list (option Q)) (p : Q) :
  dropna vs = [] -> quantile_values vs p = None.
Proof. intro E. unfold quantile_values. rewrite E. reflexivity. Qed.







(** *** Rounding *)

Lemma rint_close (x : R) : (Rabs (IZR (rint x) - x) <= 1 / 2)%R.
Proof.
  unfold rint.
  destruct (base_Int_part x) as [Hlo Hhi].
  set (n := Int_part x) in *.
  destruct (Rlt_dec (x - IZR n) (1 / 2)) as [H1 | H1].
  - apply Rabs_le. lra.
  - destruct (Rlt_dec (1 / 2) (x - IZR n)) as [H2 | H2].
    + rewrite plus_IZR. apply Rabs_le. lra.
    + destruct (Z.even n); [|rewrite plus_IZR]; apply Rabs_le; lra.
Qed.

(** [round2] yields a multiple of 1/100 at most 1/200 away. *)
Lemma round2_close (r : R) :
  exists z : Z,
    round2 (Some r) = Some (IZR z / 100)%R
    /\ (Rabs (IZR z / 100 - r) <= 1 / 200)%R.
Proof.
  exists (rint (r * 100)). split; [reflexivity|].
  pose proof (rint_close (r * 100)) as H.
  replace (IZR (rint (r * 100)) / 100 - r)%R
    with ((IZR (rint (r * 100)) - r * 100) / 100)%R by field.
  unfold Rdiv at 1. rewrite Rabs_mult.
  rewrite (Rabs_pos_eq (/ 100)%R) by lra. lra.
Qed.

Lemma abs_lt_iff (x : floatR) (bound : R) :
  abs_lt x bound = true <-> exists r, x = Some r /\ (Rabs r < bound)%R.
Proof.
  unfold abs_lt. destruct x as [r|].
  - destruct (Rlt_dec (Rabs r) bound) as [H | H]; split.
    + intros _. exists r. split; [reflexivity | exact H].
    + reflexivity.
    + discriminate.
    + intros (r' & E & Hr). inversion E; subst. contradiction.
  - split; [discriminate | intros (r & E & _); discriminate].
Qed.

(** C8. For a numeric column of a well-formed frame the distribution entry
    holds the skewness and the kurtosis rounded to 2 decimals (a multiple of
    0.01 within 0.005 of the statistic), and is_normal is true exactly when
    the absolute skewness and the absolute kurtosis, as computed, are both
    below 0.5. *)
Theorem distribution_entries
    (Describe : Type) (describe : list (string * Series) -> Describe)
    (skew kurt : Series -> floatR) (df : DataFrame)
    (col : string) (s : Series) :
  well_formed df ->
  In (col, s) (columns df) ->
  is_numeric s = true ->
  exists r d e,
    analyze_data Describe describe skew kurt df = Ok r
    /\ distribution Describe r = Some d
    /\ lookup col d = Some e
    /\ skewness e = round2 (skew s)
    /\ kurtosis e = round2 (kurt s)
    /\ (forall sk, skew s = Some sk ->
          exists z, skewness e = Some (IZR z / 100)%R
                    /\ (Rabs (IZR z / 100 - sk) <= 1 / 200)%R)
    /\ (forall ku, kurt s = Some ku ->
          exists z, kurtosis e = Some (IZR z / 100)%R
                    /\ (Rabs (IZR z / 100 - ku) <= 1 / 200)%R)
    /\ (is_normal e = true <->
        exists sk ku, skew s = Some sk /\ kurt s = Some ku
                      /\ (Rabs sk < 1 / 2)%R /\ (Rabs ku < 1 / 2)%R).
Proof.
  intros Hwf Hin Hnum.
  assert (Hcol : In col (select_number_columns df)).
  { destruct s; try discriminate. eapply numeric_col_intro; eassumption. }
  assert (Hne : nonempty (select_number_columns df) = true).
  { destruct (select_number_columns df); [contradiction | reflexivity]. }
  eexists. eexists. eexists.
  split; [apply analyze_data_ok, Hwf|].
  split.
  { unfold analysis_of. cbn [distribution]. rewrite Hne. reflexivity. }
  split.
  { rewrite lookup_assign_each. apply existsb_eqb_in in Hcol. rewrite Hcol.
    unfold distribution_entry.
    rewrite (lookup_in_nodup _ _ _ (proj1 Hwf) Hin). reflexivity. }
  cbn [skewness kurtosis is_normal].
  split; [reflexivity|]. split; [reflexivity|].
  split; [|split].
  - intros sk ->. apply round2_close.
  - intros ku ->. apply round2_close.
  - rewrite andb_true_iff, !abs_lt_iff. split.
    + intros [(sk & Hs & Hsk) (ku & Hk & Hku)]. exists sk, ku. auto.
    + intros (sk & ku & Hs & Hk & Hsk & Hku). split; eauto.
Qed.

(** *** Pearson's coefficient *)












(** *** Entries of the matrix *)





(** *** The coefficient of the model and the coefficient of the definition *)














Lemma xy_df_well_formed : well_formed xy_df.
Proof.
  split; [|split].
  - simpl. constructor.
    + simpl. intros [H | []]. discriminate H.
    + constructor; [intros [] | constructor].
  - repeat constructor.
  - repeat constructor.
Defined.









Lemma spread_df_well_formed : well_formed spread_df.
Proof.
  split; [|split].
  - simpl. constructor; [intros [] | constructor].
  - repeat constructor.
  - repeat constructor.
Defined.





Lemma sales_df_well_formed : well_formed sales_df.
Proof.
  split; [|split].
  - simpl. constructor.
    + simpl. intros [H | []]. discriminate H.
    + constructor; [intros [] | constructor].
  - repeat constructor.
  - repeat constructor.
Defined.

(** The column sales with a skewness of 0.25 and a kurtosis of -0.3 as
    computed: the entry is there and is_normal is true. *)
Lemma distribution_entries_witness :
  exists r d e,
    analyze_data unit (fun _ => tt) (fun _ => Some (1 / 4)%R)
                 (fun _ => Some (- (3 / 10))%R) sales_df = Ok r
    /\ distribution unit r = Some d
    /\ lookup "sales" d = Some e
    /\ is_normal e = true.
Proof.
  destruct (distribution_entries unit (fun _ => tt) (fun _ => Some (1 / 4)%R)
              (fun _ => Some (- (3 / 10))%R) sales_df "sales"
              (NumSeries int64 [Some 10%Q; Some 20%Q; Some 5%Q])
              sales_df_well_formed (or_intror (or_introl eq_refl)) eq_refl)
    as (r & d & e & Hr & Hd & He & _ & _ & _ & _ & Hn).
  exists r, d, e. split; [exact Hr|]. split; [exact Hd|]. split; [exact He|].
  apply Hn. exists (1 / 4)%R, (- (3 / 10))%R.
  split; [reflexivity|]. split; [reflexivity|].
  split; apply Rabs_def1; lra.
Defined.

(** * More properties of the code *)

Import Notions.

(** ** Chart generator: chart types, columns, layout *)

Lemma eqb_of_not_in (s : string) (l : list string) (t : string) :
  ~ In s l -> In t l -> String.eqb s t = false.
Proof.
  intros Hn Ht. apply String.eqb_neq. intros ->. contradiction.
Qed.

Lemma create_figure_unsupported df chart_type x y title use_color height :
  ~ In chart_type supported_chart_types ->
  create_figure df chart_type x y title use_color height
  = Raise (ValueError ("Unsupported chart type: " ++ chart_type)%string).
Proof.
  intro Hn. unfold create_figure.
  rewrite !(eqb_of_not_in _ _ _ Hn) by (simpl; tauto).
  reflexivity.
Qed.

Lemma create_figure_supported df chart_type x y title use_color height msg :
  In chart_type supported_chart_types ->
  create_figure df chart_type x y title use_color height
  <> Raise (ValueError ("Unsupported chart type: " ++ msg)%string).
Proof.
  intro Hin. unfold supported_chart_types in Hin. simpl in Hin.
  unfold create_figure, px_xy, px_hist, px_color, px_column, groupby_sum,
    getitem, check_hashable, summands, px_pie_fig, px_figure, px_height.
  repeat (destruct Hin as [<- | Hin]; [| ]); try contradiction;
    cbn [String.eqb Ascii.eqb Bool.eqb];
    repeat match goal with
           | |- context [lookup ?k ?d] => destruct (lookup k d); cbn [bind]
           | |- context [if ?b then _ else _] => destruct b; cbn [bind]
           | |- context [match ?s with
                         | NumSeries _ _ => _
                         | BoolSeries _ => _
                         | ObjSeries _ => _
                         end] => destruct s; cbn [bind]
           end;
    intro H; cbn [append] in H; discriminate H.
Qed.

Lemma generate_chart_supported
    df chart_type x y title use_color height show_grid msg :
  In chart_type supported_chart_types ->
  generate_chart df chart_type x y title use_color height show_grid
  <> Raise (ValueError ("Unsupported chart type: " ++ msg)%string).
Proof.
  intro Hin. unfold supported_chart_types in Hin. simpl in Hin.
  unfold generate_chart, limit_segments, create_figure, px_xy, px_hist,
    px_color, px_column, groupby_sum, nunique, getitem, check_hashable,
    summands, is_pie_or_donut, px_pie_fig, px_figure, px_height.
  repeat (destruct Hin as [<- | Hin]; [| ]); try contradiction;
    cbn [String.eqb Ascii.eqb Bool.eqb orb];
    repeat match goal with
           | |- context [lookup ?k ?d] => destruct (lookup k d); cbn [bind]
           | |- context [match ?s with
                         | NumSeries _ _ => _
                         | BoolSeries _ => _
                         | ObjSeries _ => _
                         end] => destruct s; cbn [bind]
           | |- context [if ?b then _ else _] => destruct b; cbn [bind]
           end;
    intro H; cbn [append] in H; discriminate H.
Qed.

(** X1. [generate_chart] raises the unsupported-type error exactly for the
    chart types outside its nine branches, whatever the frame and the
    columns. *)
Theorem unsupported_chart_type_iff
    (df : DataFrame) (chart_type x_column y_column : string)
    (title : option string) (use_color : bool) (height : Z)
    (show_grid : bool) :
  generate_chart df chart_type x_column y_column title use_color height
                 show_grid
    = Raise (ValueError ("Unsupported chart type: " ++ chart_type)%string)
  <-> ~ In chart_type supported_chart_types.
Proof.
  split.
  - intros H Hin. exact (generate_chart_supported _ _ _ _ _ _ _ _ _ Hin H).
  - intro Hn. unfold generate_chart.
    rewrite (create_figure_unsupported _ _ _ _ _ _ _ Hn). reflexivity.
Qed.

(** X2. Every chart type offered by [available_chart_types] builds, at a
    height plotly accepts (10 or more), on a frame that has the two columns
    (different, x hashable, y numeric or boolean); only the pie aggregates:
    every other type draws the rows of the frame as they are (the x values
    alone for a histogram). *)
Theorem advertised_types_build
    (df : DataFrame) (chart_type x_column y_column : string)
    (title : option string) (use_color : bool) (height : Z)
    (show_grid : bool) (xs ys : Series) (vs : list (option Q)) :
  In chart_type available_chart_types ->
  lookup x_column (columns df) = Some xs ->
  forallb hashable (cells xs) = true ->
  lookup y_column (columns df) = Some ys ->
  summands ys = Ok vs ->
  x_column <> y_column ->
  (10 <= height)%Z ->
  exists fig,
    generate_chart df chart_type x_column y_column title use_color height
                   show_grid = Ok fig
    /\ (chart_type <> "pie" ->
        fig_data fig
        = if String.eqb chart_type "histogram" then FrameX (cells xs)
          else FrameXY (cells xs) (cells ys)).
Proof.
  intros Hin Hx Hhash Hy Hnum Hxy Hheight.
  unfold available_chart_types in Hin. simpl in Hin.
  destruct Hin as [<- | [<- | [<- | [<- | [<- | [<- | [<- | [<- | []]]]]]]]];
    try (unfold generate_chart, create_figure, px_xy, px_hist, px_color,
           px_column, nunique, getitem, check_hashable, is_pie_or_donut;
         cbn [String.eqb Ascii.eqb Bool.eqb orb];
         destruct use_color; rewrite ?Hx, ?Hy; cbn [bind];
         rewrite (px_figure_ok _ _ _ _ _ _ _ _ Hheight); cbn [bind];
         rewrite ?Hx, ?Hy, ?Hhash; cbn [bind];
         try destruct (Nat.ltb 10 (List.length (unique (cells xs))));
         eexists; (split; [reflexivity | intros _; reflexivity])).
  rewrite (generate_chart_pie df "pie" x_column y_column title use_color
             height show_grid xs ys vs eq_refl Hx Hhash Hy Hnum Hxy Hheight).
  eexists. split; [reflexivity | intro H; contradiction H; reflexivity].
Qed.

(** Each of the eight advertised types builds on the sales frame. *)
Lemma advertised_types_build_witness :
  Forall (fun chart_type =>
            exists fig,
              generate_chart sales_df chart_type "name" "sales" None true
                             400 true = Ok fig)
         available_chart_types.
Proof.
  apply Forall_forall. intros chart_type Hin.
  destruct (advertised_types_build sales_df chart_type "name" "sales" None
              true 400 true
              (ObjSeries [CStr "A"; CStr "B"; CStr "A"])
              (NumSeries int64 [Some 10%Q; Some 20%Q; Some 5%Q])
              [Some 10%Q; Some 20%Q; Some 5%Q]
              Hin eq_refl eq_refl eq_refl eq_refl)
    as (fig & Hfig & _).
  - discriminate.
  - lia.
  - exists fig. exact Hfig.
Defined.

(** A figure as a plotly express constructor leaves it. *)
Lemma px_figure_shape kind data title height color markers hole box fig :
  px_figure kind data title height color markers hole box = Ok fig ->
  fig = new_figure kind data title (fig_height fig) color markers hole box
  /\ px_height height = Ok (fig_height fig).
Proof.
  intro H. apply px_figure_inv in H. destruct H as (h & Hh & ->).
  split; [reflexivity | exact Hh].
Qed.

Lemma px_xy_shape kind df x y title height color markers box fig :
  px_xy kind df x y title height color markers box = Ok fig ->
  fig = new_figure kind (fig_data fig) title (fig_height fig) color markers
          None box
  /\ px_height height = Ok (fig_height fig).
Proof.
  unfold px_xy, px_color, px_column.
  destruct (lookup x (columns df)); [|discriminate].
  destruct (lookup y (columns df)); [|discriminate].
  cbn [bind].
  destruct color as [c|]; [destruct (lookup c (columns df))|];
    cbn [bind]; intro H; try discriminate H;
    apply px_figure_inv in H; destruct H as (h & Hh & ->);
    (split; [reflexivity | exact Hh]).
Qed.

Lemma px_hist_shape df x title height color fig :
  px_hist df x title height color = Ok fig ->
  fig = new_figure px_histogram (fig_data fig) title (fig_height fig) color
          false None false
  /\ px_height height = Ok (fig_height fig).
Proof.
  unfold px_hist, px_color, px_column.
  destruct (lookup x (columns df)); [|discriminate].
  cbn [bind].
  destruct color as [c|]; [destruct (lookup c (columns df))|];
    cbn [bind]; intro H; try discriminate H;
    apply px_figure_inv in H; destruct H as (h & Hh & ->);
    (split; [reflexivity | exact Hh]).
Qed.

Lemma create_figure_shape df chart_type x y title use_color height fig :
  create_figure df chart_type x y title use_color height = Ok fig ->
  fig = new_figure (fig_kind fig) (fig_data fig) title (fig_height fig)
          (fig_color fig) (fig_markers fig) (fig_hole fig) (fig_box fig)
  /\ px_height height = Ok (fig_height fig).
Proof.
  unfold create_figure.
  repeat match goal with
         | |- context [if String.eqb chart_type ?s then _ else _] =>
             destruct (String.eqb chart_type s)
         end;
    try (intro H; first [apply px_xy_shape in H | apply px_hist_shape in H];
         destruct H as [H Hh]; split; [rewrite H; reflexivity | exact Hh]);
    try discriminate;
    destruct (groupby_sum df x y); cbn [bind]; intro H; try discriminate H;
    apply px_figure_inv in H; destruct H as (h & Hh & ->);
    (split; [reflexivity | exact Hh]).
Qed.

(** The three ways [generate_chart] returns a figure: the laid-out figure;
    the same with tilted labels, for a bar chart over more than 10
    categories; or the figure rebuilt for a pie or donut over more than 10
    categories with a positive remainder. *)
Lemma generate_chart_inv
    (df : DataFrame) (chart_type x_column y_column : string)
    (title : option string) (use_color : bool) (height : Z)
    (show_grid : bool) (fig : Figure) :
  generate_chart df chart_type x_column y_column title use_color height
                 show_grid = Ok fig ->
  exists fig0,
    create_figure df chart_type x_column y_column
                  (default_title title x_column y_column) use_color height
      = Ok fig0
    /\ let laid :=
         update_layout fig0 x_column
           (if is_pie_or_donut chart_type then None else Some y_column)
           (template_of show_grid) in
       (fig = laid
        /\ (chart_type = "bar" ->
            exists xs, lookup x_column (columns df) = Some xs
                       /\ (List.length (unique (cells xs)) <= 10)%nat))
       \/ (chart_type = "bar" /\ fig = set_tickangle laid (-45)
           /\ exists xs, lookup x_column (columns df) = Some xs
                         /\ (10 < List.length (unique (cells xs)))%nat)
       \/ (is_pie_or_donut chart_type = true
           /\ exists pie_data,
                groupby_sum df x_column y_column = Ok pie_data
                /\ (0 < other_value pie_data)%Q
                /\ exists h,
                     px_height height = Ok h
                     /\ fig = collapsed_pie_at pie_data chart_type
                                (default_title title x_column y_column) h).
Proof.
  unfold generate_chart.
  fold (default_title title x_column y_column). fold (template_of show_grid).
  cbv zeta.
  destruct (create_figure df chart_type x_column y_column
              (default_title title x_column y_column) use_color height)
    as [fig0 | e | w] eqn:Ecf; cbn [bind]; try discriminate.
  intro H. exists fig0. split; [reflexivity|].
  destruct (String.eqb chart_type "bar") eqn:Ebar; cbn [orb] in H.
  - apply String.eqb_eq in Ebar.
    unfold getitem in H.
    destruct (lookup x_column (columns df)) as [xs|] eqn:Ex;
      cbn [bind] in H; [|discriminate].
    unfold nunique, check_hashable in H.
    destruct (forallb hashable (cells xs)); cbn [bind] in H; [|discriminate].
    destruct (Nat.ltb 10 (List.length (unique (cells xs)))) eqn:El;
      injection H as <-.
    + right. left. apply Nat.ltb_lt in El. eauto.
    + left. apply Nat.ltb_ge in El. eauto.
  - assert (Hnb : chart_type = "bar" -> False).
    { intros ->. discriminate. }
    destruct (is_pie_or_donut chart_type) eqn:Ep.
    + unfold getitem in H.
      destruct (lookup x_column (columns df)) as [xs|];
        cbn [bind] in H; [|discriminate].
      destruct (nunique xs) as [n | |]; cbn [bind] in H; try discriminate.
      destruct (Nat.ltb 10 n).
      * unfold limit_segments in H.
        destruct (groupby_sum df x_column y_column) as [pie_data | |];
          cbn [bind] in H; try discriminate.
        fold (other_value pie_data) in H.
        destruct (Qlt_bool 0 (other_value pie_data)) eqn:Eo.
        -- right. right. split; [reflexivity|]. exists pie_data.
           split; [reflexivity|]. split; [apply Qlt_bool_iff, Eo|].
           apply px_figure_inv in H. exact H.
        -- injection H as <-.
           left. split; [reflexivity | intro; contradiction].
      * injection H as <-. left. split; [reflexivity | intro; contradiction].
    + injection H as <-. left. split; [reflexivity | intro; contradiction].
Qed.

(** X3. The labels of the x axis are tilted (by -45 degrees) exactly for a
    bar chart whose x column has more than 10 distinct values; no other
    figure has a tick angle. *)
Theorem tilted_labels_iff
    (df : DataFrame) (chart_type x_column y_column : string)
    (title : option string) (use_color : bool) (height : Z)
    (show_grid : bool) (fig : Figure) :
  generate_chart df chart_type x_column y_column title use_color height
                 show_grid = Ok fig ->
  (layout_xaxis_tickangle fig = Some (-45)%Z
   <-> chart_type = "bar"
       /\ exists xs, lookup x_column (columns df) = Some xs
                     /\ (10 < List.length (unique (cells xs)))%nat)
  /\ (layout_xaxis_tickangle fig = Some (-45)%Z
      \/ layout_xaxis_tickangle fig = None).
Proof.
  intro H. destruct (generate_chart_inv _ _ _ _ _ _ _ _ _ H)
    as (fig0 & Hcf & Hcases).
  destruct (create_figure_shape _ _ _ _ _ _ _ _ Hcf) as [Hs _].
  cbv zeta in Hcases.
  destruct Hcases as [[-> Hbar] | [(-> & -> & xs & Hx & Hgt)
                                  | (Hp & pd & _ & _ & h & _ & ->)]].
  - rewrite Hs. cbn. split; [|right; reflexivity]. split; [discriminate|].
    intros (Hct & xs & Hx & Hgt).
    destruct (Hbar Hct) as (xs' & Hx' & Hle).
    rewrite Hx in Hx'. injection Hx' as <-. lia.
  - cbn. split; [|left; reflexivity]. split; [|reflexivity].
    intros _. split; [reflexivity|]. eauto.
  - cbn. split; [|right; reflexivity]. split; [discriminate|].
    intros (-> & _). discriminate Hp.
Qed.

(** A bar chart over the eleven categories is tilted. *)
Lemma tilted_labels_iff_witness :
  exists fig,
    generate_chart (eleven_df 2 1) "bar" "k" "v" None true 400 true = Ok fig
    /\ layout_xaxis_tickangle fig = Some (-45)%Z.
Proof.
  eexists. split; [vm_compute; reflexivity|].
  apply (tilted_labels_iff (eleven_df 2 1) "bar" "k" "v" None true 400 true
           _ eq_refl).
  split; [reflexivity|]. exists eleven_keys. split; [reflexivity|].
  vm_compute. lia.
Defined.

(** X4. Whatever path is taken, the figure returned carries the title
    asked for (or "y by x" when none is given), and the height asked for
    when that is 10 or more.  A height of 0 is left out of the figure, and
    no figure is returned for any other height: plotly refuses it. *)
Theorem title_and_height_kept
    (df : DataFrame) (chart_type x_column y_column : string)
    (title : option string) (use_color : bool) (height : Z)
    (show_grid : bool) (fig : Figure) :
  generate_chart df chart_type x_column y_column title use_color height
                 show_grid = Ok fig ->
  fig_title fig = default_title title x_column y_column
  /\ ((10 <= height)%Z /\ fig_height fig = Some height
      \/ height = 0%Z /\ fig_height fig = None).
Proof.
  intro H. destruct (generate_chart_inv _ _ _ _ _ _ _ _ _ H)
    as (fig0 & Hcf & Hcases).
  destruct (create_figure_shape _ _ _ _ _ _ _ _ Hcf) as [Hs Hh].
  cbv zeta in Hcases.
  assert (Hheight : forall h, px_height height = Ok h ->
            (10 <= height)%Z /\ h = Some height \/ height = 0%Z /\ h = None).
  { intros h Hph. destruct (px_height_inv _ _ Hph) as [[-> ->] | [Hge ->]];
      [right | left]; auto. }
  destruct Hcases as [[-> _] | [(_ & -> & _) | (_ & pd & _ & _ & h & Hph & ->)]].
  - rewrite Hs. cbn. split; [reflexivity | exact (Hheight _ Hh)].
  - rewrite Hs. cbn. split; [reflexivity | exact (Hheight _ Hh)].
  - cbn. split; [reflexivity | exact (Hheight _ Hph)].
Qed.

(** A donut at height 400, rebuilt for its eleven categories; at height 5
    the same request raises. *)
Lemma title_and_height_kept_witness :
  (exists fig,
     generate_chart (eleven_df 2 1) "donut" "k" "v" None true 400 false
       = Ok fig
     /\ fig_title fig = "v by k" /\ fig_height fig = Some 400%Z)
  /\ exists e,
       generate_chart (eleven_df 2 1) "donut" "k" "v" None true 5 false
       = Raise e.
Proof.
  split.
  - eexists. split; [vm_compute; reflexivity|].
    destruct (title_and_height_kept (eleven_df 2 1) "donut" "k" "v" None
                true 400 false _ eq_refl) as [Ht [[_ Hh] | [E _]]].
    + split; [exact Ht | exact Hh].
    + discriminate E.
  - eexists. vm_compute. reflexivity.
Defined.

(** X5. A figure is colour-encoded only when [use_color] is set, and then
    only for bar, scatter and box (by the x column) and histogram (by the y
    column); line, area, violin, pie and donut figures never are. *)
Theorem colour_encoding
    (df : DataFrame) (chart_type x_column y_column : string)
    (title : option string) (use_color : bool) (height : Z)
    (show_grid : bool) (fig : Figure) :
  generate_chart df chart_type x_column y_column title use_color height
                 show_grid = Ok fig ->
  fig_color fig = color_column chart_type x_column y_column use_color.
Proof.
  intro H. destruct (generate_chart_inv _ _ _ _ _ _ _ _ _ H)
    as (fig0 & Hcf & Hcases).
  assert (Hc : fig_color fig0
               = color_column chart_type x_column y_column use_color).
  { clear Hcases H. revert Hcf. unfold create_figure, color_column.
    repeat match goal with
           | |- context [String.eqb chart_type ?s] =>
               let E := fresh "E" in
               destruct (String.eqb chart_type s) eqn:E;
               [ apply String.eqb_eq in E; subst chart_type;
                 cbn [String.eqb Ascii.eqb Bool.eqb orb] | ]
           end; cbn [orb];
      try (intro H; first [apply px_xy_shape in H | apply px_hist_shape in H];
           destruct H as [H _]; rewrite H; destruct use_color; reflexivity);
      try discriminate;
      destruct (groupby_sum df x_column y_column); cbn [bind]; intro H;
      try discriminate H;
      apply px_figure_inv in H; destruct H as (h & _ & ->);
      destruct use_color; reflexivity. }
  cbv zeta in Hcases.
  destruct Hcases as [[-> _] | [(_ & -> & _) | (Hp & pd & _ & _ & h & _ & ->)]];
    try exact Hc.
  cbn. unfold color_column.
  destruct (is_pie_or_donut_inv _ Hp) as [-> | ->]; destruct use_color;
    reflexivity.
Qed.

Lemma colour_encoding_witness :
  exists fig,
    generate_chart sales_df "histogram" "name" "sales" None true 400 true
      = Ok fig
    /\ fig_color fig = Some "sales".
Proof.
  eexists. split; [vm_compute; reflexivity|].
  apply (colour_encoding sales_df "histogram" "name" "sales" None true 400
           true _ eq_refl).
Defined.

(** X6. A donut request does what the pie request does and sets the hole to
    0.4: same outcome, same slices, same layout. *)
Theorem donut_is_pie_with_hole
    (df : DataFrame) (x_column y_column : string) (title : option string)
    (use_color : bool) (height : Z) (show_grid : bool) :
  generate_chart df "donut" x_column y_column title use_color height show_grid
  = match generate_chart df "pie" x_column y_column title use_color height
                         show_grid with
    | Ok fig => Ok (set_hole fig (Some (2 # 5)%Q))
    | Raise e => Raise e
    | Unmodelled w => Unmodelled w
    end.
Proof.
  unfold generate_chart, create_figure, limit_segments, px_pie_fig,
    px_figure.
  cbn [String.eqb Ascii.eqb Bool.eqb orb is_pie_or_donut].
  destruct (groupby_sum df x_column y_column) as [pie_data | e | w];
    cbn [bind]; try reflexivity.
  destruct (px_height height) as [h | e | w]; cbn [bind]; try reflexivity.
  destruct (getitem df x_column) as [xs | e | w]; cbn [bind];
    try reflexivity.
  destruct (nunique xs) as [n | e | w]; cbn [bind]; try reflexivity.
  destruct (Nat.ltb 10 n); [|reflexivity].
  destruct (Qlt_bool 0 (sumQ (map snd (skipn top_n (sort_values_desc pie_data)))));
    reflexivity.
Qed.

(** X7. If the x column is not in the frame, [generate_chart] raises for
    every chart type: no figure is ever built without it. *)
Theorem missing_x_column_raises
    (df : DataFrame) (chart_type x_column y_column : string)
    (title : option string) (use_color : bool) (height : Z)
    (show_grid : bool) :
  lookup x_column (columns df) = None ->
  exists e,
    generate_chart df chart_type x_column y_column title use_color height
                   show_grid = Raise e.
Proof.
  intro Hx.
  unfold generate_chart, create_figure, px_xy, px_hist, px_column,
    groupby_sum, getitem.
  rewrite Hx. cbn [bind].
  repeat match goal with
         | |- context [if String.eqb chart_type ?s then _ else _] =>
             destruct (String.eqb chart_type s)
         end; cbn [bind]; eexists; reflexivity.
Qed.

Lemma missing_x_column_raises_witness :
  exists e,
    generate_chart sales_df "pie" "region" "sales" None true 400 true
    = Raise e.
Proof.
  apply (missing_x_column_raises sales_df "pie" "region" "sales" None true
           400 true eq_refl).
Defined.

(** X8. If the y column is not in the frame, every supported chart type
    raises, except the histogram without colour, which does not read the y
    column: at a height of 10 or more it builds whenever the x column is
    there, and still labels the y axis with the name given. *)
Theorem missing_y_column
    (df : DataFrame) (chart_type x_column y_column : string)
    (title : option string) (use_color : bool) (height : Z)
    (show_grid : bool) :
  In chart_type supported_chart_types ->
  lookup y_column (columns df) = None ->
  (chart_type = "histogram" -> use_color = false -> (10 <= height)%Z ->
   forall xs, lookup x_column (columns df) = Some xs ->
     exists fig,
       generate_chart df chart_type x_column y_column title use_color height
                      show_grid = Ok fig
       /\ fig_data fig = FrameX (cells xs)
       /\ layout_yaxis_title fig = Some y_column)
  /\ (chart_type <> "histogram" \/ use_color = true ->
      exists e,
        generate_chart df chart_type x_column y_column title use_color height
                       show_grid = Raise e).
Proof.
  intros Hin Hy. split.
  - intros -> -> Hheight xs Hx.
    unfold generate_chart, create_figure, px_hist, px_column, px_color.
    cbn [String.eqb Ascii.eqb Bool.eqb orb is_pie_or_donut].
    rewrite Hx. cbn [bind].
    rewrite (px_figure_ok _ _ _ _ _ _ _ _ Hheight). cbn [bind].
    eexists. split; [reflexivity|]. split; reflexivity.
  - intro Hc. unfold supported_chart_types in Hin. simpl in Hin.
    unfold generate_chart, create_figure, px_xy, px_hist, px_color,
      px_column, groupby_sum, getitem, check_hashable.
    repeat (destruct Hin as [<- | Hin]; [| ]); try contradiction;
      cbn [String.eqb Ascii.eqb Bool.eqb orb];
      try (destruct Hc as [Hc | ->]; [contradiction Hc; reflexivity|]);
      rewrite ?Hy;
      repeat match goal with
             | |- context [lookup ?k ?d] => destruct (lookup k d); cbn [bind]
             | |- context [if ?b then _ else _] => destruct b; cbn [bind]
             end;
      eexists; reflexivity.
Qed.

Lemma missing_y_column_witness :
  (exists fig,
     generate_chart sales_df "histogram" "name" "profit" None false 400 true
       = Ok fig
     /\ layout_yaxis_title fig = Some "profit")
  /\ exists e,
       generate_chart sales_df "bar" "name" "profit" None false 400 true
       = Raise e.
Proof.
  destruct (missing_y_column sales_df "histogram" "name" "profit" None false
              400 true) as [Hh _].
  { simpl. tauto. }
  { reflexivity. }
  destruct (missing_y_column sales_df "bar" "name" "profit" None false
              400 true) as [_ Hb].
  { simpl. tauto. }
  { reflexivity. }
  split.
  - assert (H10 : (10 <= 400)%Z) by lia.
    destruct (Hh eq_refl eq_refl H10 _ eq_refl) as (fig & Hf & _ & Hl).
    exists fig. split; assumption.
  - apply Hb. left. discriminate.
Defined.

(** *** Sums of rationals *)

Lemma fold_left_Qplus_acc (l : list Q) (a : Q) :
  (fold_left Qplus l a == a + fold_left Qplus l 0)%Q.
Proof.
  revert a. induction l as [|x l IH]; intro a; simpl.
  - ring.
  - rewrite (IH (a + x)%Q), (IH (0 + x)%Q). ring.
Qed.

Lemma sumQ_cons (x : Q) (l : list Q) : (sumQ (x :: l) == x + sumQ l)%Q.
Proof.
  unfold sumQ. simpl. rewrite fold_left_Qplus_acc. ring.
Qed.

Lemma sumQ_app (l1 l2 : list Q) : (sumQ (l1 ++ l2) == sumQ l1 + sumQ l2)%Q.
Proof.
  induction l1 as [|x l1 IH]; simpl.
  - unfold sumQ at 2. simpl. ring.
  - rewrite !sumQ_cons, IH. ring.
Qed.

Lemma sumQ_perm (l1 l2 : list Q) :
  Permutation l1 l2 -> (sumQ l1 == sumQ l2)%Q.
Proof.
  induction 1 as [| x l1 l2 _ IH | x y l | l1 l2 l3 _ IH1 _ IH2].
  - reflexivity.
  - rewrite !sumQ_cons, IH. reflexivity.
  - rewrite !sumQ_cons. ring.
  - rewrite IH1. exact IH2.
Qed.

(** *** Keys *)

Lemma key_eqb_trans (a b c : key) :
  key_eqb a b = true -> key_eqb a c = true -> key_eqb b c = true.
Proof.
  destruct a as [p|s], b as [q|t], c as [r|u]; simpl; try discriminate.
  - intros H1 H2. apply Qeq_bool_iff in H1. apply Qeq_bool_iff in H2.
    apply Qeq_bool_iff. rewrite <- H1, <- H2. reflexivity.
  - intros H1 H2. apply String.eqb_eq in H1. apply String.eqb_eq in H2.
    subst. apply String.eqb_refl.
Qed.

Lemma cell_eqb_trans (a b c : cell) :
  cell_eqb a b = true -> cell_eqb a c = true -> cell_eqb b c = true.
Proof.
  unfold cell_eqb.
  destruct (cell_key a), (cell_key b), (cell_key c); try discriminate.
  apply key_eqb_trans.
Qed.

Lemma cell_eqb_null (x k : cell) : is_null x = true -> cell_eqb x k = false.
Proof. destruct x; try discriminate. reflexivity. Qed.

(** *** The groups partition the rows that have an x value *)

Lemma sumQ_dropna_cons (v : option Q) (l : list (option Q)) :
  (sumQ (dropna (v :: l)) == nan_to_zero v + sumQ (dropna l))%Q.
Proof.
  destruct v as [q|]; simpl.
  - apply sumQ_cons.
  - ring.
Qed.

Lemma group_totals_nil (keys : list cell) (vs : list (option Q)) :
  (sumQ (map (fun k => sumQ (dropna (group_values k [] vs))) keys) == 0)%Q.
Proof.
  induction keys as [|k keys IH]; simpl; [reflexivity|].
  rewrite sumQ_cons, IH. reflexivity.
Qed.

Lemma group_totals_no_rows (keys xs : list cell) :
  (sumQ (map (fun k => sumQ (dropna (group_values k xs []))) keys) == 0)%Q.
Proof.
  induction keys as [|k keys IH]; simpl; [reflexivity|].
  rewrite sumQ_cons, IH. destruct xs; simpl; reflexivity.
Qed.

Lemma group_values_hit k x xs v vs :
  cell_eqb x k = true ->
  group_values k (x :: xs) (v :: vs) = v :: group_values k xs vs.
Proof. intro H. cbn [group_values]. rewrite H. reflexivity. Qed.

Lemma group_values_miss k x xs v vs :
  cell_eqb x k = false ->
  group_values k (x :: xs) (v :: vs) = group_values k xs vs.
Proof. intro H. cbn [group_values]. rewrite H. reflexivity. Qed.

(** A row whose x value is none of the keys adds to no group. *)
Lemma group_totals_skip (keys : list cell) x xs v vs :
  seen x keys = false ->
  map (fun k => sumQ (dropna (group_values k (x :: xs) (v :: vs)))) keys
  = map (fun k => sumQ (dropna (group_values k xs vs))) keys.
Proof.
  unfold seen. induction keys as [|k keys IH]; cbn [map existsb]; intro H;
    [reflexivity|].
  apply orb_false_iff in H. destruct H as [Hk Hs].
  rewrite (group_values_miss _ _ _ _ _ Hk), (IH Hs). reflexivity.
Qed.

(** A row whose x value is one of pairwise different keys adds to exactly
    one group. *)
Lemma group_totals_hit (keys : list cell) x xs v vs :
  distinct keys -> seen x keys = true ->
  (sumQ (map (fun k => sumQ (dropna (group_values k (x :: xs) (v :: vs))))
            keys)
   == nan_to_zero v
      + sumQ (map (fun k => sumQ (dropna (group_values k xs vs))) keys))%Q.
Proof.
  unfold distinct, seen.
  induction keys as [|k keys IH]; cbn [map existsb]; intros Hd Hs;
    [discriminate|].
  inversion Hd as [|? ? Hk Hd']; subst.
  rewrite !sumQ_cons.
  destruct (cell_eqb x k) eqn:E.
  - rewrite (group_values_hit _ _ _ _ _ E), sumQ_dropna_cons.
    rewrite group_totals_skip.
    + ring.
    + unfold seen. apply not_true_is_false. intro Hex.
      apply existsb_exists in Hex. destruct Hex as (k' & Hin & Hk').
      rewrite Forall_forall in Hk. specialize (Hk k' Hin).
      rewrite (cell_eqb_trans x k k' E Hk') in Hk. discriminate.
  - rewrite (group_values_miss _ _ _ _ _ E).
    cbn [orb] in Hs. rewrite (IH Hd' Hs). ring.
Qed.

Lemma group_totals (keys xs : list cell) (vs : list (option Q)) :
  distinct keys ->
  (forall x, In x xs -> is_null x = false -> seen x keys = true) ->
  (sumQ (map (fun k => sumQ (dropna (group_values k xs vs))) keys)
   == sumQ (dropna (values_with_x xs vs)))%Q.
Proof.
  intros Hd. revert vs. induction xs as [|x xs IH]; intros vs Hcov.
  - rewrite group_totals_nil. reflexivity.
  - destruct vs as [|v vs].
    + rewrite group_totals_no_rows. reflexivity.
    + cbn [values_with_x]. destruct (is_null x) eqn:En.
      * rewrite group_totals_skip.
        -- apply IH. intros y Hy. apply Hcov. right. exact Hy.
        -- unfold seen. apply not_true_is_false. intro Hex.
           apply existsb_exists in Hex. destruct Hex as (k & _ & Hk).
           rewrite (cell_eqb_null x k En) in Hk. discriminate.
      * rewrite group_totals_hit;
          [| exact Hd | apply Hcov; [left; reflexivity | exact En]].
        rewrite sumQ_dropna_cons, IH; [reflexivity|].
        intros y Hy. apply Hcov. right. exact Hy.
Qed.

Lemma group_sums_total (xs : list cell) (vs : list (option Q)) :
  forallb hashable xs = true ->
  (sumQ (map snd (group_sums xs vs))
   == sumQ (dropna (values_with_x xs vs)))%Q.
Proof.
  intro Hh. unfold group_sums. rewrite map_map. cbn [snd].
  rewrite (sumQ_perm _ (map (fun k => sumQ (dropna (group_values k xs vs)))
                            (unique xs)))
    by (apply Permutation_map, sort_keys_perm).
  apply group_totals.
  - apply unique_distinct.
  - intros x Hx Hn. apply unique_complete; [exact Hx | exact Hn |].
    rewrite forallb_forall in Hh. apply Hh, Hx.
Qed.

Lemma collapsed_total (pie_data : list (cell * Q)) :
  (sumQ (map snd (firstn top_n (sort_values_desc pie_data)
                  ++ [(CStr "Other", other_value pie_data)]))
   == sumQ (map snd pie_data))%Q.
Proof.
  rewrite map_app, sumQ_app. cbn [map snd]. rewrite sumQ_cons.
  unfold other_value.
  rewrite <- (sumQ_perm _ _ (Permutation_map snd (sort_values_desc_perm pie_data))).
  rewrite <- (firstn_skipn top_n (sort_values_desc pie_data)) at 3.
  rewrite map_app, sumQ_app. unfold sumQ at 3. simpl. ring.
Qed.

(** X9. The slices of a pie or donut add up to the total of the y column
    over the rows that have an x value (NaN counting as 0), whether or not
    the groups after the ninth were folded into "Other"; for a y column
    whose sums neither wrap nor round, at a height plotly accepts. *)
Theorem pie_total_kept
    (df : DataFrame) (chart_type x_column y_column : string)
    (title : option string) (use_color : bool) (height : Z)
    (show_grid : bool) (xs ys : Series) (vs : list (option Q)) :
  is_pie_or_donut chart_type = true ->
  lookup x_column (columns df) = Some xs ->
  forallb hashable (cells xs) = true ->
  lookup y_column (columns df) = Some ys ->
  summands ys = Ok vs ->
  exact_sums vs = true ->
  x_column <> y_column ->
  (10 <= height)%Z ->
  exists fig,
    generate_chart df chart_type x_column y_column title use_color height
                   show_grid = Ok fig
    /\ (sumQ (map snd (slices fig))
        == sumQ (dropna (values_with_x (cells xs) vs)))%Q.
Proof.
  intros Hpie Hx Hhash Hy Hnum _ Hxy Hheight.
  rewrite (generate_chart_pie df chart_type x_column y_column title use_color
             height show_grid xs ys vs Hpie Hx Hhash Hy Hnum Hxy Hheight).
  cbv zeta.
  destruct (Nat.ltb 10 (List.length (unique (cells xs))));
    [destruct (Qlt_bool 0 (other_value (group_sums (cells xs) vs)))|];
    eexists; (split; [reflexivity|]);
    cbn [slices collapsed_pie collapsed_pie_at plain_pie update_layout
         pie_figure new_figure fig_data];
    rewrite ?collapsed_total; apply group_sums_total, Hhash.
Qed.

(** The eleven categories: 20 + ... + 12 + 2 + 1 = 147, "Other" included. *)
Lemma pie_total_kept_witness :
  exists fig,
    generate_chart (eleven_df 2 1) "pie" "k" "v" None true 400 true = Ok fig
    /\ (sumQ (map snd (slices fig)) == 147)%Q.
Proof.
  destruct (pie_total_kept (eleven_df 2 1) "pie" "k" "v" None true 400 true
              eleven_keys (NumSeries int64 (eleven_values 2 1))
              (eleven_values 2 1) eq_refl eq_refl eq_refl eq_refl eq_refl
              eq_refl)
    as (fig & Hfig & Hsum).
  - discriminate.
  - lia.
  - exists fig. split; [exact Hfig|]. rewrite Hsum. vm_compute. reflexivity.
Defined.

Lemma in_skipn {A : Type} (n : nat) (l : list A) (b : A) :
  In b (skipn n l) -> In b l.
Proof.
  revert l. induction n as [|n IH]; intros [|x l] H; simpl in H; auto.
  right. apply IH, H.
Qed.

Lemma strongly_sorted_split {A : Type} (R : A -> A -> Prop) (l : list A)
    (n : nat) :
  StronglySorted R l ->
  forall a b, In a (firstn n l) -> In b (skipn n l) -> R a b.
Proof.
  intro Hs. revert n. induction Hs as [|x l Hs IH Hx]; intros n a b Ha Hb.
  - rewrite firstn_nil in Ha. contradiction.
  - destruct n as [|n]; simpl in Ha, Hb; [contradiction|].
    destruct Ha as [<- | Ha].
    + rewrite Forall_forall in Hx. apply Hx.
      apply (in_skipn n). exact Hb.
    + eapply IH; eassumption.
Qed.

(** *** Groups with pairwise different sums *)

Lemma forallb_perm {A : Type} (p : A -> bool) (l1 l2 : list A) :
  Permutation l1 l2 -> forallb p l1 = forallb p l2.
Proof.
  induction 1 as [|x l l' _ IH|x y l|l l' l'' _ IH1 _ IH2]; simpl.
  - reflexivity.
  - rewrite IH. reflexivity.
  - destruct (p x), (p y); reflexivity.
  - rewrite IH1. exact IH2.
Qed.

Lemma Qeq_bool_comm (a b : Q) : Qeq_bool a b = Qeq_bool b a.
Proof.
  destruct (Qeq_bool a b) eqn:E; symmetry.
  - apply Qeq_bool_iff. apply Qeq_bool_iff in E. symmetry. exact E.
  - apply not_true_is_false. intro E'. apply Qeq_bool_iff in E'.
    apply Qeq_bool_false_iff in E. apply E. symmetry. exact E'.
Qed.

Lemma no_ties_insert (g : cell * Q) (l : list (cell * Q)) :
  no_ties (insert_desc g l) = no_ties (g :: l).
Proof.
  induction l as [|h t IH]; [reflexivity|].
  cbn [insert_desc]. destruct (Qlt_bool (snd g) (snd h)); [|reflexivity].
  cbn [no_ties forallb] in *. rewrite IH.
  rewrite (forallb_perm _ (insert_desc g t) (g :: t)).
  - cbn [forallb]. rewrite (Qeq_bool_comm (snd h) (snd g)).
    destruct (Qeq_bool (snd g) (snd h)),
             (forallb (fun x => negb (Qeq_bool (snd g) (snd x))) t),
             (forallb (fun x => negb (Qeq_bool (snd h) (snd x))) t),
             (no_ties t); reflexivity.
  - clear. induction t as [|x t IHt]; cbn [insert_desc]; [reflexivity|].
    destruct (Qlt_bool (snd g) (snd x)); [|reflexivity].
    apply Permutation_sym. eapply perm_trans; [apply perm_swap|].
    apply perm_skip. apply Permutation_sym. exact IHt.
Qed.

Lemma no_ties_sorted (l : list (cell * Q)) :
  no_ties (sort_values_desc l) = no_ties l.
Proof.
  induction l as [|g l IH]; [reflexivity|].
  unfold sort_values_desc in *. cbn [fold_right].
  rewrite no_ties_insert. cbn [no_ties]. rewrite IH.
  rewrite (forallb_perm _ _ _ (sort_values_desc_perm l)). reflexivity.
Qed.

Lemma no_ties_apart (l1 l2 : list (cell * Q)) (g h : cell * Q) :
  no_ties (l1 ++ l2) = true -> In g l1 -> In h l2 ->
  Qeq_bool (snd g) (snd h) = false.
Proof.
  induction l1 as [|x l1 IH]; intros Hn Hg Hh; [contradiction|].
  cbn [app no_ties] in Hn. apply andb_true_iff in Hn. destruct Hn as [Hx Hn].
  destruct Hg as [<- | Hg].
  - rewrite forallb_forall in Hx. apply negb_true_iff, Hx.
    apply in_or_app. right. exact Hh.
  - apply IH; assumption.
Qed.

(** X10. When the groups after the ninth are folded, the nine groups kept
    are the nine largest ones: each has a greater sum than every folded
    group; together the kept and the folded groups are all the groups, and
    "Other" holds the total of the folded ones.  This is for a y column
    whose sums neither wrap nor round, for groups with pairwise different
    sums (their order is then the one of pandas), at a height plotly
    accepts. *)
Theorem kept_groups_dominate
    (df : DataFrame) (chart_type x_column y_column : string)
    (title : option string) (use_color : bool) (height : Z)
    (show_grid : bool) (xs ys : Series) (vs : list (option Q)) :
  is_pie_or_donut chart_type = true ->
  lookup x_column (columns df) = Some xs ->
  forallb hashable (cells xs) = true ->
  lookup y_column (columns df) = Some ys ->
  summands ys = Ok vs ->
  exact_sums vs = true ->
  no_ties (group_sums (cells xs) vs) = true ->
  x_column <> y_column ->
  (10 <= height)%Z ->
  (10 < List.length (unique (cells xs)))%nat ->
  (0 < other_value (group_sums (cells xs) vs))%Q ->
  exists (fig : Figure) (kept folded : list (cell * Q)),
    generate_chart df chart_type x_column y_column title use_color height
                   show_grid = Ok fig
    /\ slices fig = kept ++ [ (CStr "Other", sumQ (map snd folded)) ]
    /\ List.length kept = 9%nat
    /\ List.length (slices fig) = 10%nat
    /\ Permutation (kept ++ folded) (group_sums (cells xs) vs)
    /\ descending kept
    /\ (forall g h, In g kept -> In h folded -> (snd h < snd g)%Q).
Proof.
  intros Hpie Hx Hhash Hy Hnum _ Hties Hxy Hheight Hgt Hpos.
  rewrite (generate_chart_pie df chart_type x_column y_column title use_color
             height show_grid xs ys vs Hpie Hx Hhash Hy Hnum Hxy Hheight).
  cbv zeta. apply Nat.ltb_lt in Hgt. rewrite Hgt.
  apply Qlt_bool_iff in Hpos. rewrite Hpos.
  set (sorted := sort_values_desc (group_sums (cells xs) vs)).
  assert (Hlen : List.length (firstn 9 sorted) = 9%nat).
  { rewrite length_firstn. unfold sorted. rewrite sorted_data_length.
    apply Nat.ltb_lt in Hgt. lia. }
  exists (collapsed_pie (group_sums (cells xs) vs) chart_type
            (default_title title x_column y_column) height),
         (firstn 9 sorted), (skipn 9 sorted).
  split; [reflexivity|]. split; [reflexivity|]. split; [exact Hlen|].
  split; [|split; [|split]].
  - cbn [slices collapsed_pie collapsed_pie_at new_figure fig_data].
    rewrite length_app. unfold top_n. fold sorted. rewrite Hlen.
    reflexivity.
  - rewrite firstn_skipn. apply sort_values_desc_perm.
  - unfold descending.
    pose proof (sort_values_desc_sorted (group_sums (cells xs) vs)) as Hs.
    fold sorted in Hs. rewrite <- (firstn_skipn 9 sorted) in Hs.
    clear - Hs. induction (firstn 9 sorted) as [|x l IH]; [constructor|].
    cbn [app] in Hs. inversion Hs as [|? ? Hs' Hall]; subst.
    constructor; [apply IH, Hs'|].
    rewrite Forall_forall in *. intros y Hy. apply Hall.
    apply in_or_app. left. exact Hy.
  - intros g h Hg Hh.
    pose proof (strongly_sorted_split _ _ 9 (sort_values_desc_sorted _)
                  g h Hg Hh) as Hle.
    cbv beta in Hle.
    assert (Hne : Qeq_bool (snd g) (snd h) = false).
    { apply (no_ties_apart (firstn 9 sorted) (skipn 9 sorted));
        [|exact Hg | exact Hh].
      rewrite firstn_skipn. unfold sorted. rewrite no_ties_sorted.
      exact Hties. }
    apply Qeq_bool_false_iff in Hne.
    apply Qle_lteq in Hle. destruct Hle as [Hlt | Heq]; [exact Hlt|].
    exfalso. apply Hne. symmetry. exact Heq.
Qed.

(** Eleven categories: "j" and "k" are folded, every kept group is above
    them, and "Other" holds 2 + 1 = 3. *)
Lemma kept_groups_dominate_witness :
  exists (fig : Figure) (kept folded : list (cell * Q)),
    generate_chart (eleven_df 2 1) "pie" "k" "v" None true 400 true = Ok fig
    /\ slices fig = kept ++ [ (CStr "Other", sumQ (map snd folded)) ]
    /\ nth 9 (slices fig) (CNull, 0%Q) = (CStr "Other", 3%Q)
    /\ List.length folded = 2%nat
    /\ (forall g h, In g kept -> In h folded -> (snd h < snd g)%Q).
Proof.
  destruct (kept_groups_dominate (eleven_df 2 1) "pie" "k" "v" None true 400
              true eleven_keys (NumSeries int64 (eleven_values 2 1))
              (eleven_values 2 1) eq_refl eq_refl eq_refl eq_refl eq_refl
              eq_refl eq_refl)
    as (fig & kept & folded & Hfig & Hs & Hl & _ & Hp & _ & Hd).
  - discriminate.
  - lia.
  - vm_compute. lia.
  - vm_compute. reflexivity.
  - exists fig, kept, folded. split; [exact Hfig|]. split; [exact Hs|].
    split; [|split; [|exact Hd]].
    + vm_compute in Hfig. injection Hfig as <-. reflexivity.
    + apply Permutation_length in Hp. rewrite length_app, Hl in Hp.
      assert (E : List.length (group_sums (cells eleven_keys)
                                 (eleven_values 2 1)) = 11%nat)
        by reflexivity.
      rewrite E in Hp. lia.
Defined.

(** X25. A pie request over a frame whose x column has at most 10 distinct
    values returns a pie figure with exactly one slice per distinct non-null
    x value (the slice names are the distinct values, pairwise different,
    and every non-null x value has its slice), each slice holding the sum of
    the y values of the rows of its group; for two different columns, a y
    column whose sums neither wrap nor round, at a height plotly accepts. *)
Theorem pie_one_slice_per_group
    (df : DataFrame) (x_column y_column : string) (title : option string)
    (use_color : bool) (height : Z) (show_grid : bool)
    (xs ys : Series) (vs : list (option Q)) :
  lookup x_column (columns df) = Some xs ->
  forallb hashable (cells xs) = true ->
  lookup y_column (columns df) = Some ys ->
  summands ys = Ok vs ->
  exact_sums vs = true ->
  x_column <> y_column ->
  (10 <= height)%Z ->
  (List.length (unique (cells xs)) <= 10)%nat ->
  exists fig,
    generate_chart df "pie" x_column y_column title use_color height show_grid
      = Ok fig
    /\ fig_kind fig = px_pie
    /\ Permutation (map fst (slices fig)) (unique (cells xs))
    /\ distinct (unique (cells xs))
    /\ (forall c, In c (cells xs) -> is_null c = false ->
                  seen c (map fst (slices fig)) = true)
    /\ List.length (slices fig) = List.length (unique (cells xs))
    /\ (forall k v, In (k, v) (slices fig) ->
                    v = sumQ (dropna (group_values k (cells xs) vs))).
Proof.
  intros Hx Hhash Hy Hnum _ Hxy Hheight Hle.
  eexists. split.
  - rewrite (generate_chart_pie df "pie" x_column y_column title use_color
               height show_grid xs ys vs eq_refl Hx Hhash Hy Hnum Hxy
               Hheight).
    cbv zeta. apply Nat.ltb_ge in Hle. rewrite Hle. reflexivity.
  - cbn [plain_pie update_layout pie_figure new_figure slices fig_kind
         fig_data].
    assert (Hk : Permutation (map fst (group_sums (cells xs) vs))
                             (unique (cells xs))).
    { rewrite group_sums_keys. apply sort_keys_perm. }
    repeat split.
    + exact Hk.
    + apply unique_distinct.
    + intros c Hc Hn.
      apply (seen_perm c _ _ (Permutation_sym Hk)).
      apply unique_complete; [exact Hc | exact Hn |].
      rewrite forallb_forall in Hhash. apply Hhash, Hc.
    + apply group_sums_length.
    + apply group_sums_value.
Qed.

(** The dataset (A,10), (B,20), (A,5): two slices, A=15 and B=20. *)
Lemma pie_one_slice_per_group_witness :
  exists fig,
    generate_chart sales_df "pie" "name" "sales" None true 400 true = Ok fig
    /\ slices fig = [ (CStr "A", 15%Q); (CStr "B", 20%Q) ]
    /\ List.length (slices fig) = 2%nat.
Proof.
  destruct (pie_one_slice_per_group sales_df "name" "sales" None true 400 true
              (ObjSeries [CStr "A"; CStr "B"; CStr "A"])
              (NumSeries int64 [Some 10%Q; Some 20%Q; Some 5%Q])
              [Some 10%Q; Some 20%Q; Some 5%Q]
              eq_refl eq_refl eq_refl eq_refl eq_refl)
    as (fig & Hfig & _).
  - discriminate.
  - lia.
  - vm_compute. lia.
  - exists fig. split; [exact Hfig|].
    vm_compute in Hfig. injection Hfig as <-. split; reflexivity.
Defined.

(** X26. When the groups after the ninth of a pie or donut do not add up to
    more than zero, nothing is folded: the figure returned is the one made
    before, with one slice for every group (more than 10 of them) and the
    layout set on it; for two different columns, a y column whose sums
    neither wrap nor round, at a height plotly accepts. *)
Theorem remainder_not_positive
    (df : DataFrame) (chart_type x_column y_column : string)
    (title : option string) (use_color : bool) (height : Z)
    (show_grid : bool) (xs ys : Series) (vs : list (option Q)) :
  is_pie_or_donut chart_type = true ->
  lookup x_column (columns df) = Some xs ->
  forallb hashable (cells xs) = true ->
  lookup y_column (columns df) = Some ys ->
  summands ys = Ok vs ->
  exact_sums vs = true ->
  x_column <> y_column ->
  (10 <= height)%Z ->
  (10 < List.length (unique (cells xs)))%nat ->
  ~ (0 < other_value (group_sums (cells xs) vs))%Q ->
  exists fig,
    generate_chart df chart_type x_column y_column title use_color height
                   show_grid = Ok fig
    /\ slices fig = group_sums (cells xs) vs
    /\ List.length (slices fig) = List.length (unique (cells xs))
    /\ Permutation (map fst (slices fig)) (unique (cells xs))
    /\ normalized chart_type x_column y_column show_grid fig.
Proof.
  intros Hpie Hx Hhash Hy Hnum _ Hxy Hheight Hgt Hrem.
  rewrite (generate_chart_pie df chart_type x_column y_column title use_color
             height show_grid xs ys vs Hpie Hx Hhash Hy Hnum Hxy Hheight).
  cbv zeta. apply Nat.ltb_lt in Hgt. rewrite Hgt.
  apply Qlt_bool_false_iff in Hrem. rewrite Hrem.
  eexists. split; [reflexivity|].
  cbn [plain_pie update_layout pie_figure new_figure slices fig_data].
  split; [reflexivity|]. split; [apply group_sums_length|].
  split; [rewrite group_sums_keys; apply sort_keys_perm|].
  unfold normalized. cbn. rewrite Hpie. repeat split.
Qed.

(** Eleven categories, the last two with 0: all eleven are shown. *)
Lemma remainder_not_positive_witness :
  exists fig,
    generate_chart (eleven_df 0 0) "donut" "k" "v" None true 400 true = Ok fig
    /\ List.length (slices fig) = 11%nat
    /\ layout_title_x fig = Some (1 # 2)%Q.
Proof.
  destruct (remainder_not_positive (eleven_df 0 0) "donut" "k" "v" None true
              400 true eleven_keys (NumSeries int64 (eleven_values 0 0))
              (eleven_values 0 0) eq_refl eq_refl eq_refl eq_refl eq_refl
              eq_refl)
    as (fig & Hfig & _ & Hl & _ & Hn & _).
  - discriminate.
  - lia.
  - vm_compute. lia.
  - vm_compute. discriminate.
  - exists fig. split; [exact Hfig|]. split; [|exact Hn].
    rewrite Hl. reflexivity.
Defined.

(** ** Loader: file type, flattening, frames *)

Lemma last_segment_from_no_dot (s acc : string) :
  no_dot s = true -> last_segment_from acc s = (acc ++ s)%string.
Proof.
  revert acc. induction s as [|c s IH]; intros acc H; simpl.
  - induction acc as [|a acc IHa]; simpl; [reflexivity | rewrite <- IHa; reflexivity].
  - simpl in H. apply andb_true_iff in H. destruct H as [Hc Hs].
    apply negb_true_iff in Hc. rewrite Hc, (IH _ Hs).
    induction acc as [|a acc IHa]; simpl; [reflexivity | rewrite IHa; reflexivity].
Qed.

Lemma last_segment_from_dot (a b acc : string) :
  last_segment_from acc (a ++ String "."%char b)
  = last_segment_from EmptyString b.
Proof.
  revert acc. induction a as [|c a IH]; intro acc; simpl.
  - reflexivity.
  - destruct (Ascii.eqb c "."%char); apply IH.
Qed.

Lemma lower_char_not_dot (c : ascii) :
  Ascii.eqb c "."%char = false -> Ascii.eqb (lower_char c) "."%char = false.
Proof.
  destruct c as [[] [] [] [] [] [] [] []]; vm_compute; congruence.
Qed.

Lemma lower_char_idem (c : ascii) : lower_char (lower_char c) = lower_char c.
Proof.
  destruct c as [[] [] [] [] [] [] [] []]; reflexivity.
Qed.

Lemma lower_no_dot (s : string) : no_dot s = true -> no_dot (lower s) = true.
Proof.
  induction s as [|c s IH]; simpl; intro H; [reflexivity|].
  apply andb_true_iff in H. destruct H as [Hc Hs].
  apply negb_true_iff in Hc.
  rewrite (lower_char_not_dot _ Hc), (IH Hs). reflexivity.
Qed.

Lemma lower_idem (s : string) : lower (lower s) = lower s.
Proof.
  induction s as [|c s IH]; simpl; [reflexivity|].
  rewrite lower_char_idem, IH. reflexivity.
Qed.

(** X11. The file type is the text after the last dot of the name, lower
    cased: for a name [base.ext] whose [ext] has no dot it is [lower ext],
    whatever [base] holds (dots included), and for a name without any dot it
    is the whole name lower cased.  Lower casing is idempotent, so the case
    of the extension does not matter. *)
Theorem file_type_after_last_dot
    (base ext : string) (bytes : list Byte.byte) (pos : nat) :
  no_dot ext = true ->
  file_type_of (mkUploadedFile (base ++ String "."%char ext) bytes pos)
    = lower ext
  /\ file_type_of (mkUploadedFile ext bytes pos) = lower ext
  /\ no_dot (lower ext) = true
  /\ lower (lower ext) = lower ext.
Proof.
  intro H. unfold file_type_of, last_segment. cbn [name].
  rewrite last_segment_from_dot, (last_segment_from_no_dot _ _ H).
  repeat split; [apply lower_no_dot, H | apply lower_idem].
Qed.

Lemma file_type_after_last_dot_witness :
  file_type_of (mkUploadedFile "sales.2024.v2.CSV" [] 0) = "csv"
  /\ file_type_of (mkUploadedFile "JSON" [] 0) = "json".
Proof.
  destruct (file_type_after_last_dot "sales.2024.v2" "CSV" [] 0 eq_refl)
    as (H1 & _).
  destruct (file_type_after_last_dot "" "JSON" [] 0 eq_refl)
    as (_ & H2 & _).
  split; [exact H1 | exact H2].
Defined.

(** *** Flattening *)

Lemma dict_set_no_object (d : record) (k : string) (v : json) :
  no_object d -> is_dict v = false -> no_object (dict_set d k v).
Proof.
  unfold no_object. induction d as [|[k' v'] d IH]; simpl; intros Hd Hv.
  - constructor; [exact Hv | constructor].
  - inversion Hd as [|? ? Hh Ht]; subst.
    destruct (String.eqb k k'); constructor; auto.
Qed.

Lemma dict_set_keys_nodup {A : Type} (d : list (string * A)) k v :
  NoDup (map fst d) -> NoDup (map fst (dict_set d k v)).
Proof.
  induction d as [|[k' v'] d IH]; simpl; intro Hd.
  - constructor; [intros [] | constructor].
  - inversion Hd as [|? ? Hn Hd']; subst.
    destruct (String.eqb k k') eqn:E; simpl.
    + apply String.eqb_eq in E. subst k'. constructor; assumption.
    + constructor; [|apply IH, Hd'].
      intro Hin. apply Hn. clear IH Hn Hd Hd'.
      apply String.eqb_neq in E.
      induction d as [|[k0 v0] d IHd]; simpl in *.
      * destruct Hin as [Hin | []]. congruence.
      * destruct (String.eqb k k0) eqn:E0; simpl in Hin.
        -- apply String.eqb_eq in E0. subst k0.
           destruct Hin as [Hin | Hin]; [congruence | right; exact Hin].
        -- destruct Hin as [Hin | Hin]; [left; exact Hin | right; auto].
Qed.

Lemma normalise_json_no_object (data : json) :
  forall key_string acc,
    no_object acc -> no_object (normalise_json data key_string acc).
Proof.
  revert data. fix IH 1. intros data key_string acc Hacc.
  destruct data as [ | b | q | s | items | members];
    try (apply dict_set_no_object; [exact Hacc | reflexivity]).
  simpl. revert acc Hacc.
  induction members as [|[k v] ms IHms]; intros acc Hacc.
  - exact Hacc.
  - apply IHms. apply IH. exact Hacc.
Qed.

Lemma normalise_json_keys_nodup (data : json) :
  forall key_string acc,
    NoDup (map fst acc) ->
    NoDup (map fst (normalise_json data key_string acc)).
Proof.
  revert data. fix IH 1. intros data key_string acc Hacc.
  destruct data as [ | b | q | s | items | members];
    try (apply dict_set_keys_nodup; exact Hacc).
  simpl. revert acc Hacc.
  induction members as [|[k v] ms IHms]; intros acc Hacc.
  - exact Hacc.
  - apply IHms. apply IH. exact Hacc.
Qed.

Lemma dict_update_no_object (a b : record) :
  no_object a -> no_object b -> no_object (dict_update a b).
Proof.
  unfold dict_update. revert a.
  induction b as [|[k v] b IH]; simpl; intros a Ha Hb; [exact Ha|].
  inversion Hb as [|? ? Hv Hb']; subst.
  apply IH; [apply dict_set_no_object; assumption | exact Hb'].
Qed.

Lemma dict_update_keys_nodup {A : Type} (a b : list (string * A)) :
  NoDup (map fst a) -> NoDup (map fst (dict_update a b)).
Proof.
  unfold dict_update. revert a.
  induction b as [|[k v] b IH]; simpl; intros a Ha; [exact Ha|].
  apply IH, dict_set_keys_nodup, Ha.
Qed.

Lemma filter_keys_nodup {A : Type} (p : string * A -> bool)
    (d : list (string * A)) :
  NoDup (map fst d) -> NoDup (map fst (filter p d)).
Proof.
  induction d as [|kv d IH]; simpl; intro Hd; [constructor|].
  inversion Hd as [|? ? Hn Hd']; subst.
  destruct (p kv); simpl; [|apply IH, Hd'].
  constructor; [|apply IH, Hd'].
  intro Hin. apply Hn. apply in_map_iff in Hin.
  destruct Hin as (x & Hx & Hf). apply filter_In in Hf.
  apply in_map_iff. exists x. split; [exact Hx | apply Hf].
Qed.

(** X12. Flattening a record leaves no object behind: every value of the
    flattened record is a scalar or a list.  Its keys are pairwise
    different when those of the record are, and a record without nested
    objects is returned as it is. *)
Theorem flattening_leaves_no_object (members : record) :
  no_object (normalise_json_ordered members)
  /\ (NoDup (map fst members) ->
      NoDup (map fst (normalise_json_ordered members)))
  /\ (no_object members -> normalise_json_ordered members = members).
Proof.
  unfold normalise_json_ordered. split; [|split].
  - apply dict_update_no_object.
    + unfold no_object. apply Forall_forall. intros kv Hin.
      apply filter_In in Hin. destruct Hin as [_ H].
      apply negb_true_iff in H. exact H.
    + apply normalise_json_no_object. constructor.
  - intro Hd. apply dict_update_keys_nodup, filter_keys_nodup, Hd.
  - intro H. apply normalise_flat_record.
    apply forallb_forall. intros kv Hin.
    unfold no_object in H. rewrite Forall_forall in H.
    rewrite (H kv Hin). reflexivity.
Qed.

(** {"a": {"b": 1, "c": {"d": "z"}}, "e": 0.5} flattens to the keys e, a.b
    and a.c.d. *)
Lemma flattening_leaves_no_object_witness :
  map fst (normalise_json_ordered
             [ ("a", JObj [ ("b", JNum 1);
                            ("c", JObj [ ("d", JStr "z") ]) ]);
               ("e", JNum (1 # 2)) ])
    = ["e"; "a.b"; "a.c.d"]
  /\ NoDup ["e"; "a.b"; "a.c.d"].
Proof.
  split; [reflexivity|].
  change ["e"; "a.b"; "a.c.d"]
    with (map fst (normalise_json_ordered
             [ ("a", JObj [ ("b", JNum 1);
                            ("c", JObj [ ("d", JStr "z") ]) ]);
               ("e", JNum (1 # 2)) ])).
  apply (proj1 (proj2 (flattening_leaves_no_object _))).
  simpl. constructor.
  - simpl. intros [H | []]. discriminate H.
  - constructor; [intros [] | constructor].
Defined.

(** *** The frame of a json file *)

Lemma add_keys_nodup (r : record) (keys : list string) :
  NoDup keys ->
  NoDup (fold_left
           (fun keys kv =>
              if existsb (String.eqb (fst kv)) keys then keys
              else keys ++ [fst kv])
           r keys).
Proof.
  revert keys. induction r as [|kv r IH]; simpl; intros keys Hk; [exact Hk|].
  apply IH. destruct (existsb (String.eqb (fst kv)) keys) eqn:E; [exact Hk|].
  apply NoDup_app; [exact Hk | constructor; [intros [] | constructor] |].
  intros a Ha [Ea | []]. subst a.
  assert (Ht : existsb (String.eqb (fst kv)) keys = true)
    by (apply existsb_eqb_in; exact Ha).
  congruence.
Qed.

Lemma union_keys_nodup (records : list record) : NoDup (union_keys records).
Proof.
  unfold union_keys.
  assert (H : forall keys, NoDup keys ->
            NoDup (fold_left
                     (fun keys r =>
                        fold_left
                          (fun keys kv =>
                             if existsb (String.eqb (fst kv)) keys then keys
                             else keys ++ [fst kv]) r keys)
                     records keys)).
  { induction records as [|r records IH]; simpl; intros keys Hk; [exact Hk|].
    apply IH, add_keys_nodup, Hk. }
  apply H. constructor.
Qed.

Lemma DataFrame_records_consistent (records : list record) :
  NoDup (map fst (columns (DataFrame_records records)))
  /\ Forall (fun c => series_len (snd c)
                      = index_len (DataFrame_records records))
            (columns (DataFrame_records records)).
Proof.
  destruct (DataFrame_records_shape records) as (H1 & H2 & H3).
  rewrite H2, H1. split; [apply union_keys_nodup | exact H3].
Qed.

Lemma json_normalize_consistent (items : list json) (df : DataFrame) :
  json_normalize items = Ok df ->
  NoDup (map fst (columns df))
  /\ Forall (fun c => series_len (snd c) = index_len df) (columns df).
Proof.
  unfold json_normalize. destruct items as [|i items].
  - intro H. injection H as <-. simpl. split; constructor.
  - destruct (existsb is_list (i :: items)); [discriminate|].
    intro H. injection H as <-. apply DataFrame_records_consistent.
Qed.

(** X13. Whatever frame a json file loads as, its column labels are
    pairwise different and every column is as long as the index: the loader
    hands consistent frames to the analyzer and the chart builder. *)
Theorem json_frame_consistent
    (read_csv : UploadedFile -> encoding -> csv_result * UploadedFile)
    (json_load : UploadedFile -> json_result * UploadedFile)
    (f : UploadedFile) (df : DataFrame) :
  file_type_of f = "json" ->
  fst (load_file read_csv json_load f) = Ok df ->
  NoDup (map fst (columns df))
  /\ Forall (fun c => series_len (snd c) = index_len df) (columns df).
Proof.
  intros Hft. unfold load_file. rewrite Hft. simpl. unfold load_json.
  destruct (json_load f) as [[j | e] f1]; cbn [fst]; [|discriminate].
  destruct j as [ | b | q | s | items | members]; cbn [frame_of_json reraise];
    try discriminate.
  - destruct (json_normalize items) as [d | e | w] eqn:E; cbn [reraise];
      try discriminate.
    intro H. injection H as <-. apply (json_normalize_consistent _ _ E).
  - destruct (lookup "data" members) as [[ | b | q | s | items | ms]|];
      cbn [reraise];
      try (intro H; injection H as <-; apply DataFrame_records_consistent).
    destruct (json_normalize items) as [d | e | w] eqn:E; cbn [reraise];
      try discriminate.
    intro H. injection H as <-. apply (json_normalize_consistent _ _ E).
Qed.

(** Records with different keys: [{"a": 1}, {"b": "x", "a": 2}] gives the
    columns a and b, both of length 2. *)
Lemma json_frame_consistent_witness :
  exists df,
    fst (load_file read_csv_undecodable
           (json_load_finds
              (JArr [ JObj [("a", JNum 1)];
                      JObj [("b", JStr "x"); ("a", JNum 2)] ]))
           (mkUploadedFile "rows.json" [] 0)) = Ok df
    /\ map fst (columns df) = ["a"; "b"]
    /\ Forall (fun c => series_len (snd c) = index_len df) (columns df).
Proof.
  eexists. split; [reflexivity|]. split; [reflexivity|].
  apply (json_frame_consistent read_csv_undecodable
           (json_load_finds
              (JArr [ JObj [("a", JNum 1)];
                      JObj [("b", JStr "x"); ("a", JNum 2)] ]))
           (mkUploadedFile "rows.json" [] 0) _ eq_refl eq_refl).
Defined.

(** ** Analyzer: missing values, categories, unhashable cells *)

Lemma sum_positive (l : list nat) :
  Nat.ltb 0 (fold_right Nat.add 0%nat l) = true
  <-> exists n, In n l /\ (0 < n)%nat.
Proof.
  rewrite Nat.ltb_lt. induction l as [|a l IH]; simpl.
  - split; [lia | intros (n & [] & _)].
  - split.
    + intro H. destruct a as [|a].
      * destruct (proj1 IH H) as (n & Hn & Hp). exists n. auto.
      * exists (S a). split; [left; reflexivity | lia].
    + intros (n & [-> | Hn] & Hp); [lia|].
      assert (0 < fold_right Nat.add 0 l)%nat by (apply IH; eauto). lia.
Qed.

Lemma lookup_filter_map_absent {A B : Type} (f : A -> B)
    (p : string * B -> bool) (l : list (string * A)) (k : string) :
  ~ In k (map fst l) ->
  lookup k (filter p (map (fun c => (fst c, f (snd c))) l)) = None.
Proof.
  induction l as [|[k0 a0] l IH]; simpl; intro Hn; [reflexivity|].
  assert (Hne : String.eqb k k0 = false).
  { apply String.eqb_neq. intros ->. apply Hn. left. reflexivity. }
  destruct (p (k0, f a0)); simpl; [rewrite Hne|]; apply IH;
    intro H; apply Hn; right; exact H.
Qed.

Lemma lookup_filter_map {A B : Type} (f : A -> B) (p : string * B -> bool)
    (l : list (string * A)) (k : string) (a : A) :
  NoDup (map fst l) -> In (k, a) l ->
  lookup k (filter p (map (fun c => (fst c, f (snd c))) l))
  = if p (k, f a) then Some (f a) else None.
Proof.
  induction l as [|[k' a'] l IH]; simpl; intros Hnd Hin; [contradiction|].
  inversion Hnd as [|? ? Hn Hnd']; subst.
  destruct Hin as [E | Hin].
  - inversion E; subst. destruct (p (k, f a)) eqn:Ep; simpl.
    + rewrite String.eqb_refl. reflexivity.
    + apply lookup_filter_map_absent, Hn.
  - assert (Hne : String.eqb k k' = false).
    { apply String.eqb_neq. intros ->. apply Hn.
      apply in_map_iff. exists (k', a). split; [reflexivity | exact Hin]. }
    destruct (p (k', f a')); simpl; [rewrite Hne|]; apply IH; assumption.
Qed.

Lemma lookup_filter_map_inv {A B : Type} (f : A -> B)
    (p : string * B -> bool) (l : list (string * A)) (k : string) (b : B) :
  lookup k (filter p (map (fun c => (fst c, f (snd c))) l)) = Some b ->
  exists a, In (k, a) l /\ b = f a /\ p (k, b) = true.
Proof.
  induction l as [|[k' a'] l IH]; simpl; [discriminate|].
  destruct (p (k', f a')) eqn:Ep; simpl.
  - destruct (String.eqb k k') eqn:E.
    + apply String.eqb_eq in E. subst k'. intro H. injection H as <-.
      exists a'. auto.
    + intro H. destruct (IH H) as (a & Ha & Hb & Hp). exists a. auto.
  - intro H. destruct (IH H) as (a & Ha & Hb & Hp). exists a. auto.
Qed.

(** X14. The key missing_values is assigned exactly when some column has a
    null; it then maps each such column to its number of nulls and holds no
    column without nulls (and no count of zero). *)
Theorem missing_values_sparse
    (Describe : Type) (describe : list (string * Series) -> Describe)
    (skew kurt : Series -> floatR) (df : DataFrame) :
  well_formed df ->
  exists r,
    analyze_data Describe describe skew kurt df = Ok r
    /\ ((exists d, missing_values Describe r = Some d)
        <-> exists col s, In (col, s) (columns df) /\ (0 < null_count s)%nat)
    /\ forall d, missing_values Describe r = Some d ->
         (forall col s, In (col, s) (columns df) ->
            lookup col d = if Nat.ltb 0 (null_count s)
                           then Some (null_count s) else None)
         /\ (forall col n, lookup col d = Some n ->
               (0 < n)%nat
               /\ exists s, In (col, s) (columns df) /\ null_count s = n).
Proof.
  intro Hwf. eexists. split; [apply analyze_data_ok, Hwf|].
  unfold analysis_of. cbn [missing_values].
  set (missing_vals := map (fun c => (fst c, null_count (snd c))) (columns df)).
  split.
  - destruct (Nat.ltb 0 (fold_right Nat.add 0%nat (map snd missing_vals)))
      eqn:E.
    + split; [intros _ | eauto].
      apply sum_positive in E. destruct E as (n & Hn & Hp).
      unfold missing_vals in Hn. rewrite map_map in Hn. simpl in Hn.
      apply in_map_iff in Hn. destruct Hn as ([col s] & <- & Hin).
      exists col, s. auto.
    + split; [intros [d H]; discriminate|].
      intros (col & s & Hin & Hp). exfalso.
      assert (Ht : Nat.ltb 0 (fold_right Nat.add 0%nat (map snd missing_vals))
                   = true).
      { apply sum_positive. exists (null_count s). split; [|exact Hp].
        unfold missing_vals. rewrite map_map. simpl.
        apply in_map_iff. exists (col, s). auto. }
      congruence.
  - intros d Hd.
    destruct (Nat.ltb 0 (fold_right Nat.add 0%nat (map snd missing_vals)));
      [|discriminate].
    injection Hd as <-. split.
    + intros col s Hin. unfold missing_vals.
      rewrite (lookup_filter_map null_count
                 (fun kv => Nat.ltb 0 (snd kv)) _ col s (proj1 Hwf) Hin).
      reflexivity.
    + intros col n Hl. unfold missing_vals in Hl.
      apply lookup_filter_map_inv in Hl. destruct Hl as (s & Hin & -> & Hp).
      simpl in Hp. apply Nat.ltb_lt in Hp. eauto.
Qed.

Lemma gaps_df_well_formed : well_formed MoreExamples.gaps_df.
Proof.
  split; [|split].
  - simpl. constructor.
    + simpl. intros [H | []]. discriminate H.
    + constructor; [intros [] | constructor].
  - repeat constructor.
  - repeat constructor.
Defined.

(** name has one null and sales two. *)
Lemma missing_values_sparse_witness :
  exists r d,
    analyze_data unit (fun _ => tt) (fun _ => None) (fun _ => None)
                 MoreExamples.gaps_df = Ok r
    /\ missing_values unit r = Some d
    /\ lookup "name" d = Some 1%nat
    /\ lookup "sales" d = Some 2%nat.
Proof.
  destruct (missing_values_sparse unit (fun _ => tt) (fun _ => None)
              (fun _ => None) MoreExamples.gaps_df gaps_df_well_formed)
    as (r & Hr & Hiff & Hd).
  destruct (proj2 Hiff) as [d Ed].
  { exists "name", (ObjSeries [CStr "A"; CNull; CStr "B"]).
    split; [left; reflexivity | vm_compute; lia]. }
  destruct (Hd d Ed) as [Hl _].
  exists r, d. split; [exact Hr|]. split; [exact Ed|]. split.
  - exact (Hl "name" _ (or_introl eq_refl)).
  - exact (Hl "sales" _ (or_intror (or_introl eq_refl))).
Defined.

(** *** Categories *)

Lemma insert_count_perm (g : cell * nat) (l : list (cell * nat)) :
  Permutation (insert_count g l) (g :: l).
Proof.
  induction l as [|h t IH]; simpl.
  - apply Permutation_refl.
  - destruct (Nat.ltb (snd g) (snd h)).
    + eapply perm_trans; [apply perm_skip, IH | apply perm_swap].
    + apply Permutation_refl.
Qed.

Lemma sort_counts_perm (l : list (cell * nat)) :
  Permutation (fold_right insert_count [] l) l.
Proof.
  induction l as [|h t IH]; simpl.
  - apply perm_nil.
  - eapply perm_trans; [apply insert_count_perm | apply perm_skip, IH].
Qed.

Lemma insert_count_sorted (g : cell * nat) (l : list (cell * nat)) :
  by_count_desc l -> by_count_desc (insert_count g l).
Proof.
  unfold by_count_desc. induction l as [|h t IH]; simpl; intro Hs.
  - constructor; constructor.
  - inversion Hs as [|? ? Ht Hh]; subst.
    destruct (Nat.ltb (snd g) (snd h)) eqn:E.
    + apply Nat.ltb_lt in E.
      constructor; [apply IH, Ht|].
      apply (Permutation_Forall (Permutation_sym (insert_count_perm g t))).
      constructor; [lia | exact Hh].
    + apply Nat.ltb_ge in E.
      constructor; [exact Hs|].
      constructor; [exact E|].
      eapply Forall_impl; [|exact Hh]. intros a Ha. simpl in Ha. lia.
Qed.

Lemma sort_counts_sorted (l : list (cell * nat)) :
  by_count_desc (fold_right insert_count [] l).
Proof.
  induction l as [|h t IH]; simpl.
  - constructor.
  - apply insert_count_sorted, IH.
Qed.

Lemma in_firstn {A : Type} (n : nat) (l : list A) (a : A) :
  In a (firstn n l) -> In a l.
Proof.
  revert l. induction n as [|n IH]; intros [|x l] H; simpl in H;
    try contradiction.
  destruct H as [H | H]; [left; exact H | right; apply IH, H].
Qed.

Lemma firstn_strongly_sorted {A : Type} (R : A -> A -> Prop) (n : nat)
    (l : list A) :
  StronglySorted R l -> StronglySorted R (firstn n l).
Proof.
  intro Hs. revert n. induction Hs as [|x l Hs IH Hx]; intro n.
  - rewrite firstn_nil. constructor.
  - destruct n as [|n]; simpl; constructor; [apply IH|].
    rewrite Forall_forall in *. intros y Hy. apply Hx.
    apply (in_firstn n). exact Hy.
Qed.

Section ColumnKinds.

Variable df : DataFrame.
Hypothesis Hwf : well_formed df.

Let numeric_cols := select_number_columns df.
Let cat_cols :=
  filter (fun col => negb (existsb (String.eqb col) numeric_cols))
         (map fst (columns df)).

Lemma numeric_col_iff (col : string) (s : Series) :
  In (col, s) (columns df) ->
  (In col numeric_cols <-> is_numeric s = true).
Proof.
  intro Hin. split.
  - intro Hc. destruct (numeric_col_inv df col Hc) as (dt & vs & Hc').
    pose proof (lookup_in_nodup _ _ _ (proj1 Hwf) Hin) as E1.
    pose proof (lookup_in_nodup _ _ _ (proj1 Hwf) Hc') as E2.
    rewrite E1 in E2. injection E2 as ->. reflexivity.
  - intro Hn. destruct s; try discriminate.
    eapply numeric_col_intro; eassumption.
Qed.

Lemma cat_col_iff (col : string) (s : Series) :
  In (col, s) (columns df) ->
  (In col cat_cols <-> is_numeric s = false).
Proof.
  intro Hin. unfold cat_cols. rewrite filter_In, negb_true_iff. split.
  - intros [_ H]. destruct (is_numeric s) eqn:E; [|reflexivity].
    apply (numeric_col_iff col s Hin) in E.
    apply existsb_eqb_in in E. congruence.
  - intro Hn. split.
    + apply in_map_iff. exists (col, s). auto.
    + apply not_true_is_false. intro H. apply existsb_eqb_in in H.
      apply (numeric_col_iff col s Hin) in H. congruence.
Qed.

Lemma nonempty_in {A : Type} (a : A) (l : list A) :
  In a l -> nonempty l = true.
Proof. destruct l; [contradiction | reflexivity]. Qed.

Lemma lookup_assigned {V : Type} (f : string -> option V) cols col :
  lookup col (assign_each f cols [])
  = if existsb (String.eqb col) cols then f col else None.
Proof.
  rewrite lookup_assign_each. destruct (existsb _ cols); [|reflexivity].
  destruct (f col); reflexivity.
Qed.

End ColumnKinds.

(** X15. Every column that is not numeric has an entry in
    categorical_summary: unique_values is the number of its distinct
    non-null values, and top_values lists at most 10 of them (all of them
    when there are at most 10), most frequent first, each with the number of
    cells holding it, which is never 0. *)
Theorem categorical_entries
    (Describe : Type) (describe : list (string * Series) -> Describe)
    (skew kurt : Series -> floatR) (df : DataFrame)
    (col : string) (s : Series) :
  well_formed df ->
  In (col, s) (columns df) ->
  is_numeric s = false ->
  exists r d e,
    analyze_data Describe describe skew kurt df = Ok r
    /\ categorical_summary Describe r = Some d
    /\ lookup col d = Some e
    /\ unique_values e = List.length (unique (cells s))
    /\ List.length (top_values e) = Nat.min 10 (unique_values e)
    /\ by_count_desc (top_values e)
    /\ forall k n, In (k, n) (top_values e) ->
         In k (unique (cells s)) /\ n = count_of k (cells s) /\ (0 < n)%nat.
Proof.
  intros Hwf Hin Hnum.
  assert (Hcat := proj2 (cat_col_iff df Hwf col s Hin) Hnum).
  eexists. eexists. eexists.
  split; [apply analyze_data_ok, Hwf|].
  split.
  { unfold analysis_of. cbn [categorical_summary].
    rewrite (nonempty_in _ _ Hcat). reflexivity. }
  split.
  { rewrite lookup_assigned. apply existsb_eqb_in in Hcat. rewrite Hcat.
    unfold category_entry.
    rewrite (lookup_in_nodup _ _ _ (proj1 Hwf) Hin). reflexivity. }
  cbn [unique_values top_values].
  set (counts := map (fun k => (k, count_of k (cells s))) (unique (cells s))).
  assert (Hlen : List.length (fold_right insert_count [] counts)
                 = List.length (unique (cells s))).
  { rewrite (Permutation_length (sort_counts_perm counts)).
    unfold counts. apply length_map. }
  split; [reflexivity|]. split; [rewrite length_firstn, Hlen; reflexivity|].
  split; [apply firstn_strongly_sorted, sort_counts_sorted|].
  intros k n Hkn. apply in_firstn in Hkn.
  apply (Permutation_in _ (sort_counts_perm counts)) in Hkn.
  unfold counts in Hkn. apply in_map_iff in Hkn.
  destruct Hkn as (k' & E & Hk). inversion E; subst.
  split; [exact Hk|]. split; [reflexivity|].
  destruct (unique_sound _ _ Hk) as [Hc Hn].
  destruct Hwf as (_ & _ & Hh). rewrite Forall_forall in Hh.
  specialize (Hh _ Hin). simpl in Hh. rewrite forallb_forall in Hh.
  unfold count_of.
  assert (Hf : In k (filter (fun x => cell_eqb x k) (cells s))).
  { apply filter_In. split; [exact Hc|].
    apply cell_eqb_refl; [exact Hn | apply Hh, Hc]. }
  destruct (filter (fun x => cell_eqb x k) (cells s)); [contradiction|].
  simpl. lia.
Qed.

(** name of the sales frame: two distinct values, A twice and B once. *)
Lemma categorical_entries_witness :
  exists r d e,
    analyze_data unit (fun _ => tt) (fun _ => None) (fun _ => None) sales_df
      = Ok r
    /\ categorical_summary unit r = Some d
    /\ lookup "name" d = Some e
    /\ unique_values e = 2%nat
    /\ top_values e = [ (CStr "A", 2%nat); (CStr "B", 1%nat) ].
Proof.
  destruct (categorical_entries unit (fun _ => tt) (fun _ => None)
              (fun _ => None) sales_df "name"
              (ObjSeries [CStr "A"; CStr "B"; CStr "A"])
              sales_df_well_formed (or_introl eq_refl) eq_refl)
    as (r & d & e & Hr & Hd & He & Hu & _).
  exists r, d, e. split; [exact Hr|]. split; [exact Hd|]. split; [exact He|].
  split; [exact Hu|].
  vm_compute in Hr. injection Hr as <-.
  vm_compute in Hd. injection Hd as <-.
  vm_compute in He. injection He as <-. reflexivity.
Defined.

(** X16. The analysis splits the columns by dtype: a numeric column gets a
    distribution entry and no categorical entry, any other column gets a
    categorical entry and no distribution entry; column_types names every
    column, in order, with its dtype, and column_count counts them. *)
Theorem columns_split_by_dtype
    (Describe : Type) (describe : list (string * Series) -> Describe)
    (skew kurt : Series -> floatR) (df : DataFrame) :
  well_formed df ->
  exists r,
    analyze_data Describe describe skew kurt df = Ok r
    /\ column_count Describe r = List.length (column_types Describe r)
    /\ map fst (column_types Describe r) = map fst (columns df)
    /\ forall col s, In (col, s) (columns df) ->
         lookup col (column_types Describe r) = Some (dtype_str s)
         /\ (is_numeric s = true ->
             has_entry (distribution Describe r) col
             /\ ~ has_entry (categorical_summary Describe r) col)
         /\ (is_numeric s = false ->
             has_entry (categorical_summary Describe r) col
             /\ ~ has_entry (distribution Describe r) col).
Proof.
  intro Hwf. eexists. split; [apply analyze_data_ok, Hwf|].
  unfold analysis_of.
  cbn [column_count column_types distribution categorical_summary].
  split; [rewrite length_map; reflexivity|].
  split; [rewrite map_map; reflexivity|].
  intros col s Hin.
  pose proof (numeric_col_iff df Hwf col s Hin) as Hnum.
  pose proof (cat_col_iff df Hwf col s Hin) as Hcat.
  pose proof (lookup_in_nodup _ _ _ (proj1 Hwf) Hin) as Hlk.
  split.
  { rewrite <- (map_id (columns df)) in Hin.
    pose proof (lookup_filter_map dtype_str (fun _ => true) (columns df)
                  col s (proj1 Hwf)) as H.
    rewrite map_id in Hin. specialize (H Hin).
    rewrite filter_all in H by (apply forallb_forall; reflexivity).
    exact H. }
  unfold has_entry. split; intro Hs.
  - split.
    + destruct Hnum as [_ Hnum]. specialize (Hnum Hs).
      rewrite (nonempty_in _ _ Hnum).
      eexists. eexists. split; [reflexivity|].
      rewrite lookup_assigned. apply existsb_eqb_in in Hnum. rewrite Hnum.
      unfold distribution_entry. rewrite Hlk. reflexivity.
    + intros (d & e & Hd & He).
      destruct (nonempty _); [|discriminate]. injection Hd as <-.
      rewrite lookup_assigned in He.
      destruct (existsb (String.eqb col) _) eqn:E; [|discriminate].
      apply existsb_eqb_in in E. apply Hcat in E. congruence.
  - split.
    + destruct Hcat as [_ Hcat]. specialize (Hcat Hs).
      rewrite (nonempty_in _ _ Hcat).
      eexists. eexists. split; [reflexivity|].
      rewrite lookup_assigned. apply existsb_eqb_in in Hcat. rewrite Hcat.
      unfold category_entry. rewrite Hlk. reflexivity.
    + intros (d & e & Hd & He).
      destruct (nonempty _); [|discriminate]. injection Hd as <-.
      rewrite lookup_assigned in He.
      destruct (existsb (String.eqb col) _) eqn:E; [|discriminate].
      apply existsb_eqb_in in E. apply Hnum in E. congruence.
Qed.

(** In the sales frame name is a category and sales a numeric column. *)
Lemma columns_split_by_dtype_witness :
  exists r,
    analyze_data unit (fun _ => tt) (fun _ => None) (fun _ => None) sales_df
      = Ok r
    /\ column_types unit r = [ ("name", "object"); ("sales", "int64") ]
    /\ has_entry (categorical_summary unit r) "name"
    /\ has_entry (distribution unit r) "sales".
Proof.
  destruct (columns_split_by_dtype unit (fun _ => tt) (fun _ => None)
              (fun _ => None) sales_df sales_df_well_formed)
    as (r & Hr & _ & _ & Hcols).
  exists r. split; [exact Hr|].
  destruct (Hcols "name" _ (or_introl eq_refl)) as (_ & _ & Hn).
  destruct (Hcols "sales" _ (or_intror (or_introl eq_refl))) as (_ & Hs & _).
  split; [|split; [apply (Hn eq_refl) | apply (Hs eq_refl)]].
  vm_compute in Hr. injection Hr as <-. reflexivity.
Defined.

(** X17. potential_outliers names only numeric columns of the frame, each
    with a count that is greater than 0 and at most the number of values of
    the column. *)
Theorem potential_outliers_sound
    (Describe : Type) (describe : list (string * Series) -> Describe)
    (skew kurt : Series -> floatR) (df : DataFrame) :
  well_formed df ->
  exists r,
    analyze_data Describe describe skew kurt df = Ok r
    /\ forall d col n,
         potential_outliers Describe r = Some d ->
         lookup col d = Some n ->
         (0 < n)%nat
         /\ exists dt vs,
              In (col, NumSeries dt vs) (columns df)
              /\ (n <= List.length (dropna vs))%nat.
Proof.
  intro Hwf. eexists. split; [apply analyze_data_ok, Hwf|].
  unfold analysis_of. cbn [potential_outliers].
  intros d col n Hd Hl.
  destruct (nonempty (select_number_columns df) && nonempty _);
    [|discriminate].
  injection Hd as <-. rewrite lookup_assigned in Hl.
  destruct (existsb (String.eqb col) _) eqn:E; [|discriminate].
  apply existsb_eqb_in in E.
  destruct (numeric_col_inv df col E) as (dt & vs & Hc).
  unfold outlier_entry in Hl.
  rewrite (lookup_in_nodup _ _ _ (proj1 Hwf) Hc) in Hl.
  destruct (Nat.ltb 0 (outliers_in vs)) eqn:Ep; [|discriminate].
  injection Hl as <-. apply Nat.ltb_lt in Ep. split; [exact Ep|].
  exists dt, vs. split; [exact Hc|].
  unfold outliers_in. rewrite count_outside_dropna. apply filter_length_le.
Qed.

Lemma potential_outliers_sound_witness :
  exists r d,
    analyze_data unit (fun _ => tt) (fun _ => None) (fun _ => None) spread_df
      = Ok r
    /\ potential_outliers unit r = Some d
    /\ forall col n, lookup col d = Some n -> (0 < n <= 5)%nat.
Proof.
  destruct (potential_outliers_sound unit (fun _ => tt) (fun _ => None)
              (fun _ => None) spread_df spread_df_well_formed)
    as (r & Hr & Hd).
  exists r. eexists. split; [exact Hr|].
  assert (E : potential_outliers unit r = Some [("v", 1%nat)]).
  { vm_compute in Hr. injection Hr as <-. reflexivity. }
  split; [exact E|].
  intros col n Hl. destruct (Hd _ col n E Hl) as (Hp & dt & vs & Hin & Hle).
  split; [exact Hp|].
  destruct Hin as [Hin | []]. injection Hin as _ _ <-.
  simpl in Hle. exact Hle.
Defined.

(** *** Cells that cannot be hashed *)

Lemma for_each_raises {A S : Type} (items : list A)
    (body : A -> S -> outcome S) (e : exn) (s : S) :
  (forall a s', In a items ->
     body a s' = Raise e \/ exists s'', body a s' = Ok s'') ->
  (exists a, In a items /\ forall s', body a s' = Raise e) ->
  for_each items body s = Raise e.
Proof.
  revert s. induction items as [|a items IH]; intros s Hall (b & Hb & Hr).
  - contradiction.
  - simpl. destruct (Hall a s (or_introl eq_refl)) as [E | (s'' & E)];
      rewrite E; [reflexivity|]. cbn [bind].
    destruct Hb as [<- | Hb].
    + rewrite Hr in E. discriminate.
    + apply IH.
      * intros a' s' Ha'. apply Hall. right. exact Ha'.
      * exists b. split; [exact Hb | exact Hr].
Qed.

Section Unhashable.

Variable df : DataFrame.
Hypothesis Hnd : NoDup (map fst (columns df)).

Lemma getitem_in (col : string) (s : Series) :
  In (col, s) (columns df) -> getitem df col = Ok s.
Proof.
  intro H. unfold getitem. rewrite (lookup_in_nodup _ _ _ Hnd H).
  reflexivity.
Qed.

Lemma select_columns_in (l acc : list (string * Series)) :
  incl l (columns df) ->
  for_each (map fst l)
    (fun col acc => s <- getitem df col ;; Ok (acc ++ [(col, s)])) acc
  = Ok (acc ++ l).
Proof.
  revert acc. induction l as [|[k s] l IH]; intros acc Hincl; simpl.
  - rewrite app_nil_r. reflexivity.
  - rewrite (getitem_in k s (Hincl _ (or_introl eq_refl))). simpl.
    rewrite IH.
    + rewrite <- app_assoc. reflexivity.
    + intros x Hx. apply Hincl. right. exact Hx.
Qed.

Lemma find_outliers_returns :
  exists outliers,
    find_outliers df (select_number_columns df) = Ok outliers.
Proof.
  unfold find_outliers. eexists.
  apply (for_each_pure _ _
           (fun d c => match outlier_entry df c with
                       | Some v => dict_set d c v
                       | None => d
                       end)).
  intros col d Hin. destruct (numeric_col_inv df col Hin) as (dt & vs & Hc).
  rewrite (getitem_in _ _ Hc). unfold outlier_entry.
  rewrite (lookup_in_nodup _ _ _ Hnd Hc). simpl.
  fold (lower_fence vs). fold (upper_fence vs). fold (outliers_in vs).
  destruct (Nat.ltb 0 (outliers_in vs)); reflexivity.
Qed.

Lemma summarize_categories_raises (cat_cols : list string) :
  incl cat_cols (map fst (columns df)) ->
  (exists col s, In col cat_cols /\ In (col, s) (columns df)
                 /\ forallb hashable (cells s) = false) ->
  summarize_categories df cat_cols = Raise (TypeError "unhashable type").
Proof.
  intros Hincl (col & s & Hc & Hin & Hh).
  unfold summarize_categories. apply for_each_raises.
  - intros a d Ha. specialize (Hincl a Ha). apply in_map_iff in Hincl.
    destruct Hincl as ([k s'] & E & Hin'). simpl in E. subst k.
    rewrite (getitem_in _ _ Hin'). cbn [bind].
    unfold value_counts, nunique, check_hashable.
    destruct (forallb hashable (cells s')); cbn [bind];
      [right; eexists; reflexivity | left; reflexivity].
  - exists col. split; [exact Hc|]. intro d.
    rewrite (getitem_in _ _ Hin). cbn [bind].
    unfold value_counts, check_hashable. rewrite Hh. reflexivity.
Qed.

End Unhashable.

(** X18. A frame whose labels are pairwise different but which has a
    column, not numeric, holding a list or a dict makes [analyze_data] raise
    TypeError (the values cannot be counted): no summary is returned. *)
Theorem unhashable_cells_raise
    (Describe : Type) (describe : list (string * Series) -> Describe)
    (skew kurt : Series -> floatR) (df : DataFrame)
    (col : string) (s : Series) :
  NoDup (map fst (columns df)) ->
  In (col, s) (columns df) ->
  is_numeric s = false ->
  forallb hashable (cells s) = false ->
  analyze_data Describe describe skew kurt df
  = Raise (TypeError "unhashable type").
Proof.
  intros Hnd Hin Hnum Hh. unfold analyze_data.
  set (numeric_cols := select_number_columns df).
  set (cat_cols :=
         filter (fun c => negb (existsb (String.eqb c) numeric_cols))
                (map fst (columns df))).
  assert (Hcat : In col cat_cols).
  { unfold cat_cols. apply filter_In. split.
    - apply in_map_iff. exists (col, s). auto.
    - apply negb_true_iff, not_true_is_false. intro H.
      apply existsb_eqb_in in H.
      destruct (numeric_col_inv df col H) as (dt & vs & Hc).
      pose proof (lookup_in_nodup _ _ _ Hnd Hin) as E1.
      pose proof (lookup_in_nodup _ _ _ Hnd Hc) as E2.
      rewrite E1 in E2. injection E2 as ->. discriminate. }
  assert (Hraise : summarize_categories df cat_cols
                   = Raise (TypeError "unhashable type")).
  { apply (summarize_categories_raises df Hnd).
    - intros c Hc. unfold cat_cols in Hc. apply filter_In in Hc. apply Hc.
    - exists col, s. auto. }
  rewrite (nonempty_in _ _ Hcat), Hraise.
  destruct (nonempty numeric_cols).
  - unfold numeric_cols, select_columns, select_number_columns.
    rewrite (select_columns_in df Hnd
               (filter (fun c => is_numeric (snd c)) (columns df)) [])
      by (intros x Hx; apply filter_In in Hx; apply Hx).
    cbn [bind].
    destruct (find_outliers_returns df Hnd) as [o Ho].
    fold (select_number_columns df). rewrite Ho. reflexivity.
  - reflexivity.
Qed.

(** The frame that [{"tags": ["a"]}] loads as cannot be analyzed. *)
Lemma unhashable_cells_raise_witness :
  frame_of_json (JArr [ JObj [ ("tags", JArr [JStr "a"]) ] ])
    = Ok MoreExamples.tags_df
  /\ analyze_data unit (fun _ => tt) (fun _ => None) (fun _ => None)
                  MoreExamples.tags_df
     = Raise (TypeError "unhashable type").
Proof.
  split; [reflexivity|].
  apply (unhashable_cells_raise unit (fun _ => tt) (fun _ => None)
           (fun _ => None) MoreExamples.tags_df "tags"
           (ObjSeries [CObj (JArr [JStr "a"])])).
  - simpl. constructor; [intros [] | constructor].
  - left. reflexivity.
  - reflexivity.
  - reflexivity.
Defined.

(** ** The pages *)

(** A supported chart type builds on a frame that has the two columns. *)
Lemma generate_chart_builds
    (df : DataFrame) (chart_type x_column y_column : string)
    (title : option string) (use_color : bool) (height : Z)
    (show_grid : bool) (xs ys : Series) (vs : list (option Q)) :
  In chart_type supported_chart_types ->
  lookup x_column (columns df) = Some xs ->
  forallb hashable (cells xs) = true ->
  lookup y_column (columns df) = Some ys ->
  summands ys = Ok vs ->
  (is_pie_or_donut chart_type = true -> x_column <> y_column) ->
  (10 <= height)%Z ->
  exists fig,
    generate_chart df chart_type x_column y_column title use_color height
                   show_grid = Ok fig.
Proof.
  intros Hin Hx Hhash Hy Hnum Hxy Hheight.
  destruct (is_pie_or_donut chart_type) eqn:Hpie.
  - rewrite (generate_chart_pie df chart_type x_column y_column title
               use_color height show_grid xs ys vs Hpie Hx Hhash Hy Hnum
               (Hxy eq_refl) Hheight).
    eexists. reflexivity.
  - unfold supported_chart_types, available_chart_types in Hin.
    simpl in Hin.
    destruct Hin as [<- | [<- | [<- | [<- | [<- | [<- | [<- | [<- | [<- | []]]]]]]]]];
      try discriminate Hpie;
      unfold generate_chart, create_figure, px_xy, px_hist, px_color,
        px_column, nunique, getitem, check_hashable, is_pie_or_donut;
      cbn [String.eqb Ascii.eqb Bool.eqb orb];
      destruct use_color; rewrite ?Hx, ?Hy; cbn [bind];
      rewrite (px_figure_ok _ _ _ _ _ _ _ _ Hheight); cbn [bind];
      rewrite ?Hx, ?Hy, ?Hhash; cbn [bind];
      try destruct (Nat.ltb 10 (List.length (unique (cells xs))));
      eexists; reflexivity.
Qed.

(** In a frame with pairwise different labels every label names a column,
    and a label among the numeric columns names a column of numbers. *)
Lemma label_lookup (df : DataFrame) (col : string) :
  NoDup (map fst (columns df)) ->
  In col (map fst (columns df)) ->
  exists s, In (col, s) (columns df) /\ lookup col (columns df) = Some s.
Proof.
  intros Hnd Hin. apply in_map_iff in Hin.
  destruct Hin as ([k s] & E & Hin). simpl in E. subst k.
  exists s. split; [exact Hin | apply lookup_in_nodup; assumption].
Qed.

Lemma numeric_lookup (df : DataFrame) (col : string) :
  NoDup (map fst (columns df)) ->
  In col (select_number_columns df) ->
  exists dt vs, lookup col (columns df) = Some (NumSeries dt vs).
Proof.
  intros Hnd Hin. destruct (numeric_col_inv df col Hin) as (dt & vs & H).
  exists dt, vs. apply lookup_in_nodup; assumption.
Qed.

Lemma well_formed_hashable (df : DataFrame) (col : string) (s : Series) :
  well_formed df -> In (col, s) (columns df) ->
  forallb hashable (cells s) = true.
Proof.
  intros (_ & _ & Hh) Hin. rewrite Forall_forall in Hh.
  exact (Hh _ Hin).
Qed.

Lemma chart_type_of_supported (w : App.Widgets) :
  In (App.w_chart_type w) available_chart_types ->
  In (App.chart_type_of w) supported_chart_types.
Proof.
  intro Hin. unfold App.chart_type_of, supported_chart_types.
  destruct (String.eqb (App.w_chart_type w) "pie").
  - destruct (App.w_donut w); apply in_or_app; simpl; auto 10.
  - apply in_or_app. left. exact Hin.
Qed.

(** X19. On the page of [app.py], a chart is always drawn for a well-formed
    frame with a numeric column: the type comes from the advertised ones (or
    is the donut made of a pie), the x column is a column of the frame and
    the y column, offered among the numeric columns only, is a column of
    numbers; a pie or donut needs the two columns to differ.  The grid is
    off (template plotly_white asked for) for every type other than bar and
    line. *)
Theorem page_chart_builds (df : DataFrame) (w : App.Widgets) :
  well_formed df ->
  App.offered df w ->
  select_number_columns df <> [] ->
  (App.w_chart_type w = "pie" -> App.w_x_axis w <> App.w_y_axis w) ->
  (exists fig, App.page_chart df w = Ok fig)
  /\ In (App.chart_type_of w) supported_chart_types
  /\ (App.chart_type_of w = "donut"
      <-> App.w_chart_type w = "pie" /\ App.w_donut w = true)
  /\ (App.show_grid_of w = true ->
      (App.w_chart_type w = "bar" \/ App.w_chart_type w = "line")
      /\ App.w_show_grid w = true).
Proof.
  intros Hwf (Ht & Hx & Hy & Hrange) Hnum Hxy.
  pose proof (chart_type_of_supported w Ht) as Hs.
  split; [|split; [exact Hs|split]].
  - destruct (label_lookup df _ (proj1 Hwf) Hx) as (xs & Hinx & Hlx).
    unfold App.y_options in Hy.
    destruct (select_number_columns df) as [|c cs] eqn:E;
      [contradiction Hnum; reflexivity|].
    cbn [nonempty] in Hy. rewrite <- E in Hy.
    destruct (numeric_lookup df _ (proj1 Hwf) Hy) as (dt & vs & Hly).
    unfold App.page_chart.
    apply (generate_chart_builds df _ _ _ _ _ _ _ xs (NumSeries dt vs) vs
             Hs Hlx (well_formed_hashable df _ _ Hwf Hinx) Hly eq_refl);
      [|lia].
    intro Hpie. apply Hxy. unfold App.chart_type_of in Hpie.
    destruct (String.eqb (App.w_chart_type w) "pie") eqn:Ep.
    + apply String.eqb_eq. exact Ep.
    + unfold is_pie_or_donut in Hpie. rewrite Ep in Hpie.
      cbn [orb] in Hpie. apply String.eqb_eq in Hpie.
      unfold available_chart_types in Ht. rewrite Hpie in Ht.
      simpl in Ht. repeat (destruct Ht as [Ht | Ht]; [discriminate Ht|]).
      contradiction.
  - unfold App.chart_type_of. split.
    + destruct (String.eqb (App.w_chart_type w) "pie") eqn:Ep.
      * apply String.eqb_eq in Ep. destruct (App.w_donut w).
        -- auto.
        -- discriminate.
      * intro Hd. rewrite Hd in Ht. unfold available_chart_types in Ht.
        simpl in Ht. repeat (destruct Ht as [Ht | Ht]; [discriminate Ht|]).
        contradiction.
    + intros [Hp Hd]. rewrite Hp, Hd. reflexivity.
  - unfold App.show_grid_of.
    destruct (String.eqb (App.w_chart_type w) "bar") eqn:Eb.
    + apply String.eqb_eq in Eb. cbn [orb]. auto.
    + destruct (String.eqb (App.w_chart_type w) "line") eqn:El.
      * apply String.eqb_eq in El. cbn [orb]. auto.
      * cbn [orb]. discriminate.
Qed.

(** A donut of sales by name on the sales frame. *)
Lemma page_chart_builds_witness :
  let w := App.mkWidgets "pie" "name" "sales" "sales vs name" true 400 true
             true in
  (exists fig, App.page_chart sales_df w = Ok fig)
  /\ App.chart_type_of w = "donut"
  /\ App.show_grid_of w = false.
Proof.
  intro w.
  destruct (page_chart_builds sales_df w) as (H & _ & _ & _).
  - exact sales_df_well_formed.
  - unfold App.offered. simpl. repeat split; auto 10; lia.
  - discriminate.
  - intros _. discriminate.
  - split; [exact H | split; reflexivity].
Defined.

(** *** The keys of the analysis and the lookups of the pages *)

Section ResultKeys.

Variable Describe : Type.
Variable describe : list (string * Series) -> Describe.
Variable skew : Series -> floatR.
Variable kurt : Series -> floatR.

Let Results := AnalysisResults Describe.

Ltac each_field r :=
  destruct r as [n m types summary matrix outliers cats missing dist];
  destruct summary, matrix, outliers, cats, missing, dist.

Lemma key_absent (r : Results) (key : string) :
  App.contains Describe r key = false ->
  App.results_getitem Describe r key = Raise (KeyError key).
Proof.
  unfold App.contains, App.keys, App.results_getitem. intro H.
  destruct (lookup key (App.items Describe r)) as [v|] eqn:E;
    [|reflexivity].
  exfalso. assert (Hin : In key (map fst (App.items Describe r))).
  { clear H. induction (App.items Describe r) as [|[k v'] l IH];
      simpl in E; [discriminate|].
    destruct (String.eqb key k) eqn:Ek.
    - apply String.eqb_eq in Ek. left. symmetry. exact Ek.
    - right. apply IH. exact E. }
  apply existsb_eqb_in in Hin. congruence.
Qed.

(** The keys the pages look up and [analyze_data] never assigns. *)
Lemma keys_never_assigned (r : Results) :
  App.contains Describe r "columns" = false
  /\ App.contains Describe r "recommendations" = false
  /\ App.contains Describe r "summary" = false
  /\ App.contains Describe r "correlations" = false.
Proof. each_field r; repeat split; reflexivity. Qed.

(** Which optional keys a result has, whatever the frame. *)
Lemma analyze_data_fields (df : DataFrame) (r : Results) :
  analyze_data Describe describe skew kurt df = Ok r ->
  let numeric_cols := select_number_columns df in
  (nonempty numeric_cols = true ->
   (exists d, numeric_summary Describe r = Some d)
   /\ (exists d, distribution Describe r = Some d))
  /\ (nonempty numeric_cols = false ->
      numeric_summary Describe r = None
      /\ correlation Describe r = None
      /\ potential_outliers Describe r = None
      /\ distribution Describe r = None)
  /\ ((exists m, correlation Describe r = Some m)
      <-> (1 < List.length numeric_cols)%nat).
Proof.
  intro H. cbv zeta. unfold analyze_data in H. cbv zeta in H.
  set (numeric_cols := select_number_columns df) in *.
  destruct (nonempty numeric_cols) eqn:En.
  - destruct (select_columns df numeric_cols) as [frame | e | why];
      cbn [bind] in H; try discriminate H.
    destruct (find_outliers df numeric_cols) as [outliers | e | why];
      cbn [bind] in H; try discriminate H.
    match type of H with
    | context [if nonempty ?c then _ else _] =>
        destruct (if nonempty c
                  then cat_summaries <- summarize_categories df c ;;
                       Ok (Some cat_summaries)
                  else Ok None) as [cats | e | why]
    end; cbn [bind] in H; try discriminate H.
    destruct (describe_distribution skew kurt df numeric_cols)
      as [d | e | why]; cbn [bind] in H; try discriminate H.
    injection H as <-. cbn [numeric_summary distribution correlation
                             potential_outliers fst snd].
    split; [intros _; split; eexists; reflexivity|].
    split; [discriminate|].
    destruct (Nat.ltb 1 (List.length numeric_cols)) eqn:El.
    + apply Nat.ltb_lt in El. split; [intros _; exact El|].
      intros _. eexists. reflexivity.
    + apply Nat.ltb_ge in El. split; [intros (m & Hm); discriminate Hm|].
      intro Hl. lia.
  - cbn [bind] in H.
    match type of H with
    | context [if nonempty ?c then _ else _] =>
        destruct (if nonempty c
                  then cat_summaries <- summarize_categories df c ;;
                       Ok (Some cat_summaries)
                  else Ok None) as [cats | e | why]
    end; cbn [bind] in H; try discriminate H.
    injection H as <-. cbn [numeric_summary distribution correlation
                             potential_outliers fst snd].
    split; [discriminate|].
    split; [auto|].
    split; [intros (m & Hm); discriminate Hm|].
    intro Hl. destruct numeric_cols as [|c [|c' cs]]; simpl in *;
      try lia; discriminate.
Qed.

End ResultKeys.

(** X20. The lookups of [app.py] in the analysis are the ones
    [analyze_data] serves: numeric_summary is read when the frame has a
    numeric column, and is there exactly then; correlation is there exactly
    when there are two numeric columns or more, so the second test of the
    page (on their number) never changes the outcome; distribution comes
    and goes with numeric_summary. *)
Theorem page_lookups_served
    (Describe : Type) (describe : list (string * Series) -> Describe)
    (skew kurt : Series -> floatR) (df : DataFrame)
    (r : AnalysisResults Describe) :
  analyze_data Describe describe skew kurt df = Ok r ->
  let numeric_cols := select_number_columns df in
  (nonempty numeric_cols = true ->
   exists d,
     App.results_getitem Describe r "numeric_summary" = Ok (App.VFrame Describe d))
  /\ App.contains Describe r "numeric_summary" = nonempty numeric_cols
  /\ App.contains Describe r "distribution" = nonempty numeric_cols
  /\ App.contains Describe r "correlation"
     = Nat.ltb 1 (List.length numeric_cols).
Proof.
  intros H numeric_cols.
  destruct (analyze_data_fields Describe describe skew kurt df r H)
    as (Hsome & Hnone & Hcorr).
  fold numeric_cols in Hsome, Hnone, Hcorr.
  assert (Hc : App.contains Describe r "correlation"
               = Nat.ltb 1 (List.length numeric_cols)).
  { destruct (Nat.ltb 1 (List.length numeric_cols)) eqn:El.
    - apply Nat.ltb_lt in El. apply Hcorr in El. destruct El as (m & Hm).
      clear - Hm.
      destruct r as [n k types summary matrix outliers cats missing dist].
      cbn [correlation] in Hm. subst matrix.
      destruct summary, outliers, cats, missing, dist; reflexivity.
    - apply Nat.ltb_ge in El.
      destruct (correlation Describe r) as [m|] eqn:Hm.
      + assert (1 < List.length numeric_cols)%nat
          by (apply Hcorr; eexists; reflexivity). lia.
      + clear - Hm.
        destruct r as [n k types summary matrix outliers cats missing dist].
        cbn [correlation] in Hm. subst matrix.
        destruct summary, outliers, cats, missing, dist; reflexivity. }
  destruct (nonempty numeric_cols) eqn:En.
  - destruct (Hsome eq_refl) as ((d & Hd) & (d' & Hd')).
    split; [intros _; exists d|split; [|split; [|exact Hc]]];
      clear - Hd Hd';
      destruct r as [n k types summary matrix outliers cats missing dist];
      cbn [numeric_summary distribution] in Hd, Hd'; subst summary dist;
      destruct matrix, outliers, cats, missing; reflexivity.
  - destruct (Hnone eq_refl) as (Hs & _ & _ & Hd).
    split; [discriminate|split; [|split; [|exact Hc]]];
      clear - Hs Hd;
      destruct r as [n k types summary matrix outliers cats missing dist];
      cbn [numeric_summary distribution] in Hs, Hd; subst summary dist;
      destruct matrix, outliers, cats, missing; reflexivity.
Qed.

(** The sales frame has one numeric column: a summary, no correlation. *)
Lemma page_lookups_served_witness :
  exists r,
    analyze_data unit (fun _ => tt) (fun _ => None) (fun _ => None) sales_df
    = Ok r
    /\ App.contains unit r "numeric_summary" = true
    /\ App.contains unit r "correlation" = false.
Proof.
  eexists. split; [reflexivity|].
  match goal with
  | |- App.contains unit ?r _ = _ /\ _ =>
      destruct (page_lookups_served unit (fun _ => tt) (fun _ => None)
                  (fun _ => None) sales_df r eq_refl)
        as (_ & Hs & _ & Hc)
  end.
  split; [exact Hs | exact Hc].
Defined.

(** X21. The upload block of [app_postgres.py] never reports success.  A
    file that loads and is analyzed is stored, with its analysis, and the
    page then shows the error 'columns': the success message reads a key
    the analysis does not have.  When the analysis raises, the new data is
    stored beside the analysis of the data before; when the load raises,
    the state is unchanged. *)
Theorem upload_reports_error
    (read_csv : UploadedFile -> encoding -> csv_result * UploadedFile)
    (json_load : UploadedFile -> json_result * UploadedFile)
    (Describe : Type) (describe : list (string * Series) -> Describe)
    (skew kurt : Series -> floatR)
    (st : App.State Describe) (uploaded_file : UploadedFile) :
  let upload :=
    App.upload read_csv json_load Describe describe skew kurt st
      uploaded_file in
  let loaded := fst (load_file read_csv json_load uploaded_file) in
  (forall st' m, upload = Ok (st', m) -> exists text, m = App.error text)
  /\ (forall e, loaded = Raise e ->
        upload = Ok (st, App.error ("Error: " ++ exn_str e)%string))
  /\ (forall df, loaded = Ok df ->
        let analyzed := analyze_data Describe describe skew kurt df in
        (forall r, analyzed = Ok r ->
           upload = Ok (App.mkState Describe (Some df) (Some r)
                          (App.charts Describe st),
                        App.error "Error: 'columns'"))
        /\ (forall e, analyzed = Raise e ->
              upload = Ok (App.mkState Describe (Some df)
                             (App.analysis Describe st)
                             (App.charts Describe st),
                           App.error ("Error: " ++ exn_str e)%string))).
Proof.
  intros upload loaded. subst upload. unfold App.upload. fold loaded.
  assert (Hkey : forall r,
             App.results_getitem Describe r "columns"
             = Raise (KeyError "columns")).
  { intro r. apply key_absent. apply keys_never_assigned. }
  split; [|split].
  - intros st' m. destruct loaded as [df | e | why]; cbn [App.or_error].
    + destruct (analyze_data Describe describe skew kurt df)
        as [r | e | why]; cbn [App.or_error].
      * rewrite Hkey. cbn [bind App.or_error]. intro H. injection H as _ <-.
        eexists. reflexivity.
      * intro H. injection H as _ <-. eexists. reflexivity.
      * discriminate.
    + intro H. injection H as _ <-. eexists. reflexivity.
    + discriminate.
  - intros e ->. reflexivity.
  - intros df ->. cbn [App.or_error]. split.
    + intros r ->. cbn [App.or_error]. rewrite Hkey. reflexivity.
    + intros e ->. reflexivity.
Qed.

(** The document with the rows (1, 2) and (2, 4) under "data" is stored as
    a frame of two rows, and the page shows the error. *)
Lemma upload_reports_error_witness :
  let st := App.mkState unit None None [] in
  let f := mkUploadedFile "points.json" [] 0 in
  exists r,
    App.upload read_csv_undecodable (json_load_finds xy_document) unit
      (fun _ => tt) (fun _ => None) (fun _ => None) st f
    = Ok (App.mkState unit (Some xy_df) (Some r) [],
          App.error "Error: 'columns'").
Proof.
  intros st f.
  destruct (upload_reports_error read_csv_undecodable
              (json_load_finds xy_document) unit (fun _ => tt)
              (fun _ => None) (fun _ => None) st f) as (_ & _ & H).
  destruct (H xy_df eq_refl) as (H1 & _).
  eexists. apply H1. reflexivity.
Defined.

(** X22. The button "Generate Recommended Charts" never draws a chart for
    uploaded data: no analysis has the key recommendations, so the page
    warns and the state stays as it is. *)
Theorem no_recommended_charts
    (Describe : Type) (st : App.State Describe) :
  App.generate_recommended_charts Describe st
  = Ok (st, App.warning
              "No chart recommendations available. Please upload data first.").
Proof.
  unfold App.generate_recommended_charts.
  destruct (App.analysis Describe st) as [r|]; [|reflexivity].
  destruct (keys_never_assigned Describe r) as (_ & -> & _).
  rewrite andb_false_r. reflexivity.
Qed.

(** *** The loops of "Create Multiple Charts" *)

Lemma for_each_appends_all {A C : Type} (items : list A)
    (body : A -> list C * nat -> outcome (list C * nat))
    (g : A -> list C) (s : list C * nat) :
  (forall a t, In a items ->
     body a t = Ok (fst t ++ g a, snd t + List.length (g a))%nat) ->
  for_each items body s
  = Ok (fst s ++ flat_map g items,
        snd s + List.length (flat_map g items))%nat.
Proof.
  revert s. induction items as [|a items IH]; intros s Hbody; simpl.
  - rewrite app_nil_r, Nat.add_0_r. destruct s; reflexivity.
  - rewrite (Hbody a s (or_introl eq_refl)). cbn [bind].
    rewrite (IH _ (fun a' u Hin => Hbody a' u (or_intror Hin))).
    cbn [fst snd]. rewrite length_app, <- app_assoc, Nat.add_assoc.
    reflexivity.
Qed.

Lemma flat_map_map {A B C : Type} (f : A -> B) (g : B -> list C)
    (l : list A) :
  flat_map g (map f l) = flat_map (fun a => g (f a)) l.
Proof.
  induction l as [|a l IH]; simpl; [reflexivity | rewrite IH; reflexivity].
Qed.

Lemma flat_map_flat_map {A B C : Type} (f : A -> list B) (g : B -> list C)
    (l : list A) :
  flat_map g (flat_map f l) = flat_map (fun a => flat_map g (f a)) l.
Proof.
  induction l as [|a l IH]; simpl; [reflexivity|].
  rewrite flat_map_app, IH. reflexivity.
Qed.

Lemma chart_of_combinations (df : DataFrame)
    (selected_types x_columns y_columns : list string) :
  flat_map (App.chart_of df)
    (App.combinations selected_types x_columns y_columns)
  = flat_map (fun chart_type =>
      flat_map (fun x_col =>
        flat_map (fun y_col => App.chart_of df (chart_type, x_col, y_col))
                 y_columns) x_columns) selected_types.
Proof.
  unfold App.combinations. rewrite flat_map_flat_map.
  apply flat_map_ext. intro chart_type. rewrite flat_map_flat_map.
  apply flat_map_ext. intro x_col. apply flat_map_map.
Qed.

Lemma length_flat_map_le {A B : Type} (g : A -> list B) (l : list A) :
  (forall a, List.length (g a) <= 1)%nat ->
  (List.length (flat_map g l) <= List.length l)%nat.
Proof.
  intro H. induction l as [|a l IH]; simpl; [lia|].
  rewrite length_app. specialize (H a). lia.
Qed.

Lemma length_flat_map_one {A B : Type} (g : A -> list B) (l : list A) :
  (forall a, In a l -> List.length (g a) = 1%nat) ->
  List.length (flat_map g l) = List.length l.
Proof.
  induction l as [|a l IH]; intro H; simpl; [reflexivity|].
  rewrite length_app, (H a (or_introl eq_refl)), IH; [reflexivity|].
  intros a' Hin. apply H. right. exact Hin.
Qed.

Lemma length_combinations (selected_types x_columns y_columns : list string) :
  List.length (App.combinations selected_types x_columns y_columns)
  = (List.length selected_types * (List.length x_columns
                                   * List.length y_columns))%nat.
Proof.
  unfold App.combinations.
  induction selected_types as [|t ts IH]; simpl; [reflexivity|].
  rewrite length_app, IH. f_equal.
  clear. induction x_columns as [|x xs' IH]; simpl; [reflexivity|].
  rewrite length_app, length_map, IH. reflexivity.
Qed.

Lemma in_combinations (selected_types x_columns y_columns : list string)
    (chart_type x_col y_col : string) :
  In (chart_type, x_col, y_col)
     (App.combinations selected_types x_columns y_columns)
  <-> In chart_type selected_types /\ In x_col x_columns
      /\ In y_col y_columns.
Proof.
  unfold App.combinations. rewrite in_flat_map. split.
  - intros (t & Ht & H). apply in_flat_map in H. destruct H as (x0 & Hx & H).
    apply in_map_iff in H. destruct H as (y0 & E & Hy).
    injection E as <- <- <-. auto.
  - intros (Ht & Hx & Hy). exists chart_type. split; [exact Ht|].
    apply in_flat_map. exists x_col. split; [exact Hx|].
    apply in_map_iff. exists y_col. split; [reflexivity | exact Hy].
Qed.

Lemma nonempty_false {A : Type} (l : list A) : nonempty l = false <-> l = [].
Proof. destruct l; simpl; split; intro H; congruence. Qed.

Lemma combinations_nil (selected_types x_columns y_columns : list string) :
  x_columns = [] \/ y_columns = [] \/ selected_types = [] ->
  App.combinations selected_types x_columns y_columns = [].
Proof.
  unfold App.combinations. intros [-> | [-> | ->]].
  - induction selected_types as [|t ts IH]; simpl; [reflexivity | exact IH].
  - assert (Hx : forall chart_type : string,
               flat_map (fun x_col : string =>
                           map (fun y_col : string =>
                                  (chart_type, x_col, y_col)) [])
                        x_columns = []).
    { intro chart_type.
      induction x_columns as [|x0 xs' IHx]; [reflexivity | exact IHx]. }
    induction selected_types as [|t ts IH]; cbn [flat_map]; [reflexivity|].
    rewrite IH, Hx. reflexivity.
  - reflexivity.
Qed.

(** A loop that cannot fail, whose body appends to a list and counts what
    it appends. *)
Lemma fold_left_appends {A C : Type} (items : list A)
    (body : A -> list C * nat -> list C * nat)
    (g : A -> list C) (s : list C * nat) :
  (forall a t, body a t = (fst t ++ g a, snd t + List.length (g a))%nat) ->
  fold_left (fun t a => body a t) items s
  = (fst s ++ flat_map g items,
     snd s + List.length (flat_map g items))%nat.
Proof.
  intro Hbody. revert s. induction items as [|a items IH]; intro s; simpl.
  - rewrite app_nil_r, Nat.add_0_r. destruct s; reflexivity.
  - rewrite IH, Hbody. cbn [fst snd].
    rewrite length_app, <- app_assoc, Nat.add_assoc. reflexivity.
Qed.

(** The loop that may fail and the loop that cannot agree where the first
    returns. *)
Lemma for_each_fold_left {A S : Type} (items : list A)
    (body : A -> S -> outcome S) (body' : A -> S -> S) (s s' : S) :
  (forall a t t', body a t = Ok t' -> body' a t = t') ->
  for_each items body s = Ok s' ->
  fold_left (fun t a => body' a t) items s = s'.
Proof.
  intro Hbody. revert s. induction items as [|a items IH]; intros s H;
    simpl in *.
  - injection H as <-. reflexivity.
  - destruct (body a s) as [t | e | why] eqn:E; cbn [bind] in H;
      try discriminate H.
    rewrite (Hbody a s t E). apply IH. exact H.
Qed.

Lemma flat_map_combinations {C : Type} (g : string * string * string -> list C)
    (selected_types x_columns y_columns : list string) :
  flat_map g (App.combinations selected_types x_columns y_columns)
  = flat_map (fun chart_type =>
      flat_map (fun x_col =>
        flat_map (fun y_col => g (chart_type, x_col, y_col))
                 y_columns) x_columns) selected_types.
Proof.
  unfold App.combinations. rewrite flat_map_flat_map.
  apply flat_map_ext. intro chart_type. rewrite flat_map_flat_map.
  apply flat_map_ext. intro x_col. apply flat_map_map.
Qed.

Section EverySelection.

Variable beyond : DataFrame -> string -> string -> string -> option Figure.
Variable df : DataFrame.

Lemma try_create_chart_appends (chart_type x_col y_col : string)
    (t : list App.Chart * nat) :
  App.try_create_chart beyond df chart_type x_col y_col t
  = (fst t ++ App.chart_for beyond df (chart_type, x_col, y_col),
     snd t
     + List.length (App.chart_for beyond df (chart_type, x_col, y_col)))%nat.
Proof.
  unfold App.try_create_chart, App.chart_for.
  destruct (App.try_generate_chart beyond df chart_type x_col y_col).
  - cbn [List.length]. rewrite Nat.add_1_r. reflexivity.
  - rewrite app_nil_r. cbn [List.length]. rewrite Nat.add_0_r.
    destruct t; reflexivity.
Qed.

Lemma try_create_chart_agrees (chart_type x_col y_col : string)
    (t t' : list App.Chart * nat) :
  App.create_chart df chart_type x_col y_col t = Ok t' ->
  App.try_create_chart beyond df chart_type x_col y_col t = t'.
Proof.
  unfold App.create_chart, App.try_create_chart, App.try_generate_chart,
    App.chart_title.
  destruct (generate_chart df chart_type x_col y_col _ true 400 true)
    as [fig | e | why]; intro H; try discriminate H; injection H as <-;
    reflexivity.
Qed.

(** The block appends the charts of the requests, in their order. *)
Lemma create_multiple_charts_block_appends
    (selected_types x_columns y_columns : list string)
    (charts : list App.Chart) :
  let new :=
    flat_map (App.chart_for beyond df)
      (App.combinations selected_types x_columns y_columns) in
  App.create_multiple_charts_block beyond df selected_types x_columns
    y_columns charts
  = (charts ++ new,
     if negb (nonempty x_columns) || negb (nonempty y_columns)
        || negb (nonempty selected_types)
     then App.warning
            "Please select at least one X column, Y column, and chart type"
     else App.success_created (List.length new)).
Proof.
  intro new. unfold App.create_multiple_charts_block.
  destruct (negb (nonempty x_columns) || negb (nonempty y_columns)
            || negb (nonempty selected_types)) eqn:Eg.
  - assert (Hnil : App.combinations selected_types x_columns y_columns = []).
    { apply combinations_nil.
      apply orb_true_iff in Eg. destruct Eg as [Eg | Eg].
      - apply orb_true_iff in Eg. destruct Eg as [Eg | Eg];
          apply negb_true_iff, nonempty_false in Eg; auto.
      - apply negb_true_iff, nonempty_false in Eg. auto. }
    unfold new. rewrite Hnil. simpl. rewrite app_nil_r. reflexivity.
  - cbv zeta.
    rewrite (fold_left_appends selected_types
               (fun chart_type s =>
                  fold_left
                    (fun s x_col =>
                       fold_left
                         (fun s y_col =>
                            App.try_create_chart beyond df chart_type x_col
                              y_col s)
                         y_columns s)
                    x_columns s)
               (fun chart_type =>
                  flat_map (fun x_col =>
                    flat_map (fun y_col =>
                                App.chart_for beyond df
                                  (chart_type, x_col, y_col))
                             y_columns) x_columns)).
    + rewrite <- flat_map_combinations. fold new. reflexivity.
    + intros chart_type t.
      apply (fold_left_appends x_columns
               (fun x_col s =>
                  fold_left
                    (fun s y_col =>
                       App.try_create_chart beyond df chart_type x_col y_col
                         s)
                    y_columns s)).
      intros x_col u.
      apply (fold_left_appends y_columns
               (fun y_col s =>
                  App.try_create_chart beyond df chart_type x_col y_col s)).
      intros y_col v. apply try_create_chart_appends.
Qed.

(** Where the model of the block that follows [generate_chart] to its end
    returns, it returns what the block does. *)
Lemma create_multiple_charts_block_agrees
    (selected_types x_columns y_columns : list string)
    (charts charts' : list App.Chart) (m : App.message) :
  App.create_multiple_charts df selected_types x_columns y_columns charts
  = Ok (charts', m) ->
  App.create_multiple_charts_block beyond df selected_types x_columns
    y_columns charts = (charts', m).
Proof.
  unfold App.create_multiple_charts, App.create_multiple_charts_block.
  destruct (negb (nonempty x_columns) || negb (nonempty y_columns)
            || negb (nonempty selected_types)).
  - intro H. injection H as <- <-. reflexivity.
  - match goal with
    | |- (s <- ?loop ;; _) = _ -> _ => destruct loop as [s | e | why] eqn:El
    end; cbn [bind]; intro H; try discriminate H.
    injection H as <- <-. cbv zeta.
    apply (for_each_fold_left selected_types _
             (fun chart_type s =>
                fold_left
                  (fun s x_col =>
                     fold_left
                       (fun s y_col =>
                          App.try_create_chart beyond df chart_type x_col
                            y_col s)
                       y_columns s)
                  x_columns s)) in El.
    + rewrite El. reflexivity.
    + intros chart_type t t'.
      apply (for_each_fold_left x_columns _
               (fun x_col s =>
                  fold_left
                    (fun s y_col =>
                       App.try_create_chart beyond df chart_type x_col y_col
                         s)
                    y_columns s)).
      intros x_col u u'.
      apply (for_each_fold_left y_columns _
               (fun y_col s =>
                  App.try_create_chart beyond df chart_type x_col y_col s)).
      intros y_col v v'. apply try_create_chart_agrees.
Qed.

Lemma chart_for_built (request : string * string * string) (c : App.Chart) :
  In c (App.chart_for beyond df request) ->
  request = (App.type c, App.x c, App.y c)
  /\ App.try_generate_chart beyond df (App.type c) (App.x c) (App.y c)
     = Some (App.figure c)
  /\ App.title c = App.chart_title (App.type c) (App.x c) (App.y c)
  /\ App.use_color c = true /\ App.height c = 400%Z
  /\ App.show_grid c = true.
Proof.
  destruct request as [[chart_type x_col] y_col]. unfold App.chart_for.
  destruct (App.try_generate_chart beyond df chart_type x_col y_col)
    as [fig|] eqn:E; cbn [In]; intro H; try contradiction.
  destruct H as [<- | []].
  cbn [App.type App.x App.y App.title App.figure App.use_color App.height
       App.show_grid].
  rewrite E. auto 10.
Qed.

Lemma chart_for_keys (requests : list (string * string * string)) :
  map (fun c => (App.type c, App.x c, App.y c))
      (flat_map (App.chart_for beyond df) requests)
  = filter (App.builds beyond df) requests.
Proof.
  induction requests as [|[[chart_type x_col] y_col] requests IH];
    [reflexivity|].
  cbn [flat_map filter]. rewrite map_app, IH.
  unfold App.chart_for at 1, App.builds at 2.
  destruct (App.try_generate_chart beyond df chart_type x_col y_col);
    reflexivity.
Qed.

End EverySelection.

(** X23. "Create Multiple Charts" always completes.  With an empty
    selection it warns and leaves the charts of the session as they are.
    Otherwise it appends to them, in the order of the loops (types, then x
    columns, then y columns), one chart for each combination on which
    [generate_chart] returns a figure and none for a combination on which
    it raises; each chart holds that figure, the title "<Type> of <y> by
    <x>", the colours on, height 400 and the grid on; the number reported
    is the number of charts appended, at most the number of combinations.
    Where the model of [generate_chart] stops, the figure is the one the
    libraries return ([beyond]).  Where the model of the block that follows
    every call to its end returns, it returns the same charts and
    message. *)
Theorem multiple_charts_counted
    (beyond : DataFrame -> string -> string -> string -> option Figure)
    (df : DataFrame) (selected_types x_columns y_columns : list string)
    (charts : list App.Chart) :
  let requests := App.combinations selected_types x_columns y_columns in
  exists new m,
    App.create_multiple_charts_block beyond df selected_types x_columns
      y_columns charts = (charts ++ new, m)
    /\ map (fun c => (App.type c, App.x c, App.y c)) new
       = filter (App.builds beyond df) requests
    /\ (List.length new <= List.length selected_types
                           * (List.length x_columns * List.length y_columns))%nat
    /\ (forall c, In c new ->
          App.title c
          = (App.capitalize (App.type c) ++ " of " ++ App.y c ++ " by "
             ++ App.x c)%string
          /\ (generate_chart df (App.type c) (App.x c) (App.y c)
                (Some (App.title c)) true 400 true = Ok (App.figure c)
              \/ (exists why,
                    generate_chart df (App.type c) (App.x c) (App.y c)
                      (Some (App.title c)) true 400 true = Unmodelled why)
                 /\ beyond df (App.type c) (App.x c) (App.y c)
                    = Some (App.figure c))
          /\ App.use_color c = true /\ App.height c = 400%Z
          /\ App.show_grid c = true)
    /\ (forall chart_type x_col y_col fig,
          In (chart_type, x_col, y_col) requests ->
          generate_chart df chart_type x_col y_col
            (Some (App.chart_title chart_type x_col y_col)) true 400 true
          = Ok fig ->
          In (App.mkChart chart_type fig
                (App.chart_title chart_type x_col y_col) x_col y_col
                true 400 true) new)
    /\ (forall chart_type x_col y_col e,
          generate_chart df chart_type x_col y_col
            (Some (App.chart_title chart_type x_col y_col)) true 400 true
          = Raise e ->
          forall c, In c new ->
            (App.type c, App.x c, App.y c) <> (chart_type, x_col, y_col))
    /\ (selected_types <> [] -> x_columns <> [] -> y_columns <> [] ->
        m = App.success_created (List.length new))
    /\ (selected_types = [] \/ x_columns = [] \/ y_columns = [] ->
        new = []
        /\ m = App.warning
                 "Please select at least one X column, Y column, and chart type")
    /\ (forall charts' m',
          App.create_multiple_charts df selected_types x_columns y_columns
            charts = Ok (charts', m') ->
          charts' = charts ++ new /\ m' = m).
Proof.
  intro requests.
  set (new := flat_map (App.chart_for beyond df) requests).
  pose proof (create_multiple_charts_block_appends beyond df selected_types
                x_columns y_columns charts) as Hblock.
  cbv zeta in Hblock. fold requests in Hblock. fold new in Hblock.
  assert (Hnew : forall c, In c new ->
            In (App.type c, App.x c, App.y c) requests
            /\ App.try_generate_chart beyond df (App.type c) (App.x c)
                 (App.y c) = Some (App.figure c)
            /\ App.title c
               = App.chart_title (App.type c) (App.x c) (App.y c)
            /\ App.use_color c = true /\ App.height c = 400%Z
            /\ App.show_grid c = true).
  { intros c Hc. unfold new in Hc. apply in_flat_map in Hc.
    destruct Hc as (request & Hr & Hc).
    destruct (chart_for_built beyond df request c Hc) as (E & Hrest).
    rewrite <- E. auto. }
  eexists new, _. split; [exact Hblock|].
  split; [apply chart_for_keys|].
  split.
  { unfold new, requests. rewrite <- length_combinations.
    apply length_flat_map_le. intros [[t x0] y0]. unfold App.chart_for.
    destruct (App.try_generate_chart beyond df t x0 y0); simpl; lia. }
  split.
  { intros c Hc. destruct (Hnew c Hc) as (_ & Hfig & Ht & Hflags).
    split; [exact Ht|]. split; [|exact Hflags].
    rewrite Ht. unfold App.try_generate_chart in Hfig.
    destruct (generate_chart df (App.type c) (App.x c) (App.y c) _ true 400
                true) as [fig | e | why].
    - left. congruence.
    - discriminate Hfig.
    - right. split; [exists why; reflexivity | exact Hfig]. }
  split.
  { intros chart_type x_col y_col fig Hin Hfig. unfold new.
    apply in_flat_map. exists (chart_type, x_col, y_col).
    split; [exact Hin|]. unfold App.chart_for, App.try_generate_chart.
    rewrite Hfig. left. reflexivity. }
  split.
  { intros chart_type x_col y_col e He c Hc E.
    destruct (Hnew c Hc) as (_ & Hfig & _).
    injection E as Et Ex Ey. rewrite Et, Ex, Ey in Hfig.
    unfold App.try_generate_chart in Hfig. rewrite He in Hfig.
    discriminate Hfig. }
  split.
  { intros Ht Hx Hy.
    destruct x_columns; [contradiction Hx; reflexivity|].
    destruct y_columns; [contradiction Hy; reflexivity|].
    destruct selected_types; [contradiction Ht; reflexivity|].
    reflexivity. }
  split.
  { intro H. split.
    - unfold new, requests. rewrite combinations_nil; [reflexivity|].
      tauto.
    - destruct H as [-> | [-> | ->]]; simpl.
      + rewrite orb_true_r. reflexivity.
      + reflexivity.
      + destruct (negb (nonempty x_columns)); reflexivity. }
  intros charts' m' H.
  apply (create_multiple_charts_block_agrees beyond) in H.
  rewrite Hblock in H. injection H as H1 H2. auto.
Qed.

(** On the frame name = A, B, A with sales = 10, 20, 5, bar and pie charts
    of sales and of name by name.  The pie of name by name sums text, where
    the model stops: when that call raises, the other three combinations
    give the charts and 3 is reported; when it returns a figure, there are
    four charts, the last one with that figure. *)
Lemma multiple_charts_counted_witness :
  (let result :=
     App.create_multiple_charts_block (fun _ _ _ _ => None) sales_df
       ["bar"; "pie"] ["name"] ["sales"; "name"] [] in
   map (fun c => (App.type c, App.x c, App.y c, App.title c)) (fst result)
   = [("bar", "name", "sales", "Bar of sales by name");
      ("bar", "name", "name", "Bar of name by name");
      ("pie", "name", "sales", "Pie of sales by name")]
   /\ snd result = App.success_created 3)
  /\ (let fig := pie_figure [] "returned" 400 None in
      let result :=
        App.create_multiple_charts_block (fun _ _ _ _ => Some fig) sales_df
          ["bar"; "pie"] ["name"] ["sales"; "name"] [] in
      map (fun c => (App.type c, App.x c, App.y c)) (fst result)
      = [("bar", "name", "sales"); ("bar", "name", "name");
         ("pie", "name", "sales"); ("pie", "name", "name")]
      /\ option_map App.figure (nth_error (fst result) 3) = Some fig
      /\ snd result = App.success_created 4).
Proof.
  split.
  - cbv zeta.
    destruct (multiple_charts_counted (fun _ _ _ _ => None) sales_df
                ["bar"; "pie"] ["name"] ["sales"; "name"] [])
      as (new & m & Hblock & Hkeys & _ & Htitle & _ & _ & Hm & _).
    rewrite Hblock. cbn [fst snd app].
    rewrite Hm by discriminate.
    assert (Hk : map (fun c => (App.type c, App.x c, App.y c)) new
                 = [("bar", "name", "sales"); ("bar", "name", "name");
                    ("pie", "name", "sales")])
      by (rewrite Hkeys; vm_compute; reflexivity).
    destruct new as [|c1 [|c2 [|c3 [|c4 new]]]]; try discriminate Hk.
    injection Hk as E1 E2 E3 E4 E5 E6 E7 E8 E9.
    split; [|reflexivity].
    cbn [map].
    rewrite (proj1 (Htitle c1 (or_introl eq_refl))).
    rewrite (proj1 (Htitle c2 (or_intror (or_introl eq_refl)))).
    rewrite (proj1 (Htitle c3 (or_intror (or_intror (or_introl eq_refl))))).
    rewrite E1, E2, E3, E4, E5, E6, E7, E8, E9. reflexivity.
  - cbv zeta.
    destruct (multiple_charts_counted
                (fun _ _ _ _ => Some (pie_figure [] "returned" 400 None))
                sales_df ["bar"; "pie"] ["name"] ["sales"; "name"] [])
      as (new & m & Hblock & Hkeys & _ & Hfig & _ & _ & Hm & _).
    rewrite Hblock. cbn [fst snd app].
    rewrite Hm by discriminate.
    assert (Hk : map (fun c => (App.type c, App.x c, App.y c)) new
                 = [("bar", "name", "sales"); ("bar", "name", "name");
                    ("pie", "name", "sales"); ("pie", "name", "name")])
      by (rewrite Hkeys; vm_compute; reflexivity).
    split; [exact Hk|].
    destruct new as [|c1 [|c2 [|c3 [|c4 [|c5 new]]]]]; try discriminate Hk.
    split; [|reflexivity].
    cbn [nth_error option_map]. f_equal.
    destruct (Hfig c4) as (Ht & [Hok | [_ Hb]] & _).
    + right. right. right. left. reflexivity.
    + exfalso. injection Hk as _ _ _ _ _ _ _ _ _ E10 E11 E12.
      rewrite Ht, E10, E11, E12 in Hok. vm_compute in Hok.
      discriminate Hok.
    + injection Hb as <-. reflexivity.
Defined.

Lemma create_chart_built (df : DataFrame) (chart_type x_col y_col : string)
    (t : list App.Chart * nat) :
  (exists fig,
     generate_chart df chart_type x_col y_col
       (Some (App.capitalize chart_type ++ " of " ++ y_col ++ " by "
              ++ x_col)%string) true 400 true = Ok fig) ->
  List.length (App.chart_of df (chart_type, x_col, y_col)) = 1%nat
  /\ App.create_chart df chart_type x_col y_col t
     = Ok (fst t ++ App.chart_of df (chart_type, x_col, y_col),
           snd t + List.length (App.chart_of df (chart_type, x_col, y_col)))%nat.
Proof.
  intros (fig & Hfig). unfold App.create_chart, App.chart_of.
  rewrite Hfig. cbn [List.length]. rewrite Nat.add_1_r. auto.
Qed.

(** X24. When every selected type is an advertised one, every x column a
    column of a well-formed frame and every y column one of its numeric
    columns, "Create Multiple Charts" builds a chart for every combination
    and reports their number, the product of the three selections; if pie is
    selected the x and y selections must not share a column. *)
Theorem all_combinations_built
    (df : DataFrame) (selected_types x_columns y_columns : list string)
    (charts : list App.Chart) :
  well_formed df ->
  selected_types <> [] -> x_columns <> [] -> y_columns <> [] ->
  incl selected_types available_chart_types ->
  incl x_columns (map fst (columns df)) ->
  incl y_columns (select_number_columns df) ->
  (In "pie" selected_types ->
   forall col, In col x_columns -> ~ In col y_columns) ->
  exists new,
    App.create_multiple_charts df selected_types x_columns y_columns charts
    = Ok (charts ++ new,
          App.success_created
            (List.length selected_types
             * (List.length x_columns * List.length y_columns)))
    /\ List.length new
       = (List.length selected_types
          * (List.length x_columns * List.length y_columns))%nat
    /\ map (fun c => (App.type c, App.x c, App.y c)) new
       = App.combinations selected_types x_columns y_columns.
Proof.
  intros Hwf Ht Hx Hy Hts Hxs Hys Hpie.
  assert (Hbuilt : forall chart_type x_col y_col,
            In chart_type selected_types -> In x_col x_columns ->
            In y_col y_columns ->
            exists fig,
              generate_chart df chart_type x_col y_col
                (Some (App.capitalize chart_type ++ " of " ++ y_col
                       ++ " by " ++ x_col)%string) true 400 true = Ok fig).
  { intros chart_type x_col y_col Hct Hcx Hcy.
    destruct (label_lookup df _ (proj1 Hwf) (Hxs _ Hcx)) as (xs & Hinx & Hlx).
    destruct (numeric_lookup df _ (proj1 Hwf) (Hys _ Hcy))
      as (dt & vs & Hly).
    apply (generate_chart_builds df _ _ _ _ _ _ _ xs (NumSeries dt vs) vs);
      try assumption.
    - unfold supported_chart_types. apply in_or_app. left. auto.
    - apply (well_formed_hashable df _ _ Hwf Hinx).
    - reflexivity.
    - intros Hp E. subst y_col.
      destruct (is_pie_or_donut_inv _ Hp) as [-> | ->].
      + exact (Hpie Hct _ Hcx Hcy).
      + specialize (Hts _ Hct). unfold available_chart_types in Hts.
        simpl in Hts.
        repeat (destruct Hts as [Hts | Hts]; [discriminate Hts|]).
        contradiction.
    - lia. }
  set (new := flat_map (App.chart_of df)
                (App.combinations selected_types x_columns y_columns)).
  assert (Hone : forall request,
            In request
               (App.combinations selected_types x_columns y_columns) ->
            exists c, App.chart_of df request = [c]
                      /\ (App.type c, App.x c, App.y c) = request).
  { intros [[chart_type x_col] y_col] Hin. apply in_combinations in Hin.
    destruct Hin as (Hct & Hcx & Hcy).
    destruct (Hbuilt _ _ _ Hct Hcx Hcy) as (fig & Hfig).
    unfold App.chart_of. rewrite Hfig. eexists. split; reflexivity. }
  exists new. split; [|split].
  - unfold App.create_multiple_charts.
    destruct x_columns as [|x0 xs']; [contradiction Hx; reflexivity|].
    destruct y_columns as [|y0 ys']; [contradiction Hy; reflexivity|].
    destruct selected_types as [|t0 ts']; [contradiction Ht; reflexivity|].
    cbn [nonempty negb orb].
    set (types := t0 :: ts') in *. set (xs := x0 :: xs') in *.
    set (ys := y0 :: ys') in *.
    rewrite (for_each_appends_all types _
               (fun chart_type =>
                  flat_map (fun x_col =>
                    flat_map (fun y_col =>
                                App.chart_of df (chart_type, x_col, y_col))
                             ys) xs)).
    + cbn [bind fst snd]. rewrite <- chart_of_combinations. fold new.
      rewrite Nat.add_0_l. f_equal. f_equal. f_equal.
      unfold new. rewrite <- length_combinations.
      apply length_flat_map_one. intros request Hin.
      destruct (Hone request Hin) as (c & -> & _). reflexivity.
    + intros chart_type t Hct.
      apply (for_each_appends_all xs _
               (fun x_col =>
                  flat_map (fun y_col =>
                              App.chart_of df (chart_type, x_col, y_col))
                           ys)).
      intros x_col u Hcx.
      apply (for_each_appends_all ys _
               (fun y_col => App.chart_of df (chart_type, x_col, y_col))).
      intros y_col v Hcy.
      apply create_chart_built. apply Hbuilt; assumption.
  - unfold new. rewrite <- length_combinations.
    apply length_flat_map_one. intros request Hin.
    destruct (Hone request Hin) as (c & -> & _). reflexivity.
  - unfold new. clear - Hone.
    induction (App.combinations selected_types x_columns y_columns)
      as [|request l IH]; [reflexivity|].
    cbn [flat_map]. rewrite map_app.
    destruct (Hone request (or_introl eq_refl)) as (c & -> & Hc).
    cbn [map app]. rewrite Hc. f_equal.
    apply IH. intros r Hr. apply Hone. right. exact Hr.
Qed.

(** All eight advertised types of y by x on the frame of the points. *)
Lemma all_combinations_built_witness :
  exists new,
    App.create_multiple_charts xy_df available_chart_types ["x"] ["y"] []
    = Ok (new, App.success_created 8)
    /\ List.length new = 8%nat.
Proof.
  destruct (all_combinations_built xy_df available_chart_types ["x"] ["y"] [])
    as (new & H & Hl & _).
  - exact xy_df_well_formed.
  - discriminate.
  - discriminate.
  - discriminate.
  - intros t Ht. exact Ht.
  - intros c [<- | []]. simpl. auto.
  - intros c [<- | []]. simpl. auto.
  - intros _ c [<- | []] [E | []]. discriminate E.
  - exists new. split; [exact H | exact Hl].
Defined.
